(** * Telegram-Archiver: a shallow embedding and its verified properties

    The development follows the Python sources
    [telegram_archiver.py], [telegram_monitor.py] and [web_frontend.py],
    and the parts of [run_archiver.py] and [launch_web.py] that read the
    same configuration and the same archive directories.

    Conventions of the embedding.
    - Python [str] values are Rocq [string]s; one [ascii] stands for one
      character of the Python string.  Case folding ([str.lower], the
      [re.IGNORECASE] flag) is the ASCII one.
    - Python [int] is [Z]; [len] results and list positions are [nat].
    - A method that raises inside the handler's [try] block is a
      computation in the error monad [exn]; the [except] branch of the
      source is the match on [Raise].
    - Files are explicit state: the handlers take the store and return
      the new store next to their answer. *)

From Stdlib Require Import ZArith Ascii String Lia Decimal DecimalString Sorted.
From stdpp Require Import base option list strings gmap.

Local Open Scope string_scope.
Local Open Scope Z_scope.

(** ** Python string primitives *)

Module Py.

(** The line feed, by character code. *)
Definition LF : ascii := "010"%char.
Definition nl : string := String LF "".

(** [len(s)] *)
Definition len (s : string) : nat := String.length s.

(** [s[:n]] for [n >= 0]. *)
Fixpoint slice_to (n : nat) (s : string) : string :=
  match n, s with
  | O, _ => ""
  | S _, "" => ""
  | S n', String c s' => String c (slice_to n' s')
  end.

(** [s[n:]] for [n >= 0]. *)
Fixpoint slice_from (n : nat) (s : string) : string :=
  match n, s with
  | O, _ => s
  | S _, "" => ""
  | S n', String _ s' => slice_from n' s'
  end.

(** [s[i]] as an option: [None] is Python's [IndexError]. *)
Definition char_at (i : nat) (s : string) : option ascii := String.get i s.

(** [re.sub('[...]', repl, s)] for a pattern that is one character
    class: every character of the class is replaced, the others are
    copied. *)
Fixpoint re_sub_class (cls : ascii -> bool) (repl : string) (s : string) : string :=
  match s with
  | "" => ""
  | String c s' =>
      (if cls c then repl else String c "") +:+ re_sub_class cls repl s'
  end.

(** [str(n)] and the [{n}] of an f-string, for an [int]. *)
Definition str_of_int (n : Z) : string := NilZero.string_of_int (Z.to_int n).
Definition str_of_nat (n : nat) : string := NilZero.string_of_uint (Nat.to_uint n).

(** [s.startswith(p)] *)
Definition startswith (p s : string) : bool := String.prefix p s.

(** ASCII upper-case letters and [c.lower()]. *)
Definition is_upper (c : ascii) : bool :=
  let n := nat_of_ascii c in (65 <=? n)%nat && (n <=? 90)%nat.
Definition lower_char (c : ascii) : ascii :=
  if is_upper c then ascii_of_nat (nat_of_ascii c + 32) else c.

(** [s.lower()] *)
Fixpoint lower (s : string) : string :=
  match s with
  | "" => ""
  | String c s' => String (lower_char c) (lower s')
  end.

(** Whitespace as [str.isspace] has it on the ASCII range:
    TAB, LF, VT, FF, CR, the separators 28..31 and the space. *)
Definition is_space (c : ascii) : bool :=
  let n := nat_of_ascii c in
  ((9 <=? n)%nat && (n <=? 13)%nat) || ((28 <=? n)%nat && (n <=? 32)%nat).

(** [s.lstrip()], [s.rstrip()], [s.strip()] *)
Fixpoint lstrip (s : string) : string :=
  match s with
  | "" => ""
  | String c s' => if is_space c then lstrip s' else s
  end.
Fixpoint rstrip (s : string) : string :=
  match s with
  | "" => ""
  | String c s' =>
      match rstrip s' with
      | "" => if is_space c then "" else String c ""
      | r => String c r
      end
  end.
Definition strip (s : string) : string := rstrip (lstrip s).

(** Truthiness of a [str]. *)
Definition truthy (s : string) : bool :=
  match s with "" => false | _ => true end.

(** [needle in hay] for two strings. *)
Fixpoint contains (needle hay : string) : bool :=
  startswith needle hay ||
  match hay with
  | "" => false
  | String _ hay' => contains needle hay'
  end.

(** [s.rfind(c)] of one character: the last position of [c], if any. *)
Fixpoint rfind_char (c : ascii) (s : string) : option nat :=
  match s with
  | "" => None
  | String d s' =>
      match rfind_char c s' with
      | Some i => Some (S i)
      | None => if Ascii.eqb c d then Some O else None
      end
  end.

End Py.

(** ** [telegram_archiver.py]: file-name sanitising *)

(** The character class of the pattern in [sanitize_filename]: the
    characters less-than, greater-than, colon, double quote, slash,
    backslash, bar, question mark and star. *)
Definition invalid_filename_char (c : ascii) : bool :=
  match c with
  | "<"%char | ">"%char | ":"%char | "034"%char | "/"%char
  | "\"%char | "|"%char | "?"%char | "*"%char => true
  | _ => false
  end.

(** [TelegramArchiver.sanitize_filename]:
<<
    sanitized = re.sub(CLASS, '_', text)
    return sanitized[:100] if len(sanitized) > 100 else sanitized
>> *)
Definition sanitize_filename (text : string) : string :=
  let sanitized := Py.re_sub_class invalid_filename_char "_" text in
  if (100 <? Py.len sanitized)%nat then Py.slice_to 100 sanitized else sanitized.


(** ** The Telethon objects the archiver reads

    Only the attributes the sources touch are kept.  An attribute that
    may be [None] is an [option]. *)

(** [message.date] and [datetime.now()]: a [datetime] (of a year with
    four digits, as every Telegram message and every reading of the
    clock has). *)
Record datetime := {
  dt_year : nat; dt_month : nat; dt_day : nat;
  dt_hour : nat; dt_minute : nat; dt_second : nat
}.

(** [str.zfill]: pad with zeros on the left up to the width. *)
Definition zfill (width : nat) (s : string) : string :=
  String.concat "" (replicate (width - Py.len s) "0") +:+ s.

Definition strftime_date (d : datetime) : string :=
  zfill 4 (Py.str_of_nat (dt_year d)) +:+ "-" +:+ zfill 2 (Py.str_of_nat (dt_month d)) +:+ "-" +:+
  zfill 2 (Py.str_of_nat (dt_day d)).

Definition strftime_time (d : datetime) : string :=
  zfill 2 (Py.str_of_nat (dt_hour d)) +:+ ":" +:+ zfill 2 (Py.str_of_nat (dt_minute d)) +:+ ":" +:+
  zfill 2 (Py.str_of_nat (dt_second d)).

(** [d.strftime('%Y-%m-%d %H:%M:%S')] *)
Definition strftime_datetime (d : datetime) : string :=
  strftime_date d +:+ " " +:+ strftime_time d.

(** [message.sender]: a user (it has [first_name] and [last_name]), a
    channel or chat (it has [title]), or an entity with neither. *)
Inductive Sender :=
  | SenderUser (first_name last_name : option string)
  | SenderChat (title : string)
  | SenderOther.

(** One entry of [document.attributes]: only
    [DocumentAttributeFilename] has a [file_name]. *)
Inductive DocumentAttribute :=
  | AttributeFilename (file_name : string)
  | AttributeOther.

Record Document := {
  attributes : list DocumentAttribute;
  mime_type : option string
}.

(** [message.media]: [isinstance] tells photos and documents apart;
    any other class is kept with its [__name__]. *)
Inductive Media :=
  | MessageMediaPhoto
  | MessageMediaDocument (document : option Document)
  | MessageMediaOther (type_name : string).

Record Message := {
  msg_id : Z;
  msg_date : datetime;
  msg_sender : option Sender;
  msg_text : option string;
  msg_media : option Media;
  msg_forward : bool;
  msg_reply_to : option Z   (* reply_to.reply_to_msg_id *)
}.

(** Truthiness of an optional string ([None] and the empty string are
    false) and Python's [x or default]. *)
Definition opt_truthy (o : option string) : bool :=
  match o with Some s => Py.truthy s | None => false end.
Definition py_or (o : option string) (d : string) : string :=
  match o with
  | Some s => if Py.truthy s then s else d
  | None => d
  end.

(** ** [pathlib]: the pieces of [PurePosixPath] the archiver uses *)

Module Path.

(** [s.split(c)] *)
Fixpoint split_on (c : ascii) (s : string) : list string :=
  match s with
  | "" => [""]
  | String d s' =>
      if Ascii.eqb c d then "" :: split_on c s'
      else match split_on c s' with
           | [] => [String d ""]
           | w :: ws => String d w :: ws
           end
  end.

(** The parts of a relative path string: empty and dot components
    are dropped. *)
Definition parts (s : string) : list string :=
  filter (fun w => w <> "" /\ w <> ".") (split_on "/"%char s).

(** [Path(s).name]: the last part, or the empty string. *)
Definition name (s : string) : string := List.last (parts s) "".

(** [Path(s).suffix]:
<<
    i = name.rfind('.')
    if 0 < i < len(name) - 1: return name[i:]
    else: return ''
>> *)
Definition suffix (s : string) : string :=
  let name := name s in
  match Py.rfind_char "."%char name with
  | Some i =>
      if (0 <? i)%nat && (i <? Py.len name - 1)%nat then Py.slice_from i name else ""
  | None => ""
  end.

(** A path is the list of its parts; [p / s] for a string without a
    slash appends [s], unless [s] is empty or a dot. *)
Definition t := list string.
Definition joinpath (p : t) (s : string) : t := (p ++ parts s)%list.

(** [str(p)] *)
Definition to_str (p : t) : string := String.concat "/" p.

End Path.

(** ** [telegram_archiver.py]: media naming *)

(** The state of a [TelegramArchiver] that its methods read. *)
Record TelegramArchiver := {
  output_dir : Path.t;
  download_media : bool
}.

(** The dictionary [mime_to_ext] of [download_media_file]. *)
Definition mime_to_ext : gmap string string :=
  list_to_map [
    ("image/jpeg", ".jpg"); ("image/png", ".png"); ("image/gif", ".gif");
    ("image/webp", ".webp"); ("video/mp4", ".mp4"); ("video/webm", ".webm");
    ("application/pdf", ".pdf"); ("text/plain", ".txt")
  ].

(** [d.get(k, default)] *)
Definition dict_get_default (d : gmap string string) (k fallback : string) : string :=
  match d !! k with Some v => v | None => fallback end.

(** The loop
<<
    for attr in document.attributes:
        if hasattr(attr, 'file_name') and attr.file_name:
            ...; break
>>
    finds the first attribute with a non-empty file name. *)
Fixpoint first_file_name (attrs : list DocumentAttribute) : option string :=
  match attrs with
  | [] => None
  | AttributeFilename n :: rest =>
      if Py.truthy n then Some n else first_file_name rest
  | AttributeOther :: rest => first_file_name rest
  end.

(** The value of [file_extension] when the file name is built. *)
Definition media_file_extension (media : Media) : string :=
  let file_extension := "" in
  match media with
  | MessageMediaPhoto => ".jpg"
  | MessageMediaDocument None => file_extension
  | MessageMediaDocument (Some doc) =>
      let file_extension :=
        match first_file_name (attributes doc) with
        | Some original_name => Path.suffix original_name
        | None => file_extension
        end in
      if negb (Py.truthy file_extension) && opt_truthy (mime_type doc)
      then dict_get_default mime_to_ext (default "" (mime_type doc)) ".bin"
      else file_extension
  | MessageMediaOther _ => file_extension
  end.

(** [filename = f'{file_prefix}{file_extension}'] *)
Definition media_filename (media : Media) (message_id : Z) : string :=
  let file_prefix := "msg_" +:+ Py.str_of_int message_id in
  file_prefix +:+ media_file_extension media.


(** The extension of the declared original file name of a document,
    empty when no attribute declares a name or the name has none. *)
Definition declared_extension (doc : Document) : string :=
  match first_file_name (attributes doc) with
  | Some original_name => Path.suffix original_name
  | None => ""
  end.

(** The naming rule in the words of the specification: the extension
    of the declared file name when there is one, otherwise the entry
    of the MIME table, otherwise [.bin]. *)
Definition claimed_media_extension (media : Media) : string :=
  let declared :=
    match media with
    | MessageMediaDocument (Some doc) => declared_extension doc
    | _ => ""
    end in
  let mapped :=
    match media with
    | MessageMediaDocument (Some doc) => mime_type doc ≫= (mime_to_ext !!.)
    | _ => None
    end in
  if Py.truthy declared then declared else default ".bin" mapped.

Definition claimed_media_filename (media : Media) (message_id : Z) : string :=
  "msg_" +:+ Py.str_of_int message_id +:+ claimed_media_extension media.

(** ** The world outside the process

    The file tree maps a path to the text of the file stored there;
    directory creation always succeeds and is not recorded.  A path is
    the list of its parts as [pathlib] keeps them, so two lists with a
    [..] part can name one file on disk: statements about other files
    keep to paths without such a part.
    [datetime.now()] reads the next value of the clock.  The Telethon
    client's [download_media] is an oracle: [None] when the download
    fails (or raises, which the caller turns into [None] as well),
    otherwise the extension the client appended to the requested file
    name and the bytes it stored. *)
Record World := {
  files : gmap Path.t string;
  clock : nat -> datetime;
  ticks : nat;
  client_download_media : Message -> option (string * string)
}.

Definition set_files (fs : gmap Path.t string) (w : World) : World :=
  {| files := fs; clock := clock w; ticks := ticks w;
     client_download_media := client_download_media w |}.

(** [datetime.now()] *)
Definition datetime_now (w : World) : datetime * World :=
  (clock w (ticks w),
   {| files := files w; clock := clock w; ticks := S (ticks w);
      client_download_media := client_download_media w |}).

(** [p.exists()] for a file. *)
Definition path_exists (p : Path.t) (w : World) : bool :=
  match files w !! p with Some _ => true | None => false end.

(** [f.write(data)] on a file opened with mode ['w']. *)
Definition write_file (p : Path.t) (data : string) (w : World) : World :=
  set_files (<[p := data]> (files w)) w.

(** [f.write(data)] on a file opened with mode ['a']: the file is
    created when missing, and the data goes after what it holds. *)
Definition append_file (p : Path.t) (data : string) (w : World) : World :=
  set_files (<[p := default "" (files w !! p) +:+ data]> (files w)) w.

(** [TelegramArchiver.download_media_file].  The result is the relative
    path for the markdown, or [None]. *)
Definition download_media_file (self : TelegramArchiver) (w : World)
    (message : Message) (media_dir : Path.t) (message_id : Z)
    : option string * World :=
  match msg_media message with
  | None => (None, w)
  | Some media =>
      if negb (download_media self) then (None, w)
      else
        let filename := media_filename media message_id in
        let file_path := Path.joinpath media_dir filename in
        match client_download_media w message with
        | Some (ext, data) =>
            (Some ("media/" +:+ filename),
             write_file (Path.joinpath media_dir (filename +:+ ext)) data w)
        | None => (None, w)
        end
  end.

(** ** [telegram_archiver.py]: the markdown renderer *)

(** The sender label computed at the top of
    [format_message_as_markdown]. *)
Definition sender_label (message : Message) : string :=
  let sender := "Unknown" in
  match msg_sender message with
  | None => sender
  | Some (SenderUser first_name last_name) =>
      let sender := py_or first_name "Unknown" in
      if opt_truthy last_name
      then sender +:+ " " +:+ default "" last_name
      else sender
  | Some (SenderChat title) => title
  | Some SenderOther => sender
  end.

(** The text appended by the [if message.media:] block. *)
Definition media_markup (message : Message) (media_path : option string) : string :=
  match msg_media message with
  | None => ""
  | Some MessageMediaPhoto =>
      if opt_truthy media_path
      then "**Media:** 📷 Photo" +:+ Py.nl +:+ Py.nl +:+
           "![Photo](" +:+ default "" media_path +:+ ")" +:+ Py.nl +:+ Py.nl
      else "**Media:** 📷 Photo" +:+ Py.nl +:+ Py.nl
  | Some (MessageMediaDocument None) => ""
  | Some (MessageMediaDocument (Some doc)) =>
      let file_name := default "Unknown" (first_file_name (attributes doc)) in
      if opt_truthy media_path then
        if opt_truthy (mime_type doc) &&
           Py.startswith "image/" (default "" (mime_type doc))
        then "**Media:** 📷 Image Document (" +:+ file_name +:+ ")" +:+ Py.nl +:+ Py.nl +:+
             "![" +:+ file_name +:+ "](" +:+ default "" media_path +:+ ")" +:+ Py.nl +:+ Py.nl
        else "**Media:** 📎 Document (" +:+ file_name +:+ ")" +:+ Py.nl +:+ Py.nl +:+
             "[Download " +:+ file_name +:+ "](" +:+ default "" media_path +:+ ")" +:+ Py.nl +:+ Py.nl
      else "**Media:** 📎 Document (" +:+ file_name +:+ ")" +:+ Py.nl +:+ Py.nl
  | Some (MessageMediaOther type_name) =>
      "**Media:** " +:+ type_name +:+ Py.nl +:+ Py.nl
  end.

(** [TelegramArchiver.format_message_as_markdown], statement by
    statement: every [markdown_content += x] is one rebinding of
    [markdown_content]. *)
Definition format_message_as_markdown (self : TelegramArchiver)
    (message : Message) (channel_name : string) (media_path : option string)
    : string :=
  let timestamp := strftime_datetime (msg_date message) in
  let sender := sender_label message in
  let markdown_content :=
    "## Message " +:+ Py.str_of_int (msg_id message) +:+ Py.nl +:+ Py.nl in
  let markdown_content :=
    markdown_content +:+ ("**Channel:** " +:+ channel_name +:+ Py.nl) in
  let markdown_content :=
    markdown_content +:+ ("**Sender:** " +:+ sender +:+ Py.nl) in
  let markdown_content :=
    markdown_content +:+ ("**Date:** " +:+ timestamp +:+ Py.nl) in
  let markdown_content :=
    markdown_content +:+
    ("**Message ID:** " +:+ Py.str_of_int (msg_id message) +:+ Py.nl +:+ Py.nl) in
  let markdown_content :=
    if opt_truthy (msg_text message) then
      let text := Py.strip (default "" (msg_text message)) in
      markdown_content +:+
      ("### Content" +:+ Py.nl +:+ Py.nl +:+ text +:+ Py.nl +:+ Py.nl)
    else markdown_content in
  let markdown_content := markdown_content +:+ media_markup message media_path in
  let markdown_content :=
    if msg_forward message
    then markdown_content +:+ ("**Forwarded Message**" +:+ Py.nl +:+ Py.nl)
    else markdown_content in
  let markdown_content :=
    match msg_reply_to message with
    | Some reply_to_msg_id =>
        markdown_content +:+
        ("**Reply to:** Message " +:+ Py.str_of_int reply_to_msg_id +:+ Py.nl +:+ Py.nl)
    | None => markdown_content
    end in
  let markdown_content := markdown_content +:+ ("---" +:+ Py.nl +:+ Py.nl) in
  markdown_content.

(** ** [telegram_monitor.py]: the live archive *)

Record TelegramMonitor := {
  mon_archiver : TelegramArchiver;
  mon_output_dir : Path.t;
  mon_download_media : bool
}.

(** The header written into a new daily file. *)
Definition live_header (channel_name date_str started : string) : string :=
  ("# " +:+ channel_name +:+ " - Live Archive" +:+ Py.nl +:+ Py.nl) +:+
  ("**Date:** " +:+ date_str +:+ Py.nl) +:+
  ("**Real-time monitoring started:** " +:+ started +:+ Py.nl +:+ Py.nl) +:+
  ("---" +:+ Py.nl +:+ Py.nl).

(** The name of the daily file of a channel. *)
Definition live_log_file (self : TelegramMonitor) (channel_name date_str : string) : Path.t :=
  let safe_channel_name := sanitize_filename channel_name in
  let channel_dir := Path.joinpath (mon_output_dir self) safe_channel_name in
  Path.joinpath channel_dir (safe_channel_name +:+ "_" +:+ date_str +:+ "_live.md").

(** [TelegramMonitor.save_single_message] *)
Definition save_single_message (self : TelegramMonitor) (w : World)
    (message : Message) (channel_name : string) : World :=
  let safe_channel_name := sanitize_filename channel_name in
  let channel_dir := Path.joinpath (mon_output_dir self) safe_channel_name in
  let media_dir := Path.joinpath channel_dir "media" in
  let '(media_path, w) :=
    match msg_media message with
    | Some _ =>
        if mon_download_media self
        then download_media_file (mon_archiver self) w message media_dir (msg_id message)
        else (None, w)
    | None => (None, w)
    end in
  let '(now, w) := datetime_now w in
  let date_str := strftime_date now in
  let log_file :=
    Path.joinpath channel_dir (safe_channel_name +:+ "_" +:+ date_str +:+ "_live.md") in
  let is_new_file := negb (path_exists log_file w) in
  let w :=
    if is_new_file then
      let w := append_file log_file
                 ("# " +:+ channel_name +:+ " - Live Archive" +:+ Py.nl +:+ Py.nl) w in
      let w := append_file log_file ("**Date:** " +:+ date_str +:+ Py.nl) w in
      let '(started, w) := datetime_now w in
      let w := append_file log_file
                 ("**Real-time monitoring started:** " +:+ strftime_datetime started
                  +:+ Py.nl +:+ Py.nl) w in
      append_file log_file ("---" +:+ Py.nl +:+ Py.nl) w
    else w in
  let markdown_content :=
    format_message_as_markdown (mon_archiver self) message channel_name media_path in
  append_file log_file markdown_content w.

(** ** [web_frontend.py]: regular expressions of the search

    Each pattern of [search_messages] is modelled by the function that
    computes what [re] computes for it. *)

Module Re.

Definition is_digit (c : ascii) : bool :=
  let n := nat_of_ascii c in (48 <=? n)%nat && (n <=? 57)%nat.

Definition not_newline (c : ascii) : bool := negb (Ascii.eqb c Py.LF).

(** The longest prefix whose characters are all in the class: what a
    greedy [[cls]+] or [[cls]*] consumes. *)
Fixpoint take_while (cls : ascii -> bool) (s : string) : string :=
  match s with
  | "" => ""
  | String c s' => if cls c then String c (take_while cls s') else ""
  end.

(** The group of a match of [lit([cls]+)] at the start of [s]. *)
Definition match_lit_class1 (lit : string) (cls : ascii -> bool) (s : string)
    : option string :=
  if Py.startswith lit s then
    match take_while cls (Py.slice_from (Py.len lit) s) with
    | "" => None
    | g => Some g
    end
  else None.

(** [re.search(lit([cls]+), s)]: group 1 of the leftmost match. *)
Fixpoint search_lit_class1 (lit : string) (cls : ascii -> bool) (s : string)
    : option string :=
  match match_lit_class1 lit cls s with
  | Some g => Some g
  | None =>
      match s with
      | "" => None
      | String _ s' => search_lit_class1 lit cls s'
      end
  end.

(** The header pattern [^## Message \d+]: the length of its match at
    the start of [s], if it matches there. *)
Definition match_header (s : string) : option nat :=
  match match_lit_class1 "## Message " is_digit s with
  | Some digits => Some (Py.len "## Message " + Py.len digits)%nat
  | None => None
  end.

(** [re.split(HEADER, s, flags=re.MULTILINE)].  [bol] says whether
    the position is the start of a line, [skip] counts the characters
    of the current match still to be dropped.  The result starts
    with the text before the first header. *)
Fixpoint split_headers_from (bol : bool) (skip : nat) (s : string) : list string :=
  match s with
  | "" => [""]
  | String c s' =>
      match skip with
      | S k => split_headers_from false k s'
      | O =>
          match (if bol then match_header s else None) with
          | Some n => "" :: split_headers_from false (n - 1) s'
          | None =>
              match split_headers_from (Ascii.eqb c Py.LF) 0 s' with
              | [] => [String c ""]
              | piece :: pieces => String c piece :: pieces
              end
          end
      end
  end.
Definition split_headers (s : string) : list string := split_headers_from true 0 s.

(** The lazy group of [(.*?)(?=\n\n\*\*|$)] under [re.DOTALL]: the
    shortest prefix after which two newlines and two stars follow, or
    the string ends, or only its final newline is left. *)
Fixpoint lazy_until_fields (s : string) : string :=
  if Py.startswith (Py.nl +:+ Py.nl +:+ "**") s || String.eqb s "" || String.eqb s Py.nl
  then ""
  else match s with
       | "" => ""
       | String c s' => String c (lazy_until_fields s')
       end.

(** [re.search('### Content\n\n(.*?)(?=\n\n\*\*|$)', s, re.DOTALL)]:
    group 1 of the leftmost match. *)
Fixpoint search_content (s : string) : option string :=
  let lit := "### Content" +:+ Py.nl +:+ Py.nl in
  if Py.startswith lit s
  then Some (lazy_until_fields (Py.slice_from (Py.len lit) s))
  else match s with
       | "" => None
       | String _ s' => search_content s'
       end.

(** A piece of the output of [re.sub]: text copied from the subject,
    or a match of the pattern. *)
Inductive piece :=
  | Plain (c : ascii)
  | Match (m : string).

(** Does the literal [q] match at the start of [s] under
    [re.IGNORECASE]? *)
Definition match_literal_ci (q s : string) : bool :=
  Py.startswith (Py.lower q) (Py.lower s).

(** The matches [re.sub] finds for the escaped literal [q] with
    [re.IGNORECASE], left to right and without overlap, together with
    the text between them.  An empty pattern matches at every
    position, the end included. *)
Fixpoint sub_pieces (q : string) (skip : nat) (s : string) : list piece :=
  match s with
  | "" => if match_literal_ci q "" then [Match ""] else []
  | String c s' =>
      match skip with
      | S k => sub_pieces q k s'
      | O =>
          if match_literal_ci q s then
            match Py.len q with
            | O => Match "" :: Plain c :: sub_pieces q 0 s'
            | S k => Match (Py.slice_to (Py.len q) s) :: sub_pieces q k s'
            end
          else Plain c :: sub_pieces q 0 s'
      end
  end.

(** The replacement template [<mark>\1</mark>] applied to a piece. *)
Definition mark (p : piece) : string :=
  match p with
  | Plain c => String c ""
  | Match m => "<mark>" +:+ m +:+ "</mark>"
  end.

(** The subject text a piece came from. *)
Definition source (p : piece) : string :=
  match p with
  | Plain c => String c ""
  | Match m => m
  end.

(** [re.sub('(' + re.escape(q) + ')', '<mark>\1</mark>', s,
    flags=re.IGNORECASE)] *)
Definition sub_mark (q s : string) : string :=
  String.concat "" (mark <$> sub_pieces q 0 s).

End Re.

(** ** [web_frontend.py]: the archive tree and the search *)

(** One markdown file of a channel directory, as [glob('*.md')] yields
    it; the content is [None] when opening or reading it raises. *)
Record MdFile := {
  md_name : string;
  md_content : option string
}.

(** An entry of an archive directory: a plain file, or a directory
    with its markdown files in enumeration order. *)
Inductive DirEntry :=
  | EntryFile
  | EntryDir (md_files : list MdFile).

(** An archive directory: its entries in [iterdir] order. *)
Definition ArchiveDir := list (string * DirEntry).

Definition glob_md (e : DirEntry) : list MdFile :=
  match e with
  | EntryFile => []
  | EntryDir fs => fs
  end.

Definition is_dir (e : DirEntry) : bool :=
  match e with
  | EntryFile => false
  | EntryDir _ => true
  end.

(** [archive_dir / channel_name], when it exists, for a channel name
    that is one path component: the entry of that name.  A name with a
    slash and the names [.] and [..] make the source look at a
    directory that is not an entry of the archive directory; the
    statements about a channel filter keep to plain names
    ([plain_filter]). *)
Fixpoint lookup_entry (name : string) (d : ArchiveDir) : option DirEntry :=
  match d with
  | [] => None
  | (n, e) :: rest => if String.eqb n name then Some e else lookup_entry name rest
  end.

(** One search hit: the dictionary appended to [results]. *)
Record SearchResult := {
  res_channel : string;
  res_message_id : string;
  res_date : string;
  res_sender : string;
  res_content : string;
  res_full_content : string;
  res_has_media : bool;
  res_media_type : string;
  res_file : string
}.

(** The dictionary built for the [i]-th message section of a file. *)
Definition make_result (query channel_name file_name : string) (i : nat)
    (message : string) : SearchResult :=
  let msg_id_match := Re.search_lit_class1 "**Message ID:** " Re.is_digit message in
  let msg_id := default ("msg_" +:+ Py.str_of_nat i) msg_id_match in
  let date_match := Re.search_lit_class1 "**Date:** " Re.not_newline message in
  let date := default "Unknown" date_match in
  let sender_match := Re.search_lit_class1 "**Sender:** " Re.not_newline message in
  let sender := default "Unknown" sender_match in
  let content_match := Re.search_content message in
  let content_text :=
    match content_match with
    | Some g => Py.strip g
    | None => ""
    end in
  let highlighted_content := Re.sub_mark query content_text in
  let has_media := Py.contains "**Media:**" message in
  let media_type :=
    if has_media then
      if Py.contains "📷 Photo" message then "Photo"
      else if Py.contains "📎 Document" message then "Document"
      else if Py.contains "🎬 Video" message then "Video"
      else ""
    else "" in
  {| res_channel := channel_name;
     res_message_id := msg_id;
     res_date := date;
     res_sender := sender;
     res_content :=
       if (300 <? Py.len highlighted_content)%nat
       then Py.slice_to 300 highlighted_content +:+ "..."
       else highlighted_content;
     res_full_content := content_text;
     res_has_media := has_media;
     res_media_type := media_type;
     res_file := file_name |}.

(** Where a loop of [search_messages] stands: still running with the
    results so far, or left by [return results]. *)
Inductive scan :=
  | Running (results : list SearchResult)
  | Returned (results : list SearchResult).

Definition scan_results (s : scan) : list SearchResult :=
  match s with
  | Running r => r
  | Returned r => r
  end.

(** [for i, message in enumerate(messages): ...] *)
Fixpoint scan_messages (query : string) (limit : Z) (channel_name file_name : string)
    (i : nat) (messages : list string) (results : list SearchResult) : scan :=
  match messages with
  | [] => Running results
  | message :: rest =>
      if Py.contains (Py.lower query) (Py.lower message) then
        let results := (results ++ [make_result query channel_name file_name i message])%list in
        if (limit <=? Z.of_nat (length results))%Z
        then Returned results
        else scan_messages query limit channel_name file_name (S i) rest results
      else scan_messages query limit channel_name file_name (S i) rest results
  end.

(** [for md_file in channel_dir.glob('*.md'): try: ... except: continue] *)
Fixpoint scan_files (query : string) (limit : Z) (channel_name : string)
    (md_files : list MdFile) (results : list SearchResult) : scan :=
  match md_files with
  | [] => Running results
  | md_file :: rest =>
      match md_content md_file with
      | None => scan_files query limit channel_name rest results
      | Some content =>
          let messages := tail (Re.split_headers content) in
          match scan_messages query limit channel_name (md_name md_file) 0 messages results with
          | Returned results => Returned results
          | Running results => scan_files query limit channel_name rest results
          end
      end
  end.

(** [for channel_name, channel_dir in channels_to_search: ...] *)
Fixpoint scan_channels (query : string) (limit : Z)
    (channels_to_search : list (string * DirEntry)) (results : list SearchResult) : scan :=
  match channels_to_search with
  | [] => Running results
  | (channel_name, channel_dir) :: rest =>
      match scan_files query limit channel_name (glob_md channel_dir) results with
      | Returned results => Returned results
      | Running results => scan_channels query limit rest results
      end
  end.

(** The list [channels_to_search]. *)
Definition channels_to_search (archive_dirs : list ArchiveDir)
    (channel_name : option string) : list (string * DirEntry) :=
  if opt_truthy channel_name then
    let name := default "" channel_name in
    omap (fun archive_dir =>
            match lookup_entry name archive_dir with
            | Some channel_dir => Some (name, channel_dir)
            | None => None
            end) archive_dirs
  else
    concat ((fun archive_dir : ArchiveDir =>
               filter (fun e => is_dir e.2 = true /\ e.1 <> "media") archive_dir)
            <$> archive_dirs).

(** [ArchiveManager.search_messages] *)
Definition search_messages (archive_dirs : list ArchiveDir) (query : string)
    (channel_name : option string) (limit : Z) : list SearchResult :=
  scan_results
    (scan_channels query limit (channels_to_search archive_dirs channel_name) []).

(** ** [web_frontend.py]: the settings store

    [config.json] holds one JSON document.  [json.dump] followed by
    [json.load] gives back the value that was written, so the file is
    modelled by the value it holds. *)

#[local] Set Warnings "-register-all".

Inductive json :=
  | JNull
  | JBool (b : bool)
  | JNum (n : Z)
  | JStr (s : string)
  | JList (l : list json)
  | JDict (d : list (string * json)).

(** A Python [dict] with string keys keeps its keys in insertion order:
    an association list without repeated keys. *)
Module Dict.

Definition t := list (string * json).

(** [d.get(k)] *)
Fixpoint get (k : string) (d : t) : option json :=
  match d with
  | [] => None
  | (k', v) :: rest => if String.eqb k' k then Some v else get k rest
  end.

(** [d[k] = v]: an existing key keeps its place, a new key goes last. *)
Fixpoint set (k : string) (v : json) (d : t) : t :=
  match d with
  | [] => [(k, v)]
  | (k', v') :: rest =>
      if String.eqb k' k then (k', v) :: rest else (k', v') :: set k v rest
  end.

End Dict.

(** The exceptions the handlers can meet. *)
Inductive exception :=
  | AttributeError
  | TypeError
  | KeyError
  | IndexError
  | JSONDecodeError.

Inductive exn (A : Type) :=
  | Ok (a : A)
  | Raise (e : exception).
Arguments Ok {A} a.
Arguments Raise {A} e.

(** The state of [config.json]. *)
Inductive ConfigFile :=
  | Missing
  | Unparsable
  | Stored (config : json).

(** The body of a handler's [try] block: it reads and writes the
    config file and may raise; what was written before an exception
    stays written. *)
Definition handler (A : Type) : Type := ConfigFile -> exn A * ConfigFile.

Definition hret {A} (a : A) : handler A := fun f => (Ok a, f).
Definition hbind {A B} (m : handler A) (k : A -> handler B) : handler B :=
  fun f =>
    match m f with
    | (Ok a, f') => k a f'
    | (Raise e, f') => (Raise e, f')
    end.
Definition lift {A} (x : exn A) : handler A := fun f => (x, f).

#[global] Instance handler_bind : MBind handler := fun A B k m => hbind m k.
#[global] Instance handler_ret : MRet handler := fun A a => hret a.

(** [load_config()]: the parsed file, or an empty dictionary when the
    file does not exist. *)
Definition load_config : handler json :=
  fun f =>
    match f with
    | Missing => (Ok (JDict []), f)
    | Unparsable => (Raise JSONDecodeError, f)
    | Stored config => (Ok config, f)
    end.

(** [save_config(config)].  The write is taken to succeed: a disk
    error, or a string that cannot be encoded, is outside the model, and
    nothing is stated about an answer that follows a failed write. *)
Definition save_config (config : json) : handler unit :=
  fun _ => (Ok tt, Stored config).

(** *** Python operations on JSON values *)

(** [x.get(k, default)] *)
Definition py_get (x : json) (k : string) (default_value : json) : exn json :=
  match x with
  | JDict d => Ok (default default_value (Dict.get k d))
  | _ => Raise AttributeError
  end.

(** [x.strip()] *)
Definition py_strip (x : json) : exn string :=
  match x with
  | JStr s => Ok (Py.strip s)
  | _ => Raise AttributeError
  end.

(** [len(x)] *)
Definition py_len (x : json) : exn nat :=
  match x with
  | JList l => Ok (length l)
  | JDict d => Ok (length d)
  | JStr s => Ok (Py.len s)
  | _ => Raise TypeError
  end.

(** [x == s] for a string [s]. *)
Definition eq_str (x : json) (s : string) : bool :=
  match x with
  | JStr s' => String.eqb s' s
  | _ => false
  end.

(** [k in x] for a string [k]: a key of a dictionary, an element of a
    list, a substring of a string. *)
Definition py_in (k : string) (x : json) : exn bool :=
  match x with
  | JDict d => Ok (bool_decide (is_Some (Dict.get k d)))
  | JList l => Ok (existsb (fun e => eq_str e k) l)
  | JStr s => Ok (Py.contains k s)
  | _ => Raise TypeError
  end.

(** [x[k]] for a string [k]. *)
Definition py_getitem (x : json) (k : string) : exn json :=
  match x with
  | JDict d =>
      match Dict.get k d with
      | Some v => Ok v
      | None => Raise KeyError
      end
  | _ => Raise TypeError
  end.

(** [x[i]] for an index [i] that passed the range check. *)
Definition py_index (x : json) (i : nat) : exn json :=
  match x with
  | JList l =>
      match l !! i with
      | Some v => Ok v
      | None => Raise IndexError
      end
  | JStr s =>
      match Py.char_at i s with
      | Some c => Ok (JStr (String c ""))
      | None => Raise IndexError
      end
  | JDict _ => Raise KeyError
  | _ => Raise TypeError
  end.

(** [x[i][k] = v]: the dictionary at position [i] of the list is
    updated in place. *)
Definition py_set_field (x : json) (i : nat) (k : string) (v : json) : exn json :=
  match x with
  | JList l =>
      match l !! i with
      | Some (JDict d) => Ok (JList (<[i := JDict (Dict.set k v d)]> l))
      | Some _ => Raise TypeError
      | None => Raise IndexError
      end
  | JDict _ => Raise KeyError
  | _ => Raise TypeError
  end.

(** [for channel in x]: the values the loop visits. *)
Definition py_iter (x : json) : exn (list json) :=
  match x with
  | JList l => Ok l
  | JDict d => Ok ((fun kv => JStr kv.1) <$> d)
  | JStr s => Ok ((fun c => JStr (String c "")) <$> list_ascii_of_string s)
  | _ => Raise TypeError
  end.

(** [x.append(v)] *)
Definition py_append (x : json) (v : json) : exn json :=
  match x with
  | JList l => Ok (JList (l ++ [v])%list)
  | _ => Raise AttributeError
  end.

(** [x.pop(i)] for an index that passed the range check: the removed
    element and the list left. *)
Definition py_pop (x : json) (i : nat) : exn (json * json) :=
  match x with
  | JList l =>
      match l !! i with
      | Some v => Ok (v, JList (delete i l))
      | None => Raise IndexError
      end
  | JDict _ => Raise KeyError
  | _ => Raise AttributeError
  end.

(** [config['channels'] = channels] *)
Definition py_setitem (x : json) (k : string) (v : json) : exn json :=
  match x with
  | JDict d => Ok (JDict (Dict.set k v d))
  | _ => Raise TypeError
  end.

(** *** The handlers *)

(** What a handler answers: the success object with its message and
    payload, an error object with a fixed message, or the error object
    of the [except] branch. *)
Inductive response :=
  | Success (message : string) (payload : json)
  | Error (error : string)
  | ErrorOf (e : exception).

Definition run_handler (body : handler response) (f : ConfigFile)
    : response * ConfigFile :=
  match body f with
  | (Ok r, f') => (r, f')
  | (Raise e, f') => (ErrorOf e, f')
  end.

(** The duplicate check of [api_add_channel]:
<<
    for channel in channels:
        if channel.get('identifier') == identifier or channel.get('name') == name:
            return error
>> *)
Fixpoint find_duplicate (identifier name : string) (channels : list json) : exn bool :=
  match channels with
  | [] => Ok false
  | channel :: rest =>
      match py_get channel "identifier" JNull, py_get channel "name" JNull with
      | Ok i, Ok n =>
          if eq_str i identifier || eq_str n name then Ok true
          else find_duplicate identifier name rest
      | Raise e, _ => Raise e
      | _, Raise e => Raise e
      end
  end.

(** [api_add_channel], with [data = request.get_json()]. *)
Definition api_add_channel (data : json) : ConfigFile -> response * ConfigFile :=
  run_handler (
    identifier_raw ← lift (py_get data "identifier" (JStr ""));
    identifier ← lift (py_strip identifier_raw);
    name_raw ← lift (py_get data "name" (JStr ""));
    name ← lift (py_strip name_raw);
    enabled ← lift (py_get data "enabled" (JBool true));
    if negb (Py.truthy identifier) || negb (Py.truthy name) then
      hret (Error "Identifier and name are required")
    else if negb (Py.startswith "https://t.me/" identifier || Py.startswith "@" identifier) then
      hret (Error "Invalid Telegram channel format. Use https://t.me/channel or @channel")
    else
      config ← load_config;
      channels ← lift (py_get config "channels" (JList []));
      visited ← lift (py_iter channels);
      duplicate ← lift (find_duplicate identifier name visited);
      if (duplicate : bool) then hret (Error "Channel already exists")
      else
        let new_channel :=
          JDict [("identifier", JStr identifier); ("name", JStr name); ("enabled", enabled)] in
        channels ← lift (py_append channels new_channel);
        config ← lift (py_setitem config "channels" channels);
        save_config config;;
        hret (Success "Channel added successfully" new_channel)).

(** The range check [channel_index < 0 or channel_index >= len(channels)]. *)
Definition out_of_range (channel_index : Z) (n : nat) : bool :=
  (channel_index <? 0)%Z || (Z.of_nat n <=? channel_index)%Z.

(** One of the three blocks of [api_update_channel]:
<<
    if k in data:
        channels[channel_index][k] = data[k].strip()
>>
    ([strip] only for the two string fields). *)
Definition update_field (stripped : bool) (k : string) (data : json) (i : nat)
    (channels : json) : exn json :=
  match py_in k data with
  | Raise e => Raise e
  | Ok false => Ok channels
  | Ok true =>
      match py_getitem data k with
      | Raise e => Raise e
      | Ok v =>
          if stripped then
            match py_strip v with
            | Raise e => Raise e
            | Ok s => py_set_field channels i k (JStr s)
            end
          else py_set_field channels i k v
      end
  end.

(** [api_update_channel(channel_index)] *)
Definition api_update_channel (channel_index : Z) (data : json)
    : ConfigFile -> response * ConfigFile :=
  run_handler (
    config ← load_config;
    channels ← lift (py_get config "channels" (JList []));
    n ← lift (py_len channels);
    if out_of_range channel_index n then hret (Error "Channel not found")
    else
      let i := Z.to_nat channel_index in
      channels ← lift (update_field true "identifier" data i channels);
      channels ← lift (update_field true "name" data i channels);
      channels ← lift (update_field false "enabled" data i channels);
      config ← lift (py_setitem config "channels" channels);
      save_config config;;
      channel ← lift (py_index channels i);
      hret (Success "Channel updated successfully" channel)).

(** [api_delete_channel(channel_index)] *)
Definition api_delete_channel (channel_index : Z)
    : ConfigFile -> response * ConfigFile :=
  run_handler (
    config ← load_config;
    channels ← lift (py_get config "channels" (JList []));
    n ← lift (py_len channels);
    if out_of_range channel_index n then hret (Error "Channel not found")
    else
      popped ← lift (py_pop channels (Z.to_nat channel_index));
      config ← lift (py_setitem config "channels" popped.2);
      save_config config;;
      hret (Success "Channel deleted successfully" popped.1)).

(** ** [web_frontend.py]: the archiving status and its log

    The fields of [archiving_status] that the log handling reads or
    writes next to [logs].  The progress figure, a float, the parsed
    total and the start time never influence [logs] and are left out. *)
Record ArchivingStatus := {
  running : bool;
  current_channel : string;
  processed_channels : Z;
  logs : list string;
  error : option string
}.

(** [archiving_status['logs'].append(line)] *)
Definition log_append (line : string) (st : ArchivingStatus) : ArchivingStatus :=
  {| running := running st;
     current_channel := current_channel st;
     processed_channels := processed_channels st;
     logs := (logs st ++ [line])%list;
     error := error st |}.

Definition set_logs (l : list string) (st : ArchivingStatus) : ArchivingStatus :=
  {| running := running st;
     current_channel := current_channel st;
     processed_channels := processed_channels st;
     logs := l;
     error := error st |}.

Definition set_running (b : bool) (st : ArchivingStatus) : ArchivingStatus :=
  {| running := b;
     current_channel := current_channel st;
     processed_channels := processed_channels st;
     logs := logs st;
     error := error st |}.

Definition set_error (e : string) (st : ArchivingStatus) : ArchivingStatus :=
  {| running := running st;
     current_channel := current_channel st;
     processed_channels := processed_channels st;
     logs := logs st;
     error := Some e |}.

(** [xs[-n:]] for a positive [n]. *)
Definition last_entries {A} (n : nat) (xs : list A) : list A :=
  drop (length xs - n) xs.

(** [s.split(sep)[-1]] when [sep] occurs in [s]: the text after its
    last occurrence. *)
Fixpoint after_last (sep s : string) : option string :=
  match s with
  | "" => if Py.startswith sep "" then Some "" else None
  | String _ s' =>
      match after_last sep s' with
      | Some r => Some r
      | None =>
          if Py.startswith sep s then Some (Py.slice_from (Py.len sep) s) else None
      end
  end.

(** [str(b)] for a [bool]. *)
Definition str_of_bool (b : bool) : string := if b then "True" else "False".

(** The status installed by [start_archiving]. *)
Definition started_status : ArchivingStatus :=
  {| running := true;
     current_channel := "Initializing...";
     processed_channels := 0;
     logs := ["🚀 Starting archiving process..."];
     error := None |}.

(** The status of a fresh [ArchiveManager]. *)
Definition initial_status : ArchivingStatus :=
  {| running := false;
     current_channel := "";
     processed_channels := 0;
     logs := [];
     error := None |}.

(** The body of the monitoring loop of [_run_archiving_process] for one
    [readline()] result. *)
Definition monitor_output (output : string) (st : ArchivingStatus) : ArchivingStatus :=
  if Py.truthy output then
    let line := Py.strip output in
    if Py.truthy line then
      let st := log_append line st in
      let st :=
        if Py.contains "Processing channel:" line then
          let channel_name := Py.strip (default line (after_last "Processing channel:" line)) in
          {| running := running st;
             current_channel := channel_name;
             processed_channels := processed_channels st + 1;
             logs := logs st;
             error := error st |}
        else if Py.contains "Total channels:" line then st
        else if Py.contains "Skipping large file" line then log_append ("⏭️ " +:+ line) st
        else if Py.contains "Downloaded:" line then log_append ("📥 " +:+ line) st
        else st in
      if (100 <? length (logs st))%nat
      then set_logs (last_entries 100 (logs st)) st
      else st
    else st
  else st.

(** [ArchiveManager.start_archiving]: refused while a run is going on,
    otherwise the status is reset. *)
Definition start_archiving (st : ArchivingStatus) : ArchivingStatus :=
  if running st then st else started_status.

(** [ArchiveManager.stop_archiving]: refused when nothing runs. *)
Definition stop_archiving (st : ArchivingStatus) : ArchivingStatus :=
  if running st then
    let st := set_running false st in
    log_append "🛑 Archiving stopped by user" st
  else st.

(** [_run_archiving_process] up to its monitoring loop. *)
Definition launch (script : option string) (max_file_size_mb : Z)
    (skip_large_files : bool) (popen_error : option string)
    (st : ArchivingStatus) : ArchivingStatus :=
  match script with
  | None =>
      let st := log_append "💥 Fatal error: Archiver script not found" st in
      let st := set_error "Archiver script not found" st in
      set_running false st
  | Some archiver_script =>
      let st := log_append ("📁 Using archiver script: " +:+ archiver_script) st in
      let st := log_append ("⚙️ Max file size: " +:+ Py.str_of_int max_file_size_mb +:+
                            "MB, Skip large files: " +:+ str_of_bool skip_large_files) st in
      match popen_error with
      | None => log_append "🔄 Archiving process started" st
      | Some e =>
          let st := log_append ("💥 Fatal error: " +:+ e) st in
          let st := set_error e st in
          set_running false st
      end
  end.

(** [_run_archiving_process] after its monitoring loop, the [finally]
    block included. *)
Definition process_finished (return_code : Z) (st : ArchivingStatus) : ArchivingStatus :=
  let st :=
    if (return_code =? 0)%Z then
      let st := log_append "✅ Archiving completed successfully!" st in
      {| running := running st;
         current_channel := "Completed";
         processed_channels := processed_channels st;
         logs := logs st;
         error := error st |}
    else
      let st := log_append ("❌ Archiving failed with return code: " +:+
                            Py.str_of_int return_code) st in
      set_error ("Process exited with code " +:+ Py.str_of_int return_code) st in
  set_running false st.

(** What happens to the status, one atomic step at a time. *)
Inductive event :=
  (** [start_archiving()] called by a request *)
  | StartArchiving
  (** the thread runs up to the monitoring loop: the script it found,
      if any, its two arguments, and the message of the exception
      [Popen] raised, if it raised *)
  | Launch (script : option string) (max_file_size_mb : Z)
           (skip_large_files : bool) (popen_error : option string)
  (** one pass of the monitoring loop with the line read *)
  | Output (output : string)
  (** [readline()] raised: the message is logged, the loop is left *)
  | ReadError (msg : string)
  (** the child ended: [wait()] gave the return code, then [finally] *)
  | Exit (return_code : Z)
  (** [stop_archiving()] called by a request *)
  | StopArchiving.

Definition step (st : ArchivingStatus) (ev : event) : ArchivingStatus :=
  match ev with
  | StartArchiving => start_archiving st
  | Launch script max_file_size_mb skip_large_files popen_error =>
      launch script max_file_size_mb skip_large_files popen_error st
  | Output output => monitor_output output st
  | ReadError msg => log_append ("❌ Error reading output: " +:+ msg) st
  | Exit return_code => process_finished return_code st
  | StopArchiving => stop_archiving st
  end.

(** The status after a sequence of events. *)
Definition run (evs : list event) (st : ArchivingStatus) : ArchivingStatus :=
  fold_left step evs st.

(** ** Vocabulary of the statements and sample values *)

(** What [sanitize_filename] does to one character. *)
Definition sanitized_char (c : ascii) : ascii :=
  if invalid_filename_char c then "_"%char else c.

Definition sample_date : datetime :=
  {| dt_year := 2024; dt_month := 3; dt_day := 9;
     dt_hour := 7; dt_minute := 0; dt_second := 59 |}.

Definition sample_archiver : TelegramArchiver :=
  {| output_dir := ["archived_channels"]; download_media := true |}.

Definition sample_message : Message :=
  {| msg_id := 42;
     msg_date := sample_date;
     msg_sender := Some (SenderUser (Some "Ann") (Some "Lee"));
     msg_text := Some " see the attachment ";
     msg_media :=
       Some (MessageMediaDocument
               (Some {| attributes := [AttributeFilename "plan.png"];
                        mime_type := Some "image/png" |}));
     msg_forward := true;
     msg_reply_to := Some 7 |}.

(** A message whose media is a document object without its document. *)
Definition expired_document_message : Message :=
  {| msg_id := 5;
     msg_date := sample_date;
     msg_sender := Some (SenderChat "News");
     msg_text := None;
     msg_media := Some (MessageMediaDocument None);
     msg_forward := false;
     msg_reply_to := None |}.

(** Every character of the string satisfies the test. *)
Fixpoint all_chars (P : ascii -> bool) (s : string) : bool :=
  match s with
  | "" => true
  | String c s' => P c && all_chars P s'
  end.

Definition not_slash (c : ascii) : bool := negb (Ascii.eqb "/"%char c).

(** The media directory of a channel in the live archive. *)
Definition live_media_dir (self : TelegramMonitor) (channel_name : string) : Path.t :=
  Path.joinpath (Path.joinpath (mon_output_dir self) (sanitize_filename channel_name))
    "media".

(** The media path [save_single_message] passes to the renderer. *)
Definition live_media_path (self : TelegramMonitor) (w : World) (message : Message)
    (channel_name : string) : option string :=
  match msg_media message with
  | Some _ =>
      if mon_download_media self
      then (download_media_file (mon_archiver self) w message
              (live_media_dir self channel_name) (msg_id message)).1
      else None
  | None => None
  end.

(** A small archive: one channel with one file of two messages that
    both mention the word hello. *)
Definition sample_md_file : MdFile :=
  {| md_name := "news_2024-03-09_live.md";
     md_content :=
       Some ("# News - Live Archive" +:+ Py.nl +:+ Py.nl +:+
             "## Message 1" +:+ Py.nl +:+ Py.nl +:+
             "**Channel:** News" +:+ Py.nl +:+
             "**Sender:** Bob" +:+ Py.nl +:+
             "**Date:** 2024-03-09 07:00:59" +:+ Py.nl +:+
             "**Message ID:** 1" +:+ Py.nl +:+ Py.nl +:+
             "### Content" +:+ Py.nl +:+ Py.nl +:+
             "Hello, hello!" +:+ Py.nl +:+ Py.nl +:+
             "**Forwarded Message**" +:+ Py.nl +:+ Py.nl +:+
             "---" +:+ Py.nl +:+ Py.nl +:+
             "## Message 2" +:+ Py.nl +:+ Py.nl +:+
             "**Channel:** News" +:+ Py.nl +:+
             "**Sender:** Eve" +:+ Py.nl +:+
             "**Date:** 2024-03-09 08:00:00" +:+ Py.nl +:+
             "**Message ID:** 2" +:+ Py.nl +:+ Py.nl +:+
             "### Content" +:+ Py.nl +:+ Py.nl +:+
             "say hello" +:+ Py.nl +:+ Py.nl +:+
             "---" +:+ Py.nl +:+ Py.nl) |}.

Definition sample_archive : list ArchiveDir :=
  [[("News", EntryDir [sample_md_file]); ("media", EntryDir []); ("notes.txt", EntryFile)]].

(** The state of a scan with respect to a positive limit: while the
    loops run, fewer results than the limit; once [return results] is
    taken, exactly the limit. *)
Definition within_limit (limit : Z) (s : scan) : Prop :=
  match s with
  | Running results => (Z.of_nat (length results) < limit)%Z
  | Returned results => Z.of_nat (length results) = limit
  end.

(** The stretches of copied text between the matches of a [re.sub]
    output, first to last; a stretch may be empty. *)
Fixpoint plain_runs (pieces : list Re.piece) : list string :=
  match pieces with
  | [] => [""]
  | Re.Plain c :: rest =>
      match plain_runs rest with
      | [] => [String c ""]
      | run :: runs => String c run :: runs
      end
  | Re.Match _ :: rest => "" :: plain_runs rest
  end.

(** The [content] entry of a search result, from the highlighted text. *)
Definition truncated (highlighted_content : string) : string :=
  if (300 <? Py.len highlighted_content)%nat
  then Py.slice_to 300 highlighted_content +:+ "..."
  else highlighted_content.

(** The first result of the search for HELLO in the sample archive. *)
Definition sample_result : SearchResult :=
  {| res_channel := "News";
     res_message_id := "1";
     res_date := "2024-03-09 07:00:59";
     res_sender := "Bob";
     res_content := "<mark>Hello</mark>, <mark>hello</mark>!";
     res_full_content := "Hello, hello!";
     res_has_media := false;
     res_media_type := "";
     res_file := "news_2024-03-09_live.md" |}.

(** What [load_config] returns for a file, when it is a dictionary. *)
Definition loaded_config (f : ConfigFile) : option Dict.t :=
  match (load_config f).1 with
  | Ok (JDict d) => Some d
  | _ => None
  end.

(** The channel list [config.get('channels', [])] of the loaded
    configuration, when it is a list. *)
Definition config_channels (f : ConfigFile) : option (list json) :=
  match loaded_config f with
  | Some d =>
      match Dict.get "channels" d with
      | None => Some []
      | Some (JList l) => Some l
      | Some _ => None
      end
  | None => None
  end.

(** One field of the loaded configuration. *)
Definition config_field (k : string) (f : ConfigFile) : option json :=
  loaded_config f ≫= Dict.get k.

(** A field of the request body, when the body is an object that has it. *)
Definition data_field (data : json) (k : string) : option json :=
  match data with
  | JDict d => Dict.get k d
  | _ => None
  end.

Definition stripped (v : option json) : option json :=
  match v with
  | Some (JStr s) => Some (JStr (Py.strip s))
  | _ => None
  end.

(** The entry with the field set, when the request gives a value. *)
Definition set_if_present (k : string) (v : option json) (entry : json) : json :=
  match v, entry with
  | Some v, JDict d => JDict (Dict.set k v d)
  | _, _ => entry
  end.

(** The channel entry after an update with the request body [data]:
    identifier and name are stored stripped, enabled as given, and a
    field the body does not have keeps its value. *)
Definition updated_channel (data entry : json) : json :=
  let entry := set_if_present "identifier" (stripped (data_field data "identifier")) entry in
  let entry := set_if_present "name" (stripped (data_field data "name")) entry in
  set_if_present "enabled" (data_field data "enabled") entry.

(** A configuration file with two channels. *)
Definition sample_config : ConfigFile :=
  Stored (JDict [
    ("api_credentials", JDict [("api_id", JStr "12345"); ("api_hash", JStr "abc")]);
    ("channels", JList [
       JDict [("identifier", JStr "@alpha"); ("name", JStr "Alpha"); ("enabled", JBool true)];
       JDict [("identifier", JStr "@beta"); ("name", JStr "Beta"); ("enabled", JBool false)]]);
    ("archive_settings", JDict [("days_back", JNum 7)])]).

(** A run of the archiver that prints one hundred lines and ends
    normally, and one that is stopped by the user after as many. *)
Definition hundred_lines : list event :=
  ([StartArchiving; Launch (Some "run_archiver.py") 50 true None] ++
   replicate 100 (Output ("Saved 25 messages" +:+ Py.nl)))%list.

Definition completed_run : list event := (hundred_lines ++ [Exit 0])%list.

Definition stopped_run : list event :=
  (hundred_lines ++ [StopArchiving; Exit (-15)])%list.

(** A monitor, a world with an empty file tree whose downloads
    succeed, and a second message without media. *)
Definition sample_monitor : TelegramMonitor :=
  {| mon_archiver := sample_archiver;
     mon_output_dir := ["live_archive"];
     mon_download_media := true |}.

Definition sample_world : World :=
  {| files := ∅;
     clock := fun _ => sample_date;
     ticks := 0;
     client_download_media := fun _ => Some ("", "PNG") |}.

Definition plain_message : Message :=
  {| msg_id := 43;
     msg_date := sample_date;
     msg_sender := Some (SenderChat "News");
     msg_text := Some "second";
     msg_media := None;
     msg_forward := false;
     msg_reply_to := None |}.

(** ** Further code of [web_frontend.py] and [launch_web.py]: counting
    and the search without its limit *)

(** The hits among the message sections of one file, in order, when no
    limit cuts the scan; [i] is the position of the first section. *)
Fixpoint hits_in_messages (query channel_name file_name : string) (i : nat)
    (messages : list string) : list SearchResult :=
  match messages with
  | [] => []
  | message :: rest =>
      ((if Py.contains (Py.lower query) (Py.lower message)
        then [make_result query channel_name file_name i message]
        else []) ++
       hits_in_messages query channel_name file_name (S i) rest)%list
  end.

(** The hits of one markdown file; a file that cannot be read has none. *)
Definition hits_in_file (query channel_name : string) (md_file : MdFile)
    : list SearchResult :=
  match md_content md_file with
  | Some content =>
      hits_in_messages query channel_name (md_name md_file) 0
        (tail (Re.split_headers content))
  | None => []
  end.

(** The hits of one searched channel directory. *)
Definition hits_in_channel (query : string) (channel : string * DirEntry)
    : list SearchResult :=
  concat (hits_in_file query channel.1 <$> glob_md channel.2).

(** All hits of a search, in the order of the scan. *)
Definition all_hits (archive_dirs : list ArchiveDir) (query : string)
    (channel_name : option string) : list SearchResult :=
  concat (hits_in_channel query <$> channels_to_search archive_dirs channel_name).

(** The number of results at which [search_messages] returns: the test
    [len(results) >= limit] comes after the first append. *)
Definition effective_limit (limit : Z) : nat := Z.to_nat (Z.max 1 limit).

(** The state of a scan that has collected [l], for the effective
    limit [n]. *)
Definition scan_of (n : nat) (l : list SearchResult) : scan :=
  if (n <=? length l)%nat then Returned (take n l) else Running l.

(** [len(re.findall(HEADER, s, re.MULTILINE))]: the number of matches of
    the header pattern, found like [re.split] finds them. *)
Fixpoint count_headers_from (bol : bool) (skip : nat) (s : string) : nat :=
  match s with
  | "" => 0
  | String c s' =>
      match skip with
      | S k => count_headers_from false k s'
      | O =>
          match (if bol then Re.match_header s else None) with
          | Some n => S (count_headers_from false (n - 1) s')
          | None => count_headers_from (Ascii.eqb c Py.LF) 0 s'
          end
      end
  end.
Definition count_headers (s : string) : nat := count_headers_from true 0 s.

(** The counters of [ArchiveManager.get_stats] that the archive tree
    determines; [total_media] counts the entries of the media
    directories, which the tree does not hold. *)
Record Stats := {
  total_channels : nat;
  total_files : nat;
  total_messages : nat
}.

(** The inner loop of [get_stats]:
<<
    for md_file in md_files:
        try: total_messages += len(re.findall(HEADER, content, re.MULTILINE))
        except: pass
>> *)
Definition count_file_messages (total_messages : nat) (md_file : MdFile) : nat :=
  match md_content md_file with
  | Some content => (total_messages + count_headers content)%nat
  | None => total_messages
  end.

(** The body of the loop over [archive_dir.iterdir()]. *)
Definition count_channel_dir (st : Stats) (channel_dir : string * DirEntry) : Stats :=
  if is_dir channel_dir.2 && negb (String.eqb channel_dir.1 "media") then
    let md_files := glob_md channel_dir.2 in
    {| total_channels := total_channels st + 1;
       total_files := total_files st + length md_files;
       total_messages := fold_left count_file_messages md_files (total_messages st) |}
  else st.

(** [ArchiveManager.get_stats] *)
Definition get_stats (archive_dirs : list ArchiveDir) : Stats :=
  fold_left (fun st archive_dir => fold_left count_channel_dir archive_dir st)
    archive_dirs
    {| total_channels := 0; total_files := 0; total_messages := 0 |}.

(** [launch_web.check_archives] on the archive directories that exist:
<<
    for channel_dir in path.iterdir():
        if channel_dir.is_dir() and list(channel_dir.glob('*.md')):
            has_archives = True
            break
>> *)
Fixpoint has_md_dir (archive_dir : ArchiveDir) : bool :=
  match archive_dir with
  | [] => false
  | (_, channel_dir) :: rest =>
      if is_dir channel_dir && bool_decide (glob_md channel_dir <> []) then true
      else has_md_dir rest
  end.

Definition check_archives (archive_dirs : list ArchiveDir) : bool :=
  fold_left (fun has_archives archive_dir =>
               if has_md_dir archive_dir then true else has_archives)
    archive_dirs false.

(** ** Further code: the channels a run archives

    [run_archiver.main] and [telegram_monitor.main] read the channel
    list of [config.json] with the same comprehension. *)

(** Truthiness of a JSON value. *)
Definition py_truthy (x : json) : bool :=
  match x with
  | JNull => false
  | JBool b => b
  | JNum n => negb (n =? 0)%Z
  | JStr s => Py.truthy s
  | JList l => match l with [] => false | _ => true end
  | JDict d => match d with [] => false | _ => true end
  end.

(** The comprehension
<<
    [channel['identifier'] for channel in channels
     if channel.get('enabled', True)]
>>
    over the values the loop visits. *)
Fixpoint enabled_identifiers (channels : list json) : exn (list json) :=
  match channels with
  | [] => Ok []
  | channel :: rest =>
      match py_get channel "enabled" (JBool true) with
      | Raise e => Raise e
      | Ok enabled =>
          if py_truthy enabled then
            match py_getitem channel "identifier" with
            | Raise e => Raise e
            | Ok identifier =>
                match enabled_identifiers rest with
                | Ok identifiers => Ok (identifier :: identifiers)
                | Raise e => Raise e
                end
            end
          else enabled_identifiers rest
      end
  end.

(** [enabled_channels], with [config['channels']] as the list. *)
Definition enabled_channels (config : json) : exn (list json) :=
  match py_getitem config "channels" with
  | Raise e => Raise e
  | Ok channels =>
      match py_iter channels with
      | Raise e => Raise e
      | Ok visited => enabled_identifiers visited
      end
  end.

(** The identifier and the name of a channel entry, when they are
    strings. *)
Definition entry_identifier (entry : json) : option string :=
  match data_field entry "identifier" with
  | Some (JStr s) => Some s
  | _ => None
  end.
Definition entry_name (entry : json) : option string :=
  match data_field entry "name" with
  | Some (JStr s) => Some s
  | _ => None
  end.

(** The characters that [sanitize_filename] keeps. *)
Definition valid_filename_char (c : ascii) : bool := negb (invalid_filename_char c).

(** The test of the first branch of the monitoring loop, on the line
    as read. *)
Definition announces_channel (output : string) : bool :=
  Py.contains "Processing channel:" (Py.strip output).

(** ** Vocabulary: a rendered message as the search reads it *)

(** A rendering without the header match at its start.  It is the
    section that [re.split] leaves of the rendering in a file when no
    line of it starts another header. *)
Definition rendered_section (self : TelegramArchiver) (message : Message)
    (channel_name : string) (media_path : option string) : string :=
  Py.slice_from (Py.len ("## Message " +:+ Py.str_of_int (msg_id message)))
    (format_message_as_markdown self message channel_name media_path).

Definition not_star (c : ascii) : bool := negb (Ascii.eqb "*"%char c).

(** The two strings differ at a position that both have. *)
Fixpoint incompatible (a b : string) : bool :=
  match a, b with
  | String x a', String y b' => negb (Ascii.eqb x y) || incompatible a' b'
  | _, _ => false
  end.

(** No match of the literal can start inside the chunk, whatever
    follows the chunk. *)
Fixpoint clear_of (lit chunk : string) : bool :=
  match chunk with
  | "" => true
  | String _ rest => incompatible lit chunk && clear_of lit rest
  end.

(** ** [telegram_archiver.py]: the batch archive *)

(** What [client.get_entity] resolves an identifier to: a [Channel], a
    [Chat], or some other entity. *)
Inductive Entity :=
  | EntityChannel (id : Z) (title : string) (username : option string)
  | EntityChat (id : Z) (title : string)
  | EntityOther.

(** The dictionary that [get_channel_info] returns. *)
Record ChannelInfo := {
  info_id : Z;
  info_title : string;
  info_username : option string;
  info_type : string
}.

(** A [datetime] aware of its time zone (UTC), with its microseconds. *)
Record instant := {
  inst_datetime : datetime;
  inst_microsecond : nat
}.

(** The Telethon client of the batch archive.  [get_entity] is [None]
    when the call raises.  [iter_messages] gives the messages the
    iterator yields when it is consumed to its end, and whether it
    raises there instead of stopping. *)
Record Client := {
  get_entity : string -> option Entity;
  iter_messages : string -> Z -> instant -> list Message * bool
}.

(** The library functions of the batch archive that are not spelled
    out: the UTC reading of the clock, [d - timedelta(days=n)] ([None]
    when it overflows), [d.isoformat()] of an aware value and of the
    n-th reading of [datetime.now()], and the text [json.dump] writes. *)
Record Runtime := {
  utc_clock : nat -> instant;
  timedelta_sub : instant -> Z -> option instant;
  isoformat : instant -> string;
  isoformat_now : nat -> string;
  json_dump : json -> string
}.

(** [datetime.now(timezone.utc)] *)
Definition utc_now (rt : Runtime) (w : World) : instant * World :=
  (utc_clock rt (ticks w),
   {| files := files w; clock := clock w; ticks := S (ticks w);
      client_download_media := client_download_media w |}).

(** [TelegramArchiver.get_channel_info]: the error of the last branch
    and any error of the client are caught, and give [None]. *)
Definition get_channel_info (client : Client) (channel_identifier : string)
    : option ChannelInfo :=
  match get_entity client channel_identifier with
  | Some (EntityChannel id title username) =>
      Some {| info_id := id; info_title := title; info_username := username;
              info_type := "channel" |}
  | Some (EntityChat id title) =>
      Some {| info_id := id; info_title := title; info_username := None;
              info_type := "chat" |}
  | Some EntityOther => None
  | None => None
  end.

(** The order of [datetime] values: year, month, day, hour, minute,
    second, and for an [instant] the microsecond after them.  A
    message date has no microseconds. *)
Fixpoint lex_ltb (a b : list nat) : bool :=
  match a, b with
  | x :: a', y :: b' => (x <? y)%nat || ((x =? y)%nat && lex_ltb a' b')
  | _, _ => false
  end.

Definition date_key (d : datetime) : list nat :=
  [dt_year d; dt_month d; dt_day d; dt_hour d; dt_minute d; dt_second d].

(** [a < b] on message dates *)
Definition datetime_ltb (a b : datetime) : bool :=
  lex_ltb (date_key a) (date_key b).

(** [message.date < start_date] *)
Definition before_instant (d : datetime) (i : instant) : bool :=
  lex_ltb (date_key d ++ [0%nat])
          (date_key (inst_datetime i) ++ [inst_microsecond i]).

(** The loop that fetches the messages:
<<
    async for message in self.client.iter_messages(...):
        if message.date < start_date:
            break
        messages.append(message)
>>
    [None] when the iterator raises. *)
Fixpoint fetch_messages (start_date : instant) (yielded : list Message)
    (raises : bool) (messages : list Message) : option (list Message) :=
  match yielded with
  | [] => if raises then None else Some messages
  | message :: yielded =>
      if before_instant (msg_date message) start_date then Some messages
      else fetch_messages start_date yielded raises (messages ++ [message])
  end.

(** [messages.sort(key=lambda x: x.date)]: the sort is stable, a
    message goes before the messages that are not earlier than it and
    came after it. *)
Fixpoint insert_by_date (message : Message) (sorted : list Message) : list Message :=
  match sorted with
  | [] => [message]
  | other :: rest =>
      if datetime_ltb (msg_date other) (msg_date message)
      then other :: insert_by_date message rest
      else message :: other :: rest
  end.

Definition sort_by_date (messages : list Message) : list Message :=
  foldr insert_by_date [] messages.

(** [d.strftime("%Y-%m-%d_%H-%M-%S")] *)
Definition strftime_stamp (d : datetime) : string :=
  strftime_date d +:+ "_" +:+
  zfill 2 (Py.str_of_nat (dt_hour d)) +:+ "-" +:+
  zfill 2 (Py.str_of_nat (dt_minute d)) +:+ "-" +:+
  zfill 2 (Py.str_of_nat (dt_second d)).

(** The loop that writes the messages; the counter of downloads is
    only printed. *)
Fixpoint write_messages (self : TelegramArchiver) (channel_name : string)
    (media_dir filepath : Path.t) (messages : list Message) (w : World) : World :=
  match messages with
  | [] => w
  | message :: messages =>
      let '(media_path, w) :=
        match msg_media message with
        | Some _ =>
            if download_media self
            then download_media_file self w message media_dir (msg_id message)
            else (None, w)
        | None => (None, w)
        end in
      let markdown_content :=
        format_message_as_markdown self message channel_name media_path in
      let w := append_file filepath markdown_content w in
      write_messages self channel_name media_dir filepath messages w
  end.

Definition channel_info_json (channel_info : ChannelInfo) : json :=
  JDict [("id", JNum (info_id channel_info));
         ("title", JStr (info_title channel_info));
         ("username", match info_username channel_info with
                      | Some username => JStr username
                      | None => JNull
                      end);
         ("type", JStr (info_type channel_info))].

(** [TelegramArchiver.archive_channel_messages]: the result and the
    world it leaves.  An exception of the client or of the date
    arithmetic gives [False].  Creating the directories and writing
    the files are taken to succeed: the [False] that the source
    returns when one of them raises is outside the model. *)
Definition archive_channel_messages (self : TelegramArchiver) (client : Client)
    (rt : Runtime) (w : World) (channel_identifier : string)
    (limit days_back : Z) : bool * World :=
  match get_channel_info client channel_identifier with
  | None => (false, w)
  | Some channel_info =>
      let channel_name := info_title channel_info in
      let '(end_date, w) := utc_now rt w in
      match timedelta_sub rt end_date days_back with
      | None => (false, w)
      | Some start_date =>
          let safe_channel_name := sanitize_filename channel_name in
          let channel_dir := Path.joinpath (output_dir self) safe_channel_name in
          let media_dir := Path.joinpath channel_dir "media" in
          let '(yielded, raises) :=
            iter_messages client channel_identifier limit end_date in
          match fetch_messages start_date yielded raises [] with
          | None => (false, w)
          | Some [] => (true, w)
          | Some messages =>
              let '(now, w) := datetime_now w in
              let date_str := strftime_stamp now in
              let filename := safe_channel_name +:+ "_" +:+ date_str +:+ ".md" in
              let filepath := Path.joinpath channel_dir filename in
              let w := write_file filepath
                         ("# " +:+ channel_name +:+ Py.nl +:+ Py.nl) w in
              let '(now, w) := datetime_now w in
              let w := append_file filepath
                         ("**Archive Date:** " +:+ strftime_datetime now +:+ Py.nl) w in
              let w := append_file filepath
                         ("**Messages:** " +:+ Py.str_of_nat (length messages)
                          +:+ Py.nl) w in
              let w := append_file filepath
                         ("**Date Range:** " +:+
                          strftime_date (inst_datetime start_date) +:+ " to " +:+
                          strftime_date (inst_datetime end_date) +:+ Py.nl +:+ Py.nl) w in
              let w := append_file filepath ("---" +:+ Py.nl +:+ Py.nl) w in
              let messages := sort_by_date messages in
              let w := write_messages self channel_name media_dir filepath messages w in
              let archive_date := isoformat_now rt (ticks w) in
              let '(_, w) := datetime_now w in
              let metadata :=
                JDict [("channel_info", channel_info_json channel_info);
                       ("archive_date", JStr archive_date);
                       ("message_count", JNum (Z.of_nat (length messages)));
                       ("date_range",
                        JDict [("start", JStr (isoformat rt start_date));
                               ("end", JStr (isoformat rt end_date))]);
                       ("file_path", JStr (Path.to_str filepath))] in
              let metadata_file :=
                Path.joinpath channel_dir
                  (safe_channel_name +:+ "_" +:+ date_str +:+ "_metadata.json") in
              let w := write_file metadata_file (json_dump rt metadata) w in
              (true, w)
          end
      end
  end.

(** ** Vocabulary: the batch archive *)

(** A message date is not later than another. *)
Definition date_le (a b : Message) : Prop :=
  datetime_ltb (msg_date b) (msg_date a) = false.

#[global] Instance datetime_eq_dec : EqDecision datetime.
Proof. solve_decision. Defined.

(** The messages of a list that carry a date, in their order. *)
Definition dated (d : datetime) (messages : list Message) : list Message :=
  filter (fun m => msg_date m = d) messages.

Definition batch_dir (self : TelegramArchiver) (channel_name : string) : Path.t :=
  Path.joinpath (output_dir self) (sanitize_filename channel_name).

(** The markdown file and the metadata file of a run that reads the
    clock value [now] for the name. *)
Definition batch_file (self : TelegramArchiver) (channel_name : string)
    (now : datetime) : Path.t :=
  Path.joinpath (batch_dir self channel_name)
    (sanitize_filename channel_name +:+ "_" +:+ strftime_stamp now +:+ ".md").

Definition batch_metadata_file (self : TelegramArchiver) (channel_name : string)
    (now : datetime) : Path.t :=
  Path.joinpath (batch_dir self channel_name)
    (sanitize_filename channel_name +:+ "_" +:+ strftime_stamp now
     +:+ "_metadata.json").

Definition batch_header (channel_name : string) (written : datetime)
    (count : nat) (start_date end_date : instant) : string :=
  ("# " +:+ channel_name +:+ Py.nl +:+ Py.nl) +:+
  ("**Archive Date:** " +:+ strftime_datetime written +:+ Py.nl) +:+
  ("**Messages:** " +:+ Py.str_of_nat count +:+ Py.nl) +:+
  ("**Date Range:** " +:+ strftime_date (inst_datetime start_date) +:+ " to " +:+
   strftime_date (inst_datetime end_date) +:+ Py.nl +:+ Py.nl) +:+
  ("---" +:+ Py.nl +:+ Py.nl).

(** The media path of a rendered message is absent, or names the file
    of the message in the media directory. *)
Definition media_path_of (message : Message) (media_path : option string) : Prop :=
  media_path = None \/
  exists media, msg_media message = Some media /\
    media_path = Some ("media/" +:+ media_filename media (msg_id message)).

(** The messages a run keeps, when channel, window and fetch succeed. *)
Definition kept_messages (client : Client) (rt : Runtime) (w : World)
    (channel_identifier : string) (limit days_back : Z)
    : option (ChannelInfo * instant * list Message) :=
  channel_info ← get_channel_info client channel_identifier;
  let end_date := utc_clock rt (ticks w) in
  start_date ← timedelta_sub rt end_date days_back;
  let '(yielded, raises) := iter_messages client channel_identifier limit end_date in
  messages ← fetch_messages start_date yielded raises [];
  Some (channel_info, start_date, messages).

(** ** Sample values: the batch archive *)

Definition old_message : Message :=
  {| msg_id := 12;
     msg_date := {| dt_year := 2024; dt_month := 3; dt_day := 1;
                    dt_hour := 23; dt_minute := 15; dt_second := 0 |};
     msg_sender := None;
     msg_text := Some "first";
     msg_media := None;
     msg_forward := false;
     msg_reply_to := None |}.

Definition sample_client : Client :=
  {| get_entity := fun channel_identifier =>
       if String.eqb channel_identifier "@news"
       then Some (EntityChannel 1001 "News" (Some "news"))
       else None;
     iter_messages := fun _ _ _ => ([plain_message; sample_message; old_message], false) |}.

Definition sample_start : instant :=
  {| inst_datetime := {| dt_year := 2024; dt_month := 3; dt_day := 2;
                         dt_hour := 7; dt_minute := 0; dt_second := 58 |};
     inst_microsecond := 250 |}.

Definition sample_runtime : Runtime :=
  {| utc_clock := fun _ => {| inst_datetime := sample_date; inst_microsecond := 250 |};
     timedelta_sub := fun _ _ => Some sample_start;
     isoformat := fun i => strftime_datetime (inst_datetime i);
     isoformat_now := fun _ => strftime_datetime sample_date;
     json_dump := fun _ => "{}" |}.

(** ** [web_frontend.py]: the media links of a viewed file *)

Definition not_char (x c : ascii) : bool := negb (Ascii.eqb x c).

(** A match of [\[([^\]]+)\]\(media/([^)]+)\)] at the start of [s]:
    its two groups and its length.  Each class excludes the character
    that has to follow it, so the greedy run is the only candidate. *)
Definition match_media_link (s : string) : option (string * string * nat) :=
  match s with
  | "" => None
  | String c s =>
      if Ascii.eqb c "[" then
        match Re.take_while (not_char "]") s with
        | "" => None
        | link_text =>
            let s := Py.slice_from (Py.len link_text) s in
            match Re.match_lit_class1 "](media/" (not_char ")") s with
            | Some media_path =>
                let s := Py.slice_from (Py.len "](media/" + Py.len media_path) s in
                if Py.startswith ")" s
                then Some (link_text, media_path,
                           1 + Py.len link_text + Py.len "](media/"
                           + Py.len media_path + 1)%nat
                else None
            | None => None
            end
        end
      else None
  end.

(** The inner function [fix_media_link] of [view_file]. *)
Definition fix_media_link (link_text media_path : string) : string :=
  let filename := List.last (Path.split_on "/" media_path) "" in
  "[" +:+ link_text +:+ "](/media/" +:+ filename +:+ ")".

(** [re.sub(r'\[([^\]]+)\]\(media/([^)]+)\)', fix_media_link, s)];
    [skip] counts the characters of the current match still to be
    dropped. *)
Fixpoint sub_media_links (skip : nat) (s : string) : string :=
  match s with
  | "" => ""
  | String c s' =>
      match skip with
      | S k => sub_media_links k s'
      | O =>
          match match_media_link s with
          | Some (link_text, media_path, n) =>
              fix_media_link link_text media_path +:+ sub_media_links (n - 1) s'
          | None => String c (sub_media_links 0 s')
          end
      end
  end.

(** The class [[^)\s]]. *)
Definition media_ref_char (c : ascii) : bool :=
  not_char ")" c && negb (Py.is_space c).

(** [re.sub(r'media/([^)\s]+)', r'/media/\1', s)] *)
Fixpoint sub_media_refs (skip : nat) (s : string) : string :=
  match s with
  | "" => ""
  | String c s' =>
      match skip with
      | S k => sub_media_refs k s'
      | O =>
          match Re.match_lit_class1 "media/" media_ref_char s with
          | Some g =>
              "/media/" +:+ g +:+ sub_media_refs (Py.len "media/" + Py.len g - 1) s'
          | None => String c (sub_media_refs 0 s')
          end
      end
  end.

(** The value of [fixed_content] in [view_file], before the markdown
    library turns it into HTML. *)
Definition fix_media_links (content : string) : string :=
  let fixed_content := sub_media_links 0 content in
  let fixed_content := sub_media_refs 0 fixed_content in
  fixed_content.

(** ** [telegram_monitor.py]: the monitored channels *)

(** [TelegramMonitor.add_channel_to_monitor]: the result and the
    dictionary [monitored_channels].  An error of the client is caught
    and gives [False]. *)
Definition add_channel_to_monitor (client : Client)
    (monitored_channels : gmap Z string) (channel_identifier : string)
    : bool * gmap Z string :=
  match get_entity client channel_identifier with
  | Some (EntityChannel id title _) => (true, <[id := title]> monitored_channels)
  | Some (EntityChat id title) => (true, <[id := title]> monitored_channels)
  | Some EntityOther => (false, monitored_channels)
  | None => (false, monitored_channels)
  end.

(** The loop of [monitor_channels] that adds the channels: the counter
    [successful_channels] and the dictionary after it. *)
Fixpoint add_channels (client : Client) (channels : list string)
    (successful_channels : nat) (monitored_channels : gmap Z string)
    : nat * gmap Z string :=
  match channels with
  | [] => (successful_channels, monitored_channels)
  | channel :: channels =>
      let '(added, monitored_channels) :=
        add_channel_to_monitor client monitored_channels channel in
      let successful_channels :=
        if added then (successful_channels + 1)%nat else successful_channels in
      add_channels client channels successful_channels monitored_channels
  end.

(** The handler [handle_new_message] of [setup_event_handlers]; the
    notification it prints is left out. *)
Definition handle_new_message (self : TelegramMonitor)
    (monitored_channels : gmap Z string) (w : World) (chat_id : Z)
    (message : Message) : World :=
  match monitored_channels !! chat_id with
  | Some channel_name => save_single_message self w message channel_name
  | None => w
  end.

(** ** Vocabulary: the monitored channels *)

(** The identifiers that resolve to a channel or a chat, with the id
    and the title of what they resolve to. *)
Definition resolved (client : Client) (channels : list string) : list (Z * string) :=
  omap (fun channel =>
          match get_entity client channel with
          | Some (EntityChannel id title _) => Some (id, title)
          | Some (EntityChat id title) => Some (id, title)
          | _ => None
          end) channels.

(** The title under which a chat is monitored: that of the last
    identifier that resolves to the chat. *)
Definition monitored_title (client : Client) (channels : list string) (chat_id : Z)
    : option string :=
  snd <$> last (filter (fun e => e.1 = chat_id) (resolved client channels)).

(** ** Vocabulary: the text of a rendered message *)

(** Something follows the text in the rendering: media markup, the
    mark of a forward or that of a reply. *)
Definition annotated (message : Message) (media_path : option string) : bool :=
  Py.truthy (media_markup message media_path) || msg_forward message ||
  match msg_reply_to message with Some _ => true | None => false end.

(** Two line breaks and two stars: what ends the content of a section
    for the search. *)
Definition field_break : string := Py.nl +:+ Py.nl +:+ "**".

(** ** Vocabulary: plain channel filters and the lines of a pass *)

(** A name that is one path component: no slash, and neither of the
    dot names.  For such a name [archive_dir / name] is the entry of
    that name in the archive directory. *)
Definition plain_name (name : string) : bool :=
  all_chars not_slash name && negb (String.eqb name ".") &&
  negb (String.eqb name "..").

(** No channel filter, or one that is a plain name. *)
Definition plain_filter (channel_name : option string) : Prop :=
  match channel_name with
  | Some name => plain_name name = true
  | None => True
  end.

(** The lines that one pass of the monitoring loop logs for what it
    read from the child: nothing for a blank line, otherwise the
    stripped line, and after it the marked copy of a line that reports a
    skipped or a downloaded file. *)
Definition appended_lines (output : string) : list string :=
  let line := Py.strip output in
  if Py.truthy line then
    if Py.contains "Processing channel:" line then [line]
    else if Py.contains "Total channels:" line then [line]
    else if Py.contains "Skipping large file" line then [line; "⏭️ " +:+ line]
    else if Py.contains "Downloaded:" line then [line; "📥 " +:+ line]
    else [line]
  else [].

(** A later hour of the sample day, and the day after it. *)
Definition sample_evening : datetime :=
  {| dt_year := 2024; dt_month := 3; dt_day := 9;
     dt_hour := 23; dt_minute := 15; dt_second := 0 |}.

Definition sample_next_day : datetime :=
  {| dt_year := 2024; dt_month := 3; dt_day := 10;
     dt_hour := 7; dt_minute := 0; dt_second := 59 |}.

(** ** Vocabulary: a rendered message in a file that the search reads *)

Definition CR : ascii := "013"%char.

(** What [f.read()] gives for a file opened in text mode that holds
    [s]: with universal newlines a CR LF pair and a lone CR come back
    as one LF. *)
Fixpoint read_text (s : string) : string :=
  match s with
  | "" => ""
  | String c s' =>
      if Ascii.eqb c CR then
        String Py.LF
          match s' with
          | String d s'' => if Ascii.eqb d Py.LF then read_text s'' else read_text s'
          | "" => ""
          end
      else String c (read_text s')
  end.

(** Whether the position after [s] is the start of a line, when the
    position before [s] is one exactly if [bol]. *)
Fixpoint ends_bol (bol : bool) (s : string) : bool :=
  match s with
  | "" => bol
  | String c s' => ends_bol (Ascii.eqb c Py.LF) s'
  end.

(** No message header starts in [s]: at every start of a line, what
    follows differs from the literal of the header pattern within [s]. *)
Fixpoint no_header_start (bol : bool) (s : string) : bool :=
  match s with
  | "" => true
  | String c s' =>
      (negb bol || incompatible "## Message " s) &&
      no_header_start (Ascii.eqb c Py.LF) s'
  end.

(** The pieces of a text and the pieces of the text after it, put
    together: the last piece of the first runs into the first piece of
    the second. *)
Fixpoint glue_last (l x : list string) : list string :=
  match l with
  | [] => x
  | p :: l' =>
      match l' with
      | [] => match x with
              | [] => [p]
              | x0 :: xs => (p +:+ x0) :: xs
              end
      | _ :: _ => p :: glue_last l' x
      end
  end.

(** The four fields that open a rendering after its header, with the
    line break that ends them. *)
Definition rendered_fields (message : Message) (channel_name : string) : string :=
  (Py.nl +:+ Py.nl +:+ "**Channel:** ") +:+ channel_name +:+
  (Py.nl +:+ "**Sender:** ") +:+ sender_label message +:+
  (Py.nl +:+ "**Date:** ") +:+ strftime_datetime (msg_date message) +:+
  (Py.nl +:+ "**Message ID:** ") +:+ Py.str_of_int (msg_id message) +:+ Py.nl.

(** A markdown file of the archive as the search reads it, for the
    text that was written into it. *)
Definition written_file (file_name written : string) : MdFile :=
  {| md_name := file_name; md_content := Some (read_text written) |}.

(** A daily file of the live archive as two saves leave it: the header
    of the file, then the renderings of two messages; and an archive
    whose channel [News] holds the file. *)
Definition sample_prefix : string :=
  live_header "News" "2024-03-09" "2024-03-09 07:00:59".

Definition sample_written : string :=
  sample_prefix +:+
  format_message_as_markdown sample_archiver sample_message "News" None +:+
  format_message_as_markdown sample_archiver plain_message "News" None.

Definition sample_live_archive : list ArchiveDir :=
  [[("News", EntryDir [written_file "News_2024-03-09_live.md" sample_written]);
    ("media", EntryDir [])]].

(** * Properties *)

#[local] Arguments String.append : simpl nomatch.

(** ** Strings *)

Section StringFacts.

Lemma str_app_nil_r (s : string) : s +:+ "" = s.
Proof. induction s as [|c s IH]; [done|]. cbn. by rewrite IH. Qed.

Lemma str_app_assoc (a b c : string) : (a +:+ b) +:+ c = a +:+ (b +:+ c).
Proof. induction a as [|x a IH]; [done|]. cbn. by rewrite IH. Qed.

Lemma str_length_app (a b : string) :
  String.length (a +:+ b) = (String.length a + String.length b)%nat.
Proof. induction a as [|x a IH]; [done|]. cbn. by rewrite IH. Qed.

Lemma length_slice_to (n : nat) (s : string) :
  String.length (Py.slice_to n s) = Nat.min n (String.length s).
Proof.
  revert s. induction n as [|n IH]; intros [|c s]; cbn; try done.
  by rewrite IH.
Qed.

Lemma get_slice_to (n i : nat) (s : string) :
  (i < n)%nat -> String.get i (Py.slice_to n s) = String.get i s.
Proof.
  revert i s. induction n as [|n IH]; intros i s Hi; [lia|].
  destruct s as [|c s]; [done|]. destruct i as [|i]; [done|].
  cbn. apply IH. lia.
Qed.

Lemma get_length_None (i : nat) (s : string) :
  (String.length s <= i)%nat -> String.get i s = None.
Proof.
  revert i. induction s as [|c s IH]; intros i Hi; [by destruct i|].
  destruct i as [|i]; cbn in *; [lia|]. apply IH. lia.
Qed.

(** A one-character replacement keeps every position in place. *)
Lemma length_re_sub_class (cls : ascii -> bool) (r : ascii) (s : string) :
  String.length (Py.re_sub_class cls (String r "") s) = String.length s.
Proof.
  induction s as [|c s IH]; [done|]. cbn. destruct (cls c); cbn; by rewrite IH.
Qed.

Lemma get_re_sub_class (cls : ascii -> bool) (r : ascii) (s : string) (i : nat) :
  String.get i (Py.re_sub_class cls (String r "") s)
  = (fun c => if cls c then r else c) <$> String.get i s.
Proof.
  revert i. induction s as [|c s IH]; intros i; [by destruct i|].
  cbn. destruct i as [|i]; destruct (cls c) eqn:E; cbn; by rewrite ?E, ?IH.
Qed.

End StringFacts.

(** ** C10: [sanitize_filename] *)

Lemma sanitized_char_valid (c : ascii) : invalid_filename_char (sanitized_char c) = false.
Proof. unfold sanitized_char. destruct (invalid_filename_char c) eqn:E; [done|exact E]. Qed.

Lemma sanitize_filename_get (text : string) (i : nat) :
  (i < 100)%nat ->
  Py.char_at i (sanitize_filename text) = sanitized_char <$> Py.char_at i text.
Proof.
  intros Hi. unfold sanitize_filename, Py.char_at, Py.len.
  case_match; rewrite ?get_slice_to, ?get_re_sub_class; done.
Qed.

Lemma sanitize_filename_length (text : string) :
  Py.len (sanitize_filename text) = Nat.min 100 (Py.len text).
Proof.
  unfold sanitize_filename, Py.len.
  case_match eqn:E; rewrite ?length_slice_to, length_re_sub_class.
  - done.
  - apply Nat.ltb_ge in E. rewrite length_re_sub_class in E. lia.
Qed.

(** C10.  For every input, the result of [sanitize_filename] has at
    most 100 characters (it is as long as the input, capped at 100),
    none of its characters is one of the nine invalid ones, and at
    every position below 100 it holds the character of the input at
    that position, with an underscore in place of an invalid one. *)
Theorem sanitize_filename_spec (text : string) :
  (Py.len (sanitize_filename text) <= 100)%nat /\
  Py.len (sanitize_filename text) = Nat.min 100 (Py.len text) /\
  (forall i c, Py.char_at i (sanitize_filename text) = Some c ->
               invalid_filename_char c = false) /\
  (forall i c, (i < 100)%nat -> Py.char_at i text = Some c ->
               Py.char_at i (sanitize_filename text)
               = Some (if invalid_filename_char c then "_"%char else c)).
Proof.
  pose proof (sanitize_filename_length text) as Hlen.
  split; [lia|]. split; [done|]. split.
  - intros i c Hc.
    destruct (decide (i < 100)%nat) as [Hi|Hi].
    + rewrite sanitize_filename_get in Hc; [|done].
      destruct (Py.char_at i text) as [d|]; simplify_eq/=.
      apply sanitized_char_valid.
    + unfold Py.char_at in Hc. rewrite get_length_None in Hc; [done|].
      unfold Py.len in Hlen. lia.
  - intros i c Hi Hc. rewrite sanitize_filename_get; [|done]. by rewrite Hc.
Qed.

Lemma sanitize_filename_spec_witness :
  Py.char_at 1 (sanitize_filename "a/b:c") = Some "_"%char /\
  invalid_filename_char "_"%char = false.
Proof.
  destruct (sanitize_filename_spec "a/b:c") as (_ & _ & Hvalid & Hin).
  assert (Py.char_at 1 (sanitize_filename "a/b:c") = Some "_"%char) as H1.
  { apply (Hin 1%nat "/"%char); [lia|reflexivity]. }
  split; [exact H1|]. exact (Hvalid 1%nat "_"%char H1).
Defined.

(** ** C1: the name of a downloaded media file *)

Lemma truthy_ne (s : string) : Py.truthy s = true <-> s <> "".
Proof. by destruct s. Qed.

Lemma media_file_extension_document (doc : Document) :
  media_file_extension (MessageMediaDocument (Some doc))
  = if negb (Py.truthy (declared_extension doc)) && opt_truthy (mime_type doc)
    then dict_get_default mime_to_ext (default "" (mime_type doc)) ".bin"
    else declared_extension doc.
Proof.
  unfold media_file_extension, declared_extension.
  by destruct (first_file_name (attributes doc)).
Qed.

(** The path [download_media_file] returns names the file after
    [media_filename]. *)
Lemma download_media_file_path self w message media_dir message_id p w' :
  download_media_file self w message media_dir message_id = (Some p, w') ->
  exists media, msg_media message = Some media /\
                p = "media/" +:+ media_filename media message_id.
Proof.
  unfold download_media_file. intros H.
  destruct (msg_media message) as [media|]; [|done].
  destruct (negb (download_media self)); [done|].
  destruct (client_download_media w message) as [[ext data]|]; [|done].
  exists media. by simplify_eq.
Qed.

(** The claim as the specification words it fails on a photo: the code
    names it [.jpg], the specification's rule gives [.bin]. *)
Lemma media_filename_photo_counterexample :
  media_filename MessageMediaPhoto 7 = "msg_7.jpg" /\
  claimed_media_filename MessageMediaPhoto 7 = "msg_7.bin" /\
  media_filename MessageMediaPhoto 7 <> claimed_media_filename MessageMediaPhoto 7.
Proof. by vm_compute. Qed.

(** C1, amended.  Whenever [download_media_file] returns a path, it is
    [media/] followed by the file name [msg_<id><ext>] of the message's
    media.  For a photo [<ext>] is [.jpg].  For a document whose
    declared original file name has an extension, [<ext>] is that
    extension.  For a document without such an extension and with a
    non-empty MIME type, [<ext>] is the entry of the MIME table, and
    [.bin] when the table has none. *)
Theorem media_filename_spec (message_id : Z) :
  (forall self w message media_dir p w',
     download_media_file self w message media_dir message_id = (Some p, w') ->
     exists media, msg_media message = Some media /\
                   p = "media/" +:+ media_filename media message_id) /\
  media_filename MessageMediaPhoto message_id
    = "msg_" +:+ Py.str_of_int message_id +:+ ".jpg" /\
  (forall doc,
     declared_extension doc <> "" ->
     media_filename (MessageMediaDocument (Some doc)) message_id
     = "msg_" +:+ Py.str_of_int message_id +:+ declared_extension doc) /\
  (forall doc mime,
     declared_extension doc = "" ->
     mime_type doc = Some mime -> mime <> "" ->
     media_filename (MessageMediaDocument (Some doc)) message_id
     = "msg_" +:+ Py.str_of_int message_id +:+ default ".bin" (mime_to_ext !! mime)).
Proof.
  split; [intros *; apply download_media_file_path|].
  split; [done|]. split.
  - intros doc Hext. unfold media_filename.
    rewrite media_file_extension_document.
    apply truthy_ne in Hext. by rewrite Hext.
  - intros doc mime Hext Hmime Hne. unfold media_filename.
    rewrite media_file_extension_document, Hext, Hmime. cbn.
    apply truthy_ne in Hne. rewrite Hne. cbn.
    unfold dict_get_default. by destruct (mime_to_ext !! mime).
Qed.

Lemma media_filename_spec_witness :
  media_filename
    (MessageMediaDocument
       (Some {| attributes := [AttributeOther; AttributeFilename "report.PDF"];
                mime_type := Some "image/png" |})) 12
  = "msg_12.PDF" /\
  media_filename
    (MessageMediaDocument
       (Some {| attributes := [AttributeFilename "README"];
                mime_type := Some "video/x-matroska" |})) 12
  = "msg_12.bin".
Proof.
  destruct (media_filename_spec 12) as (_ & _ & Hdecl & Hmime).
  split.
  - apply (Hdecl {| attributes := [AttributeOther; AttributeFilename "report.PDF"];
                    mime_type := Some "image/png" |}).
    vm_compute. discriminate.
  - apply (Hmime {| attributes := [AttributeFilename "README"];
                    mime_type := Some "video/x-matroska" |} "video/x-matroska").
    + reflexivity.
    + reflexivity.
    + discriminate.
Defined.

(** ** C8: the markdown renderer *)

(** Every media markup opens with the [**Media:**] label. *)
Lemma media_markup_label message media_path media :
  msg_media message = Some media ->
  media <> MessageMediaDocument None ->
  exists rest, media_markup message media_path = "**Media:** " +:+ rest.
Proof.
  intros Hm Hne. unfold media_markup. rewrite Hm.
  destruct media as [|[doc|]|type_name]; [..|done|].
  - destruct (opt_truthy media_path); eexists; reflexivity.
  - destruct (opt_truthy media_path);
      [destruct (opt_truthy (mime_type doc) && _)|]; eexists; reflexivity.
  - eexists; reflexivity.
Qed.

(** The claim as the specification words it fails on a document media
    without its document: the message has media, and the rendering has
    no media markup between the fields and the separator. *)
Lemma format_expired_document_counterexample :
  msg_media expired_document_message <> None /\
  format_message_as_markdown sample_archiver expired_document_message "News" None
  = "## Message 5" +:+ Py.nl +:+ Py.nl +:+
    "**Channel:** News" +:+ Py.nl +:+
    "**Sender:** News" +:+ Py.nl +:+
    "**Date:** 2024-03-09 07:00:59" +:+ Py.nl +:+
    "**Message ID:** 5" +:+ Py.nl +:+ Py.nl +:+
    "---" +:+ Py.nl +:+ Py.nl /\
  Py.contains "**Media:**"
    (format_message_as_markdown sample_archiver expired_document_message "News" None)
  = false.
Proof. by vm_compute. Qed.

(** C8, amended.  The rendering is, in this order: the header line
    with the message id; the Channel, Sender, Date and Message ID
    fields; the content section, present exactly when the message has
    text; the media markup; the forwarded annotation, present exactly
    when the message is forwarded; the reply annotation, present
    exactly when the message is a reply; the separator.  The media
    markup is empty when the message has no media and when its media is
    a document object without its document; for every other media it
    starts with the [**Media:**] label. *)
Theorem format_message_as_markdown_field_order
    (self : TelegramArchiver) (message : Message) (channel_name : string)
    (media_path : option string) :
  exists content media forwarded reply : string,
    format_message_as_markdown self message channel_name media_path
    = ("## Message " +:+ Py.str_of_int (msg_id message) +:+ Py.nl +:+ Py.nl) +:+
      ("**Channel:** " +:+ channel_name +:+ Py.nl) +:+
      ("**Sender:** " +:+ sender_label message +:+ Py.nl) +:+
      ("**Date:** " +:+ strftime_datetime (msg_date message) +:+ Py.nl) +:+
      ("**Message ID:** " +:+ Py.str_of_int (msg_id message) +:+ Py.nl +:+ Py.nl) +:+
      content +:+ media +:+ forwarded +:+ reply +:+
      ("---" +:+ Py.nl +:+ Py.nl) /\
    content
    = (if opt_truthy (msg_text message)
       then "### Content" +:+ Py.nl +:+ Py.nl +:+
            Py.strip (default "" (msg_text message)) +:+ Py.nl +:+ Py.nl
       else "") /\
    (msg_media message = None -> media = "") /\
    (msg_media message = Some (MessageMediaDocument None) -> media = "") /\
    (forall m, msg_media message = Some m -> m <> MessageMediaDocument None ->
               exists rest, media = "**Media:** " +:+ rest) /\
    forwarded
    = (if msg_forward message
       then "**Forwarded Message**" +:+ Py.nl +:+ Py.nl
       else "") /\
    reply
    = match msg_reply_to message with
      | Some reply_to_msg_id =>
          "**Reply to:** Message " +:+ Py.str_of_int reply_to_msg_id +:+ Py.nl +:+ Py.nl
      | None => ""
      end.
Proof.
  exists (if opt_truthy (msg_text message)
          then "### Content" +:+ Py.nl +:+ Py.nl +:+
               Py.strip (default "" (msg_text message)) +:+ Py.nl +:+ Py.nl
          else ""),
         (media_markup message media_path),
         (if msg_forward message
          then "**Forwarded Message**" +:+ Py.nl +:+ Py.nl
          else ""),
         (match msg_reply_to message with
          | Some reply_to_msg_id =>
              "**Reply to:** Message " +:+ Py.str_of_int reply_to_msg_id
              +:+ Py.nl +:+ Py.nl
          | None => ""
          end).
  split; [|split; [reflexivity|]].
  - unfold format_message_as_markdown.
    generalize (media_markup message media_path) as media.
    generalize (sender_label message) as sender.
    generalize (strftime_datetime (msg_date message)) as timestamp.
    generalize (Py.str_of_int (msg_id message)) as id.
    generalize (Py.strip (default "" (msg_text message))) as text.
    intros text id timestamp sender media.
    destruct (opt_truthy (msg_text message)), (msg_forward message),
      (msg_reply_to message) as [reply_to_msg_id|];
      try generalize (Py.str_of_int reply_to_msg_id) as reply; intros;
      rewrite ?str_app_assoc; reflexivity.
  - split; [|split; [|split; [|split; reflexivity]]].
    + intros Hm. unfold media_markup. by rewrite Hm.
    + intros Hm. unfold media_markup. by rewrite Hm.
    + intros m Hm Hne. by eapply media_markup_label.
Qed.

Lemma format_message_as_markdown_field_order_witness :
  exists content media rest forwarded reply : string,
    media = "**Media:** " +:+ rest /\
    format_message_as_markdown sample_archiver sample_message "News"
      (Some "media/msg_42.png")
    = ("## Message " +:+ Py.str_of_int 42 +:+ Py.nl +:+ Py.nl) +:+
      ("**Channel:** " +:+ "News" +:+ Py.nl) +:+
      ("**Sender:** " +:+ "Ann Lee" +:+ Py.nl) +:+
      ("**Date:** " +:+ "2024-03-09 07:00:59" +:+ Py.nl) +:+
      ("**Message ID:** " +:+ Py.str_of_int 42 +:+ Py.nl +:+ Py.nl) +:+
      content +:+ media +:+ forwarded +:+ reply +:+
      ("---" +:+ Py.nl +:+ Py.nl).
Proof.
  destruct (format_message_as_markdown_field_order sample_archiver sample_message
              "News" (Some "media/msg_42.png"))
    as (content & media & forwarded & reply & Heq & _ & _ & _ & Hlabel & _).
  destruct (Hlabel _ eq_refl) as [rest Hrest]; [discriminate|].
  exists content, media, rest, forwarded, reply.
  split; [exact Hrest|exact Heq].
Defined.

(** ** C7: the live archive *)

Section SlashFree.

Lemma all_chars_app (P : ascii -> bool) (a b : string) :
  all_chars P (a +:+ b) = all_chars P a && all_chars P b.
Proof.
  induction a as [|c a IH]; [done|]. cbn. rewrite IH. by destruct (P c).
Qed.

Lemma all_chars_slice_to (P : ascii -> bool) (n : nat) (s : string) :
  all_chars P s = true -> all_chars P (Py.slice_to n s) = true.
Proof.
  revert s. induction n as [|n IH]; intros [|c s] H; cbn in *; try done.
  apply andb_true_iff in H as [-> H]. by apply IH.
Qed.

Lemma all_chars_re_sub_class (P cls : ascii -> bool) (r : ascii) (s : string) :
  P r = true -> (forall c, cls c = false -> P c = true) ->
  all_chars P (Py.re_sub_class cls (String r "") s) = true.
Proof.
  intros Hr Hc. induction s as [|c s IH]; [done|].
  cbn. destruct (cls c) eqn:E; cbn; rewrite IH, ?Hr, ?(Hc c E); done.
Qed.

Lemma sanitize_filename_not_slash (text : string) :
  all_chars not_slash (sanitize_filename text) = true.
Proof.
  unfold sanitize_filename.
  assert (all_chars not_slash
            (Py.re_sub_class invalid_filename_char "_" text) = true) as H.
  { apply all_chars_re_sub_class; [done|].
    intros c Hc. unfold not_slash.
    destruct (Ascii.eqb_spec "/"%char c) as [<-|]; [done|done]. }
  case_match; [by apply all_chars_slice_to|done].
Qed.

Lemma all_chars_impl (P Q : ascii -> bool) (s : string) :
  (forall c, P c = true -> Q c = true) ->
  all_chars P s = true -> all_chars Q s = true.
Proof.
  intros HPQ. induction s as [|c s IH]; [done|]. cbn.
  intros [Hc Hs]%andb_true_iff. by rewrite (HPQ c Hc), IH.
Qed.

Lemma digit_not_slash (c : ascii) : Re.is_digit c = true -> not_slash c = true.
Proof.
  unfold Re.is_digit, not_slash. intros H.
  destruct (Ascii.eqb_spec "/"%char c) as [<-|]; [done|done].
Qed.

Lemma string_of_uint_digits (u : Decimal.uint) :
  all_chars Re.is_digit (NilEmpty.string_of_uint u) = true.
Proof. induction u; cbn; by rewrite ?IHu. Qed.

Lemma str_of_nat_digits (n : nat) : all_chars Re.is_digit (Py.str_of_nat n) = true.
Proof.
  unfold Py.str_of_nat, NilZero.string_of_uint.
  destruct (Nat.to_uint n) eqn:E; [done|..]; rewrite <- E; apply string_of_uint_digits.
Qed.

Lemma zfill_digits (width : nat) (s : string) :
  all_chars Re.is_digit s = true -> all_chars Re.is_digit (zfill width s) = true.
Proof.
  intros H. unfold zfill. rewrite all_chars_app, H, andb_true_r.
  induction (width - Py.len s)%nat as [|k IH]; [done|].
  change (replicate (S k) "0") with ("0" :: replicate k "0").
  cbn [String.concat]. destruct (replicate k "0"); [done|].
  by rewrite !all_chars_app, IH.
Qed.

Lemma strftime_date_not_slash (d : datetime) :
  all_chars not_slash (strftime_date d) = true.
Proof.
  unfold strftime_date. rewrite !all_chars_app.
  rewrite !(all_chars_impl _ _ _ digit_not_slash (zfill_digits _ _ (str_of_nat_digits _))).
  done.
Qed.

Lemma split_on_absent (c : ascii) (s : string) :
  all_chars (fun d => negb (Ascii.eqb c d)) s = true -> Path.split_on c s = [s].
Proof.
  induction s as [|d s IH]; [done|]. cbn.
  intros [Hd Hs]%andb_true_iff. apply negb_true_iff in Hd. rewrite Hd.
  by rewrite (IH Hs).
Qed.

(** A name without a slash is one part, or none. *)
Lemma parts_not_slash (s : string) :
  all_chars not_slash s = true -> Path.parts s = [s] \/ Path.parts s = [].
Proof.
  intros H. unfold Path.parts. rewrite (split_on_absent _ _ H). cbn.
  case_decide; auto.
Qed.

End SlashFree.

(** The daily file is not a file of the media directory. *)
Lemma live_log_file_not_media (self : TelegramMonitor) (channel_name : string)
    (d : datetime) (name : string) :
  Path.joinpath (live_media_dir self channel_name) name
  <> live_log_file self channel_name (strftime_date d).
Proof.
  unfold live_media_dir, live_log_file, Path.joinpath.
  rewrite <- !(assoc_L (++)%list). intros H.
  do 2 apply app_inv_head in H.
  set (l := sanitize_filename channel_name +:+ "_" +:+ strftime_date d +:+ "_live.md") in *.
  assert (all_chars not_slash l = true) as Hl.
  { unfold l. rewrite !all_chars_app.
    by rewrite sanitize_filename_not_slash, strftime_date_not_slash. }
  assert (String.length l <> 5%nat) as Hlen.
  { unfold l. rewrite !str_length_app. cbn. lia. }
  change (Path.parts "media") with ["media"] in H.
  destruct (parts_not_slash l Hl) as [Hp|Hp]; rewrite Hp in H; [|done].
  cbn in H. injection H as H _. by rewrite <- H in Hlen.
Qed.

Lemma lookup_append_file (p : Path.t) (data : string) (w : World) :
  files (append_file p data w) !! p = Some (default "" (files w !! p) +:+ data).
Proof. unfold append_file, set_files. cbn. by rewrite lookup_insert_eq. Qed.

(** A download leaves the clock alone and writes, if at all, into the
    media directory. *)
Lemma download_media_file_frame self w message media_dir message_id :
  let w' := (download_media_file self w message media_dir message_id).2 in
  clock w' = clock w /\ ticks w' = ticks w /\
  forall p, (forall name, Path.joinpath media_dir name <> p) ->
            files w' !! p = files w !! p.
Proof.
  unfold download_media_file.
  destruct (msg_media message) as [media|]; [|done].
  destruct (negb (download_media self)); [done|].
  destruct (client_download_media w message) as [[ext data]|]; [|done].
  cbn. split; [done|]. split; [done|].
  intros p Hp. by rewrite lookup_insert_ne.
Qed.

(** What [save_single_message] stores, in terms of the world after the
    download step. *)
Lemma save_single_message_unfold self w message channel_name :
  let w1 :=
    match msg_media message with
    | Some _ =>
        if mon_download_media self
        then (download_media_file (mon_archiver self) w message
                (live_media_dir self channel_name) (msg_id message)).2
        else w
    | None => w
    end in
  let date_str := strftime_date (clock w1 (ticks w1)) in
  let log_file := live_log_file self channel_name date_str in
  let rendered :=
    format_message_as_markdown (mon_archiver self) message channel_name
      (live_media_path self w message channel_name) in
  files (save_single_message self w message channel_name) !! log_file
  = Some (match files w1 !! log_file with
          | Some existing => existing
          | None => live_header channel_name date_str
                      (strftime_datetime (clock w1 (S (ticks w1))))
          end +:+ rendered).
Proof.
  unfold save_single_message, live_media_path, live_media_dir, live_log_file.
  set (dl := download_media_file _ _ _ _ _).
  set (w1 := match msg_media message with
             | Some _ => if mon_download_media self then dl.2 else w
             | None => w
             end).
  assert ((match msg_media message with
           | Some _ => if mon_download_media self then dl else (None, w)
           | None => (None, w)
           end)
          = (match msg_media message with
             | Some _ => if mon_download_media self then dl.1 else None
             | None => None
             end, w1)) as ->.
  { unfold w1. destruct (msg_media message); [|done].
    destruct (mon_download_media self); [by destruct dl|done]. }
  cbn [datetime_now files clock ticks]. cbv zeta.
  unfold path_exists. cbn [files].
  destruct (files w1 !! _) as [existing|] eqn:Hold; cbn [negb].
  - rewrite lookup_append_file. cbn [files]. by rewrite Hold.
  - rewrite !lookup_append_file. cbn [files clock ticks append_file set_files].
    rewrite !lookup_insert_eq, Hold. cbn [default].
    unfold live_header, id. f_equal. rewrite !str_app_assoc. reflexivity.
Qed.

(** C7.  [save_single_message] leaves in the daily file of the channel
    what the file held before, followed by the rendered message; when
    the file did not exist, and only then, the archive header is
    written first. *)
Theorem save_single_message_appends (self : TelegramMonitor) (w : World)
    (message : Message) (channel_name : string) :
  let date_str := strftime_date (clock w (ticks w)) in
  let log_file := live_log_file self channel_name date_str in
  let rendered :=
    format_message_as_markdown (mon_archiver self) message channel_name
      (live_media_path self w message channel_name) in
  let w' := save_single_message self w message channel_name in
  match files w !! log_file with
  | Some existing => files w' !! log_file = Some (existing +:+ rendered)
  | None =>
      files w' !! log_file
      = Some (live_header channel_name date_str
                (strftime_datetime (clock w (S (ticks w)))) +:+ rendered)
  end.
Proof.
  cbv zeta.
  pose proof (save_single_message_unfold self w message channel_name) as H.
  cbv zeta in H.
  set (w1 := match msg_media message with
             | Some _ => if mon_download_media self then _ else w
             | None => w
             end) in H.
  assert (clock w1 = clock w /\ ticks w1 = ticks w /\
          forall d, files w1 !! live_log_file self channel_name (strftime_date d)
                    = files w !! live_log_file self channel_name (strftime_date d))
    as (Hc & Ht & Hf).
  { unfold w1. destruct (msg_media message); [|done].
    destruct (mon_download_media self); [|done].
    destruct (download_media_file_frame (mon_archiver self) w message
                (live_media_dir self channel_name) (msg_id message))
      as (Hc & Ht & Hf).
    split; [done|]. split; [done|].
    intros d. apply Hf. intros name. apply live_log_file_not_media. }
  rewrite Hc, Ht, Hf in H. rewrite H.
  by destruct (files w !! _).
Qed.

(** Two messages saved on the same day: one header, then the two
    sections, and the downloaded file next to the daily file. *)
Lemma save_single_message_twice :
  let w1 := save_single_message sample_monitor sample_world sample_message "News" in
  let w2 := save_single_message sample_monitor w1 plain_message "News" in
  files w2 !! ["live_archive"; "News"; "News_2024-03-09_live.md"]
  = Some (live_header "News" "2024-03-09" "2024-03-09 07:00:59" +:+
          format_message_as_markdown sample_archiver sample_message "News"
            (Some "media/msg_42.png") +:+
          format_message_as_markdown sample_archiver plain_message "News" None) /\
  files w2 !! ["live_archive"; "News"; "media"; "msg_42.png"] = Some "PNG".
Proof. by vm_compute. Qed.

(** ** C2: the limit of the search *)

Section SearchLimit.

Variables (query : string) (limit : Z).

Lemma scan_messages_within_limit channel_name file_name i messages results :
  (Z.of_nat (length results) < limit)%Z ->
  within_limit limit
    (scan_messages query limit channel_name file_name i messages results).
Proof.
  revert i results. induction messages as [|message rest IH]; intros i results Hlt.
  - exact Hlt.
  - cbn [scan_messages]. destruct (Py.contains _ _); [|by apply IH].
    destruct (Z.leb_spec limit
                (Z.of_nat (length (results ++ [make_result query channel_name
                                                 file_name i message])))) as [Hle|Hgt].
    + cbn. rewrite length_app in *. cbn [length] in *. lia.
    + by apply IH.
Qed.

Lemma scan_files_within_limit channel_name md_files results :
  (Z.of_nat (length results) < limit)%Z ->
  within_limit limit (scan_files query limit channel_name md_files results).
Proof.
  revert results. induction md_files as [|md_file rest IH]; intros results Hlt.
  - exact Hlt.
  - cbn [scan_files]. destruct (md_content md_file) as [content|]; [|by apply IH].
    pose proof (scan_messages_within_limit channel_name (md_name md_file) 0
                  (tail (Re.split_headers content)) results Hlt) as H.
    destruct (scan_messages _ _ _ _ _ _ _) as [results'|results']; [by apply IH|exact H].
Qed.

Lemma scan_channels_within_limit channels results :
  (Z.of_nat (length results) < limit)%Z ->
  within_limit limit (scan_channels query limit channels results).
Proof.
  revert results. induction channels as [|[channel_name channel_dir] rest IH];
    intros results Hlt.
  - exact Hlt.
  - cbn [scan_channels].
    pose proof (scan_files_within_limit channel_name (glob_md channel_dir) results Hlt)
      as H.
    destruct (scan_files _ _ _ _ _) as [results'|results']; [by apply IH|exact H].
Qed.

End SearchLimit.

(** For a positive limit the search returns at most that many results,
    and it leaves the scan with exactly that many. *)
Lemma search_messages_positive_limit archive_dirs query channel_name limit :
  (0 < limit)%Z ->
  (Z.of_nat (length (search_messages archive_dirs query channel_name limit)) <= limit)%Z.
Proof.
  intros Hpos. unfold search_messages.
  pose proof (scan_channels_within_limit query limit
                (channels_to_search archive_dirs channel_name) [] Hpos) as H.
  destruct (scan_channels _ _ _ _); cbn in *; lia.
Qed.

Lemma search_messages_positive_limit_witness :
  (Z.of_nat (length (search_messages sample_archive "HELLO" None 1)) <= 1)%Z.
Proof. apply search_messages_positive_limit. lia. Defined.

(** C2 at the limit 0: the first hit is appended before the length is
    compared with the limit, so the search returns one result. *)
Theorem search_messages_limit_zero :
  length (search_messages sample_archive "HELLO" None 0) = 1%nat /\
  length (search_messages sample_archive "HELLO" None (-5)) = 1%nat /\
  length (search_messages sample_archive "HELLO" None 50) = 2%nat.
Proof. by vm_compute. Qed.

(** ** C3: highlighting *)

Section Highlight.

Lemma concat_cons (x : string) (xs : list string) :
  String.concat "" (x :: xs) = x +:+ String.concat "" xs.
Proof. destruct xs; cbn; [by rewrite str_app_nil_r|done]. Qed.

Lemma slice_to_from (n : nat) (s : string) :
  Py.slice_to n s +:+ Py.slice_from n s = s.
Proof.
  revert s. induction n as [|n IH]; intros [|c s]; cbn; try done. by rewrite IH.
Qed.

Lemma lower_app (a b : string) : Py.lower (a +:+ b) = Py.lower a +:+ Py.lower b.
Proof. induction a as [|c a IH]; [done|]. cbn. by rewrite IH. Qed.

Lemma lower_length (s : string) : Py.len (Py.lower s) = Py.len s.
Proof. unfold Py.len. induction s as [|c s IH]; [done|]. cbn. by rewrite IH. Qed.

Lemma lower_slice_to (n : nat) (s : string) :
  Py.lower (Py.slice_to n s) = Py.slice_to n (Py.lower s).
Proof.
  revert s. induction n as [|n IH]; intros [|c s]; cbn; try done. by rewrite IH.
Qed.

Lemma startswith_cons (a b : ascii) (p t : string) :
  Py.startswith (String a p) (String b t) = true <-> a = b /\ Py.startswith p t = true.
Proof.
  unfold Py.startswith. cbn. destruct (ascii_dec a b) as [->|Hne].
  - split; [done|by intros [_ ?]].
  - split; [done|by intros [? _]].
Qed.

Lemma startswith_slice_to (p t : string) :
  Py.startswith p t = true -> Py.slice_to (Py.len p) t = p.
Proof.
  revert t. induction p as [|a p IH]; intros t H; [by destruct t|].
  destruct t as [|b t]; [done|].
  apply startswith_cons in H as [-> H]. cbn. f_equal. exact (IH t H).
Qed.

Lemma startswith_app (p a b : string) :
  Py.startswith p a = true -> Py.startswith p (a +:+ b) = true.
Proof.
  revert a. induction p as [|x p IH]; intros a H.
  { unfold Py.startswith. by destruct (a +:+ b). }
  destruct a as [|y a]; [done|].
  apply startswith_cons in H as [-> H]. cbn [String.append].
  apply startswith_cons. split; [done|by apply IH].
Qed.

Variable q : string.

(** Undoing the replacement gives back the subject. *)
Lemma sub_pieces_source (s : string) (skip : nat) :
  String.concat "" (Re.source <$> Re.sub_pieces q skip s) = Py.slice_from skip s.
Proof.
  revert skip. induction s as [|c s IH]; intros skip.
  - cbn [Re.sub_pieces]. destruct (Re.match_literal_ci q ""), skip; done.
  - destruct skip as [|k]; cbn [Re.sub_pieces Py.slice_from]; [|apply IH].
    destruct (Re.match_literal_ci q (String c s)).
    + destruct (Py.len q) as [|k] eqn:E.
      * rewrite !fmap_cons, !concat_cons, IH. done.
      * rewrite fmap_cons, concat_cons, IH. cbn. by rewrite slice_to_from.
    + rewrite fmap_cons, concat_cons, IH. done.
Qed.

(** Every match is the query up to the case of its letters. *)
Lemma sub_pieces_match (s : string) (skip : nat) (m : string) :
  Re.Match m ∈ Re.sub_pieces q skip s -> Py.lower m = Py.lower q.
Proof.
  revert skip. induction s as [|c s IH]; intros skip.
  - cbn. unfold Re.match_literal_ci, Py.startswith.
    destruct (Py.lower q) eqn:E; cbn; [|by intros ?%elem_of_nil].
    intros Heq%list_elem_of_singleton. by injection Heq as ->.
  - destruct skip as [|k]; cbn [Re.sub_pieces]; [|apply IH].
    destruct (Re.match_literal_ci q (String c s)) eqn:Hm.
    + destruct (Py.len q) as [|k] eqn:E.
      * intros [Heq|[Heq|H]%elem_of_cons]%elem_of_cons; [|done|by eapply IH].
        injection Heq as ->. by destruct q.
      * intros [Heq|H]%elem_of_cons; [|by eapply IH].
        injection Heq as ->.
        change (Py.lower (Py.slice_to (S k) (String c s)) = Py.lower q).
        rewrite lower_slice_to, <- E, <- lower_length.
        by apply startswith_slice_to.
    + intros [Heq|H]%elem_of_cons; [done|by eapply IH].
Qed.

(** The first stretch of copied text is a prefix of the subject. *)
Lemma plain_runs_head (s : string) :
  exists run runs rest,
    plain_runs (Re.sub_pieces q 0 s) = run :: runs /\ s = run +:+ rest.
Proof.
  induction s as [|c s (run & runs & rest & Hr & Hs)].
  - cbn [Re.sub_pieces].
    destruct (Re.match_literal_ci q ""); eexists "", _, ""; split; reflexivity.
  - cbn [Re.sub_pieces]. destruct (Re.match_literal_ci q (String c s)).
    + destruct (Py.len q); eexists "", _, (String c s); split; reflexivity.
    + cbn [plain_runs]. rewrite Hr. exists (String c run), runs, rest.
      split; [done|]. cbn [String.append]. by rewrite <- Hs.
Qed.

(** No stretch of copied text holds an occurrence of the query. *)
Lemma plain_runs_no_occurrence (s : string) (skip : nat) :
  q <> "" ->
  Forall (fun run => Py.contains (Py.lower q) (Py.lower run) = false)
    (plain_runs (Re.sub_pieces q skip s)).
Proof.
  intros Hq.
  assert (Py.contains (Py.lower q) (Py.lower "") = false) as Hempty.
  { destruct q; [done|]. done. }
  revert skip. induction s as [|c s IH]; intros skip.
  - cbn [Re.sub_pieces]. unfold Re.match_literal_ci.
    destruct q; [done|]. cbn. by repeat constructor.
  - destruct skip as [|k]; cbn [Re.sub_pieces]; [|apply IH].
    destruct (Re.match_literal_ci q (String c s)) eqn:Hm.
    + destruct (Py.len q) eqn:E; [by destruct q|].
      cbn [plain_runs]. constructor; [done|apply IH].
    + cbn [plain_runs].
      destruct (plain_runs_head s) as (run & runs & rest & Hr & Hs).
      specialize (IH 0%nat). rewrite Hr in IH |- *.
      apply Forall_cons in IH as [Hrun Hruns]. constructor; [|done].
      cbn [Py.lower Py.contains]. rewrite Hrun, orb_false_r.
      destruct (Py.startswith _ _) eqn:Hp; [|done].
      rewrite <- Hm. symmetry. unfold Re.match_literal_ci.
      rewrite Hs. change (String c (run +:+ rest)) with (String c run +:+ rest).
      rewrite lower_app. by apply startswith_app.
Qed.

End Highlight.

(** Every result of a search is the dictionary built by
    [make_result] for the query. *)
Section SearchResults.

Variables (query : string) (limit : Z) (P : SearchResult -> Prop).
Hypothesis P_make_result :
  forall channel_name file_name i message,
    P (make_result query channel_name file_name i message).

Lemma scan_messages_Forall channel_name file_name i messages results :
  Forall P results ->
  Forall P (scan_results
              (scan_messages query limit channel_name file_name i messages results)).
Proof.
  revert i results. induction messages as [|message rest IH]; intros i results H.
  - exact H.
  - cbn [scan_messages]. destruct (Py.contains _ _); [|by apply IH].
    assert (Forall P (results ++ [make_result query channel_name file_name i message]))
      as H' by (apply Forall_app; split; [done|by repeat constructor]).
    destruct (_ <=? _)%Z; [exact H'|by apply IH].
Qed.

Lemma scan_files_Forall channel_name md_files results :
  Forall P results ->
  Forall P (scan_results (scan_files query limit channel_name md_files results)).
Proof.
  revert results. induction md_files as [|md_file rest IH]; intros results H.
  - exact H.
  - cbn [scan_files]. destruct (md_content md_file) as [content|]; [|by apply IH].
    pose proof (scan_messages_Forall channel_name (md_name md_file) 0
                  (tail (Re.split_headers content)) results H) as H'.
    destruct (scan_messages _ _ _ _ _ _ _) as [results'|results']; [by apply IH|exact H'].
Qed.

Lemma scan_channels_Forall channels results :
  Forall P results ->
  Forall P (scan_results (scan_channels query limit channels results)).
Proof.
  revert results. induction channels as [|[channel_name channel_dir] rest IH];
    intros results H.
  - exact H.
  - cbn [scan_channels].
    pose proof (scan_files_Forall channel_name (glob_md channel_dir) results H) as H'.
    destruct (scan_files _ _ _ _ _) as [results'|results']; [by apply IH|exact H'].
Qed.

End SearchResults.

Lemma search_messages_content archive_dirs query channel_name limit r :
  r ∈ search_messages archive_dirs query channel_name limit ->
  res_content r = truncated (Re.sub_mark query (res_full_content r)).
Proof.
  revert r. apply Forall_forall. unfold search_messages.
  apply scan_channels_Forall; [|constructor]. done.
Qed.

(** C3.  For every result of a search, the highlighted content is the
    content text cut at the matches of the query, with every match
    wrapped in the mark tags and the text between the matches copied:
    taking the tags away again gives the content text; every wrapped
    piece equals the query up to the case of its letters; and, for a
    non-empty query, no occurrence of the query is left in the copied
    text.  The [content] entry of the result is this highlighted
    content, cut to 300 characters and three dots when it is longer. *)
Theorem search_messages_highlight archive_dirs query channel_name limit r :
  r ∈ search_messages archive_dirs query channel_name limit ->
  let content_text := res_full_content r in
  let pieces := Re.sub_pieces query 0 content_text in
  let highlighted_content := Re.sub_mark query content_text in
  highlighted_content = String.concat "" (Re.mark <$> pieces) /\
  String.concat "" (Re.source <$> pieces) = content_text /\
  (forall m, Re.Match m ∈ pieces -> Py.lower m = Py.lower query) /\
  (query <> "" ->
   Forall (fun run => Py.contains (Py.lower query) (Py.lower run) = false)
     (plain_runs pieces)) /\
  res_content r = truncated highlighted_content.
Proof.
  intros Hr. cbv zeta. split; [done|]. split; [apply sub_pieces_source|].
  split; [intros m; apply sub_pieces_match|].
  split; [intros Hq; by apply plain_runs_no_occurrence|].
  by eapply search_messages_content.
Qed.

Lemma search_messages_highlight_witness :
  sample_result ∈ search_messages sample_archive "HELLO" None 50 /\
  String.concat ""
    (Re.source <$> Re.sub_pieces "HELLO" 0 (res_full_content sample_result))
  = res_full_content sample_result /\
  Forall (fun run => Py.contains (Py.lower "HELLO") (Py.lower run) = false)
    (plain_runs (Re.sub_pieces "HELLO" 0 (res_full_content sample_result))) /\
  res_content sample_result
  = truncated (Re.sub_mark "HELLO" (res_full_content sample_result)).
Proof.
  assert (sample_result ∈ search_messages sample_archive "HELLO" None 50) as Hin.
  { vm_compute. apply list_elem_of_here. }
  destruct (search_messages_highlight sample_archive "HELLO" None 50 sample_result Hin)
    as (_ & Hsource & _ & Hruns & Hcontent).
  split; [exact Hin|]. split; [exact Hsource|].
  split; [apply Hruns; discriminate|exact Hcontent].
Defined.

(** ** C5 and C6: the settings store *)

(** Unfolds the plumbing of a handler body. *)
Ltac unfold_handler :=
  unfold run_handler, mbind, handler_bind, hbind, lift, hret.

Section Settings.

Lemma dict_get_set_eq (k : string) (v : json) (d : Dict.t) :
  Dict.get k (Dict.set k v d) = Some v.
Proof.
  induction d as [|[k' v'] d IH]; cbn; [by rewrite String.eqb_refl|].
  destruct (String.eqb_spec k' k) as [->|Hne]; cbn.
  - by rewrite String.eqb_refl.
  - by apply String.eqb_neq in Hne as ->.
Qed.

Lemma dict_get_set_ne (k k' : string) (v : json) (d : Dict.t) :
  k' <> k -> Dict.get k' (Dict.set k v d) = Dict.get k' d.
Proof.
  intros Hne. induction d as [|[k0 v0] d IH]; cbn.
  - by apply not_eq_sym, String.eqb_neq in Hne as ->.
  - destruct (String.eqb_spec k0 k) as [->|Hk]; cbn.
    + by apply not_eq_sym, String.eqb_neq in Hne as ->.
    + by rewrite IH.
Qed.

(** A configuration with a channel list loads as a dictionary whose
    [channels] entry, when present, is that list. *)
Lemma config_channels_load (f : ConfigFile) (c : list json) :
  config_channels f = Some c ->
  exists d, load_config f = (Ok (JDict d), f) /\
            loaded_config f = Some d /\
            py_get (JDict d) "channels" (JList []) = Ok (JList c).
Proof.
  unfold config_channels, loaded_config.
  destruct f as [| |[| | | | |d]]; cbn; try done.
  - intros [= <-]. by exists [].
  - intros H. exists d. split; [done|]. split; [done|].
    destruct (Dict.get "channels" d) as [[| | | |l|]|]; by simplify_eq.
Qed.

Lemma config_channels_stored (d : Dict.t) (l : list json) :
  config_channels (Stored (JDict (Dict.set "channels" (JList l) d))) = Some l.
Proof. unfold config_channels. cbn. by rewrite dict_get_set_eq. Qed.

Lemma config_field_stored (f : ConfigFile) (d : Dict.t) (l : list json) (k : string) :
  loaded_config f = Some d -> k <> "channels" ->
  config_field k (Stored (JDict (Dict.set "channels" (JList l) d))) = config_field k f.
Proof.
  intros Hd Hk. unfold config_field. rewrite Hd. cbn. by apply dict_get_set_ne.
Qed.

Lemma out_of_range_false (i : Z) (n : nat) :
  out_of_range i n = false <-> (0 <= i < Z.of_nat n)%Z.
Proof. unfold out_of_range. rewrite orb_false_iff, Z.ltb_ge, Z.leb_gt. lia. Qed.

(** The delete handler on a configuration with the channel list [c]. *)
Lemma api_delete_channel_eval (f : ConfigFile) (d : Dict.t) (c : list json) (i : Z) :
  load_config f = (Ok (JDict d), f) ->
  py_get (JDict d) "channels" (JList []) = Ok (JList c) ->
  api_delete_channel i f
  = if out_of_range i (length c) then (Error "Channel not found", f)
    else match c !! Z.to_nat i with
         | Some v =>
             (Success "Channel deleted successfully" v,
              Stored (JDict (Dict.set "channels" (JList (delete (Z.to_nat i) c)) d)))
         | None => (ErrorOf IndexError, f)
         end.
Proof.
  intros Hload Hget.
  unfold api_delete_channel. unfold_handler.
  rewrite Hload, Hget. cbn [py_len].
  destruct (out_of_range i (length c)); [done|].
  cbn [py_pop]. by destruct (c !! Z.to_nat i).
Qed.

(** One update block on a channel list: the entry at the index gets
    the field, when the request body has it. *)
Lemma update_field_Ok (strip_it : bool) (k : string) (data : json) (i : nat)
    (l : list json) (x : json) :
  (i < length l)%nat ->
  update_field strip_it k data i (JList l) = Ok x ->
  exists e, l !! i = Some e /\
    x = JList (<[i := set_if_present k
                        (if strip_it then stripped (data_field data k)
                         else data_field data k) e]> l).
Proof.
  intros Hi. destruct (lookup_lt_is_Some_2 l i Hi) as [e He].
  intros H. exists e. split; [done|].
  assert (JList l = JList (<[i := e]> l)) as Hid by (by rewrite list_insert_id).
  unfold update_field in H.
  destruct data as [| | |s|els|dd]; cbn [py_in data_field] in H |- *; try done.
  - destruct (Py.contains k s); [done|]. injection H as <-.
    by destruct strip_it.
  - destruct (existsb _ els); [done|]. injection H as <-.
    by destruct strip_it.
  - destruct (Dict.get k dd) as [v|] eqn:Hv; cbn [py_getitem] in H.
    + rewrite bool_decide_eq_true_2 in H by eauto. rewrite Hv in H.
      unfold py_set_field in H. rewrite He in H.
      destruct strip_it.
      * destruct v; cbn in H; try done.
        destruct e; try done. by injection H as <-.
      * destruct e; try done. by injection H as <-.
    + rewrite bool_decide_eq_false_2 in H by (by intros [? ?]).
      injection H as <-. by destruct strip_it.
Qed.

(** The update handler on a configuration with the channel list [c]. *)
Lemma api_update_channel_success (f f' : ConfigFile) (d : Dict.t) (c : list json)
    (i : Z) (data : json) (message : string) (payload : json) :
  load_config f = (Ok (JDict d), f) ->
  py_get (JDict d) "channels" (JList []) = Ok (JList c) ->
  api_update_channel i data f = (Success message payload, f') ->
  exists entry,
    (0 <= i < Z.of_nat (length c))%Z /\
    c !! Z.to_nat i = Some entry /\
    payload = updated_channel data entry /\
    f' = Stored (JDict (Dict.set "channels"
                          (JList (<[Z.to_nat i := updated_channel data entry]> c)) d)).
Proof.
  intros Hload Hget.
  unfold api_update_channel. unfold_handler.
  rewrite Hload, Hget. cbn [py_len].
  destruct (out_of_range i (length c)) eqn:Hr; [done|].
  apply out_of_range_false in Hr.
  assert (Z.to_nat i < length c)%nat as Hi by lia.
  destruct (update_field true "identifier" data (Z.to_nat i) (JList c))
    as [x1|] eqn:H1; [|done].
  apply update_field_Ok in H1 as (e & He & ->); [|done].
  destruct (update_field true "name" data (Z.to_nat i) _) as [x2|] eqn:H2; [|done].
  apply update_field_Ok in H2 as (e2 & He2 & ->); [|by rewrite length_insert].
  rewrite list_lookup_insert_eq in He2 by done. injection He2 as <-.
  rewrite list_insert_insert_eq.
  destruct (update_field false "enabled" data (Z.to_nat i) _) as [x3|] eqn:H3; [|done].
  apply update_field_Ok in H3 as (e3 & He3 & ->); [|by rewrite length_insert].
  rewrite list_lookup_insert_eq in He3 by done. injection He3 as <-.
  rewrite list_insert_insert_eq.
  cbn [py_setitem save_config py_index].
  rewrite list_lookup_insert_eq by done.
  intros [= <- <- <-]. exists e. done.
Qed.

(** The add handler on a configuration with the channel list [c]. *)
Lemma api_add_channel_success (f f' : ConfigFile) (d : Dict.t) (c : list json)
    (data : json) (message : string) (payload : json) :
  load_config f = (Ok (JDict d), f) ->
  py_get (JDict d) "channels" (JList []) = Ok (JList c) ->
  api_add_channel data f = (Success message payload, f') ->
  exists identifier name,
    data_field data "identifier" = Some (JStr identifier) /\
    data_field data "name" = Some (JStr name) /\
    payload = JDict [("identifier", JStr (Py.strip identifier));
                     ("name", JStr (Py.strip name));
                     ("enabled", default (JBool true) (data_field data "enabled"))] /\
    f' = Stored (JDict (Dict.set "channels" (JList (c ++ [payload])) d)).
Proof.
  intros Hload Hget.
  unfold api_add_channel. unfold_handler.
  destruct data as [| | | | |dd]; try done. cbn [py_get data_field].
  destruct (Dict.get "identifier" dd) as [[| | |identifier| |]|]; try done;
    cbn [default from_option id py_strip].
  2:{ by destruct (Dict.get "name" dd) as [[| | |name| |]|]. }
  destruct (Dict.get "name" dd) as [[| | |name| |]|]; try done;
    cbn [default from_option id py_strip].
  2:{ cbn. rewrite orb_true_r. done. }
  destruct (negb (Py.truthy (Py.strip identifier)) || negb (Py.truthy (Py.strip name)));
    [done|].
  destruct (negb _); [done|].
  rewrite Hload, Hget. cbn [py_iter].
  destruct (find_duplicate _ _ c) as [[|]|]; try done.
  cbn [py_append py_setitem save_config].
  intros [= <- <- <-]. by exists identifier, name.
Qed.

End Settings.

(** C6.  On a configuration whose channel list is [c]: for an index
    [i] with [0 <= i < len(c)] the delete handler succeeds, returns the
    entry at [i] and stores the list without it, so that the entries
    before [i] keep their index and every entry formerly at an index
    [j > i] is afterwards at [j - 1]; for any other index the handler
    answers with the error and the file is unchanged. *)
Theorem api_delete_channel_spec (f : ConfigFile) (c : list json) (i : Z) :
  config_channels f = Some c ->
  ((0 <= i < Z.of_nat (length c))%Z ->
   exists deleted f',
     api_delete_channel i f = (Success "Channel deleted successfully" deleted, f') /\
     c !! Z.to_nat i = Some deleted /\
     config_channels f' = Some (delete (Z.to_nat i) c) /\
     (forall j, (j < Z.to_nat i)%nat -> delete (Z.to_nat i) c !! j = c !! j) /\
     (forall j, (Z.to_nat i < j)%nat -> delete (Z.to_nat i) c !! (j - 1)%nat = c !! j)) /\
  (~ (0 <= i < Z.of_nat (length c))%Z ->
   api_delete_channel i f = (Error "Channel not found", f)).
Proof.
  intros Hc. destruct (config_channels_load f c Hc) as (d & Hload & _ & Hget).
  rewrite (api_delete_channel_eval f d c i Hload Hget). split.
  - intros Hi. apply out_of_range_false in Hi as Hr. rewrite Hr.
    destruct (lookup_lt_is_Some_2 c (Z.to_nat i)) as [deleted Hdel]; [lia|].
    rewrite Hdel. eexists _, _. split; [reflexivity|]. split; [done|].
    split; [apply config_channels_stored|]. split.
    + intros j Hj. by apply list_lookup_delete_lt.
    + intros j Hj. rewrite list_lookup_delete_ge by lia. f_equal. lia.
  - intros Hi. destruct (out_of_range i (length c)) eqn:Hr; [done|].
    by apply out_of_range_false in Hr.
Qed.

Lemma api_delete_channel_spec_witness :
  (exists deleted f',
     api_delete_channel 0 sample_config
     = (Success "Channel deleted successfully" deleted, f') /\
     config_channels f'
     = Some [JDict [("identifier", JStr "@beta"); ("name", JStr "Beta");
                    ("enabled", JBool false)]]) /\
  api_delete_channel 2 sample_config = (Error "Channel not found", sample_config).
Proof.
  destruct (api_delete_channel_spec sample_config
              [JDict [("identifier", JStr "@alpha"); ("name", JStr "Alpha");
                      ("enabled", JBool true)];
               JDict [("identifier", JStr "@beta"); ("name", JStr "Beta");
                      ("enabled", JBool false)]] 0 eq_refl) as [Hin _].
  destruct (api_delete_channel_spec sample_config
              [JDict [("identifier", JStr "@alpha"); ("name", JStr "Alpha");
                      ("enabled", JBool true)];
               JDict [("identifier", JStr "@beta"); ("name", JStr "Beta");
                      ("enabled", JBool false)]] 2 eq_refl) as [_ Hout].
  split.
  - destruct Hin as (deleted & f' & Heq & _ & Hch & _); [cbn; lia|].
    exists deleted, f'. split; [exact Heq|exact Hch].
  - apply Hout. cbn. lia.
Defined.

(** C5.  On a configuration whose channel list is [c], after a
    successful add, update or delete the file loads with the modified
    list: with the new entry (identifier and name stripped) at the end,
    with the entry at the index updated, or without the entry at the
    index; every other field of the configuration loads as before. *)
Theorem config_channels_round_trip (f : ConfigFile) (c : list json) :
  config_channels f = Some c ->
  (forall data message payload f',
     api_add_channel data f = (Success message payload, f') ->
     (exists identifier name,
        data_field data "identifier" = Some (JStr identifier) /\
        data_field data "name" = Some (JStr name) /\
        payload = JDict [("identifier", JStr (Py.strip identifier));
                         ("name", JStr (Py.strip name));
                         ("enabled", default (JBool true) (data_field data "enabled"))]) /\
     config_channels f' = Some (c ++ [payload])%list /\
     (forall k, k <> "channels" -> config_field k f' = config_field k f)) /\
  (forall i data message payload f',
     api_update_channel i data f = (Success message payload, f') ->
     exists entry,
       (0 <= i)%Z /\ c !! Z.to_nat i = Some entry /\
       payload = updated_channel data entry /\
       config_channels f' = Some (<[Z.to_nat i := updated_channel data entry]> c) /\
       (forall k, k <> "channels" -> config_field k f' = config_field k f)) /\
  (forall i message payload f',
     api_delete_channel i f = (Success message payload, f') ->
     (0 <= i)%Z /\ c !! Z.to_nat i = Some payload /\
     config_channels f' = Some (delete (Z.to_nat i) c) /\
     (forall k, k <> "channels" -> config_field k f' = config_field k f)).
Proof.
  intros Hc. destruct (config_channels_load f c Hc) as (d & Hload & Hd & Hget).
  split; [|split].
  - intros data message payload f' H.
    destruct (api_add_channel_success f f' d c data message payload Hload Hget H)
      as (identifier & name & Hi & Hn & Hp & ->).
    split; [by exists identifier, name|].
    split; [apply config_channels_stored|].
    intros k Hk. by apply config_field_stored.
  - intros i data message payload f' H.
    destruct (api_update_channel_success f f' d c i data message payload Hload Hget H)
      as (entry & Hi & He & Hp & ->).
    exists entry. split; [lia|]. split; [done|]. split; [done|].
    split; [apply config_channels_stored|].
    intros k Hk. by apply config_field_stored.
  - intros i message payload f'.
    rewrite (api_delete_channel_eval f d c i Hload Hget).
    destruct (out_of_range i (length c)) eqn:Hr; [done|].
    apply out_of_range_false in Hr.
    destruct (c !! Z.to_nat i) as [v|]; [|done].
    intros [= <- <- <-]. split; [lia|]. split; [done|].
    split; [apply config_channels_stored|].
    intros k Hk. by apply config_field_stored.
Qed.

Lemma config_channels_round_trip_witness :
  let alpha := JDict [("identifier", JStr "@alpha"); ("name", JStr "Alpha");
                      ("enabled", JBool true)] in
  let beta := JDict [("identifier", JStr "@beta"); ("name", JStr "Beta");
                     ("enabled", JBool false)] in
  let gamma := JDict [("identifier", JStr "@gamma"); ("name", JStr "Gamma");
                      ("enabled", JBool true)] in
  config_channels
    (api_add_channel
       (JDict [("identifier", JStr " @gamma "); ("name", JStr "Gamma ")])
       sample_config).2
  = Some [alpha; beta; gamma] /\
  config_channels
    (api_update_channel 1 (JDict [("name", JStr " Beta two"); ("enabled", JBool true)])
       sample_config).2
  = Some [alpha;
          JDict [("identifier", JStr "@beta"); ("name", JStr "Beta two");
                 ("enabled", JBool true)]] /\
  config_channels (api_delete_channel 0 sample_config).2 = Some [beta] /\
  config_field "archive_settings" (api_delete_channel 0 sample_config).2
  = config_field "archive_settings" sample_config.
Proof.
  cbv zeta.
  destruct (config_channels_round_trip sample_config _ eq_refl)
    as (Hadd & Hupdate & Hdelete).
  split; [|split; [|split]].
  - destruct (Hadd (JDict [("identifier", JStr " @gamma "); ("name", JStr "Gamma ")])
                "Channel added successfully"
                (JDict [("identifier", JStr "@gamma"); ("name", JStr "Gamma");
                        ("enabled", JBool true)])
                (api_add_channel
                   (JDict [("identifier", JStr " @gamma "); ("name", JStr "Gamma ")])
                   sample_config).2 eq_refl) as (_ & H & _).
    exact H.
  - destruct (Hupdate 1 (JDict [("name", JStr " Beta two"); ("enabled", JBool true)])
                "Channel updated successfully"
                (JDict [("identifier", JStr "@beta"); ("name", JStr "Beta two");
                        ("enabled", JBool true)])
                (api_update_channel 1
                   (JDict [("name", JStr " Beta two"); ("enabled", JBool true)])
                   sample_config).2 eq_refl) as (entry & _ & He & _ & H & _).
    injection He as <-. exact H.
  - destruct (Hdelete 0 "Channel deleted successfully"
                (JDict [("identifier", JStr "@alpha"); ("name", JStr "Alpha");
                        ("enabled", JBool true)])
                (api_delete_channel 0 sample_config).2 eq_refl) as (_ & _ & H & _).
    exact H.
  - destruct (Hdelete 0 "Channel deleted successfully"
                (JDict [("identifier", JStr "@alpha"); ("name", JStr "Alpha");
                        ("enabled", JBool true)])
                (api_delete_channel 0 sample_config).2 eq_refl) as (_ & _ & _ & H).
    apply H. discriminate.
Defined.

(** ** C9: the log of the archiving status *)

Lemma length_last_entries {A} (n : nat) (xs : list A) :
  length (last_entries n xs) = Nat.min n (length xs).
Proof. unfold last_entries. rewrite length_drop. lia. Qed.

(** One pass of the monitoring loop on a log of at most 100 entries
    leaves the last 100 entries of the old log followed by the lines
    the pass logs for what it read, and so at most 100 entries. *)
Lemma monitor_output_bound (output : string) (st : ArchivingStatus) :
  (length (logs st) <= 100)%nat ->
  (length (logs (monitor_output output st)) <= 100)%nat /\
  logs (monitor_output output st)
  = last_entries 100 (logs st ++ appended_lines output).
Proof.
  intros Hlen. unfold monitor_output, appended_lines.
  assert (forall l : list string,
            (length l <= 100)%nat -> l = last_entries 100 l) as Hkeep.
  { intros l Hl. unfold last_entries.
    by replace (length l - 100)%nat with 0%nat by lia. }
  destruct (Py.truthy output) eqn:Houtput.
  2:{ destruct output; [|done]. cbn. rewrite app_nil_r. split; [done|by apply Hkeep]. }
  destruct (Py.truthy (Py.strip output));
    [|rewrite app_nil_r; split; [done|by apply Hkeep]].
  set (line := Py.strip output).
  assert (forall st' new_lines,
            logs st' = (logs st ++ new_lines)%list ->
            (length (logs (if (100 <? length (logs st'))%nat
                           then set_logs (last_entries 100 (logs st')) st'
                           else st')) <= 100)%nat /\
            logs (if (100 <? length (logs st'))%nat
                  then set_logs (last_entries 100 (logs st')) st'
                  else st')
            = last_entries 100 (logs st ++ new_lines)) as Htrim.
  { intros st' new_lines Hst'.
    destruct (Nat.ltb_spec 100 (length (logs st'))) as [Hgt|Hle]; cbn [logs set_logs].
    - split; [rewrite length_last_entries; lia|]. by rewrite Hst'.
    - split; [done|]. rewrite <- Hst'. by apply Hkeep. }
  destruct (Py.contains "Processing channel:" line);
    [by apply (Htrim _ [line])|].
  destruct (Py.contains "Total channels:" line);
    [by apply (Htrim _ [line])|].
  destruct (Py.contains "Skipping large file" line).
  { apply (Htrim _ [line; "⏭️ " +:+ line]). cbn. by rewrite <- (assoc_L (++)%list). }
  destruct (Py.contains "Downloaded:" line).
  { apply (Htrim _ [line; "📥 " +:+ line]). cbn. by rewrite <- (assoc_L (++)%list). }
  by apply (Htrim _ [line]).
Qed.

Lemma monitor_output_bound_witness :
  (length (logs (monitor_output "Downloaded: photo.jpg" (run hundred_lines initial_status)))
   <= 100)%nat /\
  logs (monitor_output "Downloaded: photo.jpg" (run hundred_lines initial_status))
  = last_entries 100
      (logs (run hundred_lines initial_status)
       ++ ["Downloaded: photo.jpg"; "📥 Downloaded: photo.jpg"]).
Proof.
  apply (monitor_output_bound "Downloaded: photo.jpg" (run hundred_lines initial_status)).
  vm_compute. lia.
Defined.

(** C9 on two runs.  After one hundred output lines the log holds 100
    entries; the line logged when the child ends, and the two lines
    logged when the user stops it, are appended without the log being
    cut, which leaves 101 and 102 entries. *)
Theorem logs_exceed_hundred :
  length (logs (run hundred_lines initial_status)) = 100%nat /\
  length (logs (run completed_run initial_status)) = 101%nat /\
  length (logs (run stopped_run initial_status)) = 102%nat.
Proof. by vm_compute. Qed.

(** * Further properties *)

(** ** The search as a prefix of all hits *)

Section SearchPrefix.

Variables (query : string) (limit : Z).

Lemma scan_of_running (n : nat) (l : list SearchResult) :
  (length l < n)%nat -> scan_of n l = Running l.
Proof. unfold scan_of. intros H. by apply Nat.leb_gt in H as ->. Qed.

Lemma scan_of_returned (n : nat) (l l' : list SearchResult) :
  (n <= length l)%nat -> scan_of n (l ++ l') = Returned (take n l).
Proof.
  unfold scan_of. intros H. rewrite length_app.
  destruct (Nat.leb_spec n (length l + length l')) as [_|?]; [|lia].
  by rewrite take_app_le.
Qed.

Lemma scan_of_returned_all (n : nat) (l : list SearchResult) :
  (n <= length l)%nat -> scan_of n l = Returned (take n l).
Proof. unfold scan_of. intros H. by apply Nat.leb_le in H as ->. Qed.

Lemma scan_messages_take channel_name file_name i messages results :
  (length results < effective_limit limit)%nat ->
  scan_messages query limit channel_name file_name i messages results
  = scan_of (effective_limit limit)
      (results ++ hits_in_messages query channel_name file_name i messages).
Proof.
  revert i results. induction messages as [|message rest IH]; intros i results Hlt.
  - cbn. rewrite app_nil_r. by rewrite scan_of_running.
  - cbn [scan_messages hits_in_messages].
    destruct (Py.contains _ _); [|by apply IH].
    set (r := make_result query channel_name file_name i message).
    rewrite (assoc_L (++)%list), <- (assoc_L (++)%list results [r]).
    destruct (Z.leb_spec limit (Z.of_nat (length (results ++ [r])))) as [Hle|Hgt].
    + assert (effective_limit limit = length (results ++ [r])) as Hn.
      { rewrite length_app in *. cbn in *. unfold effective_limit in *. lia. }
      rewrite (assoc_L (++)%list), (scan_of_returned _ (results ++ [r])) by lia.
      rewrite take_ge; [done|lia].
    + rewrite IH; [by rewrite <- (assoc_L (++)%list)|].
      rewrite length_app in *. cbn in *. unfold effective_limit in *. lia.
Qed.

Lemma scan_files_take channel_name md_files results :
  (length results < effective_limit limit)%nat ->
  scan_files query limit channel_name md_files results
  = scan_of (effective_limit limit)
      (results ++ concat (hits_in_file query channel_name <$> md_files)).
Proof.
  revert results. induction md_files as [|md_file rest IH]; intros results Hlt.
  - cbn. rewrite app_nil_r. by rewrite scan_of_running.
  - cbn [scan_files fmap list_fmap concat]. unfold hits_in_file at 1.
    destruct (md_content md_file) as [content|]; [|by apply IH].
    rewrite scan_messages_take by done.
    set (hits := hits_in_messages _ _ _ _ _).
    destruct (Nat.leb_spec (effective_limit limit) (length (results ++ hits)))
      as [Hle|Hgt].
    + rewrite (assoc_L (++)%list), (scan_of_returned _ (results ++ hits) _ Hle).
      by rewrite (scan_of_returned_all _ _ Hle).
    + rewrite (scan_of_running _ _ Hgt). rewrite IH by done.
      by rewrite <- (assoc_L (++)%list).
Qed.

Lemma scan_channels_take channels results :
  (length results < effective_limit limit)%nat ->
  scan_channels query limit channels results
  = scan_of (effective_limit limit)
      (results ++ concat (hits_in_channel query <$> channels)).
Proof.
  revert results. induction channels as [|[channel_name channel_dir] rest IH];
    intros results Hlt.
  - cbn. rewrite app_nil_r. by rewrite scan_of_running.
  - cbn [scan_channels fmap list_fmap concat]. unfold hits_in_channel at 1.
    cbn [fst snd]. rewrite scan_files_take by done.
    set (hits := concat _).
    destruct (Nat.leb_spec (effective_limit limit) (length (results ++ hits)))
      as [Hle|Hgt].
    + rewrite (assoc_L (++)%list), (scan_of_returned _ (results ++ hits) _ Hle).
      by rewrite (scan_of_returned_all _ _ Hle).
    + rewrite (scan_of_running _ _ Hgt). rewrite IH by done.
      by rewrite <- (assoc_L (++)%list).
Qed.

End SearchPrefix.

Lemma effective_limit_positive (limit : Z) : (0 < effective_limit limit)%nat.
Proof. unfold effective_limit. lia. Qed.

Lemma search_messages_take archive_dirs query channel_name limit :
  search_messages archive_dirs query channel_name limit
  = take (effective_limit limit) (all_hits archive_dirs query channel_name).
Proof.
  unfold search_messages, all_hits.
  rewrite scan_channels_take by (cbn; apply effective_limit_positive).
  cbn [app]. unfold scan_of.
  destruct (Nat.leb_spec (effective_limit limit)
              (length (concat (hits_in_channel query <$>
                                 channels_to_search archive_dirs channel_name))))
    as [Hle|Hgt]; cbn; [done|].
  rewrite take_ge; [done|lia].
Qed.

(** The search returns the first hits of the scan: the first [limit]
    of them for a limit of at least one, the first one for any smaller
    limit.  The scan visits the searched channels, their markdown files
    and the message sections of each file in order; a file that cannot
    be read contributes nothing and does not end the scan. *)
Theorem search_messages_first_hits archive_dirs query channel_name limit :
  search_messages archive_dirs query channel_name limit
  = take (Z.to_nat (Z.max 1 limit)) (all_hits archive_dirs query channel_name) /\
  length (search_messages archive_dirs query channel_name limit)
  = Nat.min (Z.to_nat (Z.max 1 limit))
      (length (all_hits archive_dirs query channel_name)).
Proof.
  rewrite search_messages_take. split; [done|]. by rewrite length_take.
Qed.

(** ** Where a search result comes from *)

Lemma elem_of_concat {A} (x : A) (ls : list (list A)) :
  x ∈ concat ls <-> exists l, l ∈ ls /\ x ∈ l.
Proof.
  rewrite list_elem_of_In, in_concat. split.
  - intros (l & ? & ?). exists l. by rewrite !list_elem_of_In.
  - intros (l & ? & ?). exists l. by rewrite <- !list_elem_of_In.
Qed.

Lemma elem_of_take_elem {A} (x : A) (n : nat) (l : list A) :
  x ∈ take n l -> x ∈ l.
Proof. intros (i & Hi & _)%elem_of_take. by eapply list_elem_of_lookup_2. Qed.

Lemma hits_in_messages_elem query channel_name file_name i messages r :
  r ∈ hits_in_messages query channel_name file_name i messages ->
  exists j section,
    messages !! j = Some section /\
    Py.contains (Py.lower query) (Py.lower section) = true /\
    r = make_result query channel_name file_name (i + j) section.
Proof.
  revert i. induction messages as [|message rest IH]; intros i; cbn.
  - by intros ?%elem_of_nil.
  - intros [H|H]%elem_of_app.
    + destruct (Py.contains _ _) eqn:Hc; [|by apply elem_of_nil in H].
      apply list_elem_of_singleton in H as ->.
      exists 0%nat, message. by rewrite Nat.add_0_r.
    + destruct (IH _ H) as (j & section & Hj & Hc & ->).
      exists (S j), section. split; [done|]. split; [done|].
      f_equal. lia.
Qed.

Lemma channels_to_search_elem archive_dirs channel_name channel channel_dir :
  (channel, channel_dir) ∈ channels_to_search archive_dirs channel_name ->
  exists archive_dir,
    archive_dir ∈ archive_dirs /\
    if opt_truthy channel_name
    then channel_name = Some channel /\ lookup_entry channel archive_dir = Some channel_dir
    else (channel, channel_dir) ∈ archive_dir /\
         is_dir channel_dir = true /\ channel <> "media".
Proof.
  unfold channels_to_search.
  destruct (opt_truthy channel_name) eqn:Ht.
  - intros (archive_dir & Hin & H)%list_elem_of_omap.
    exists archive_dir. split; [done|].
    destruct channel_name as [name|]; [|done]. cbn in H.
    destruct (lookup_entry name archive_dir) eqn:Hl; [|done].
    by simplify_eq.
  - intros (l & (archive_dir & -> & Hin)%list_elem_of_fmap & H)%elem_of_concat.
    exists archive_dir. split; [done|].
    by apply list_elem_of_filter in H as [[? ?] ?].
Qed.

(** Every result of a search was built from a message section that
    contains the query up to the case of its letters, of a readable
    markdown file of a searched channel directory: the directory with
    the name of the filter when a filter is given, and otherwise any
    directory that is not named media.  The result carries the name of
    that channel and of that file. *)
Theorem search_messages_provenance archive_dirs query channel_name limit r :
  plain_filter channel_name ->
  r ∈ search_messages archive_dirs query channel_name limit ->
  exists archive_dir channel channel_dir md_file content i section,
    archive_dir ∈ archive_dirs /\
    (if opt_truthy channel_name
     then channel_name = Some channel /\
          lookup_entry channel archive_dir = Some channel_dir
     else (channel, channel_dir) ∈ archive_dir /\
          is_dir channel_dir = true /\ channel <> "media") /\
    md_file ∈ glob_md channel_dir /\
    md_content md_file = Some content /\
    tail (Re.split_headers content) !! i = Some section /\
    Py.contains (Py.lower query) (Py.lower section) = true /\
    r = make_result query channel (md_name md_file) i section /\
    res_channel r = channel /\ res_file r = md_name md_file.
Proof.
  rewrite search_messages_take. intros _ Hr%elem_of_take_elem.
  unfold all_hits in Hr.
  apply elem_of_concat in Hr
    as (l & ([channel channel_dir] & -> & Hch)%list_elem_of_fmap & Hr).
  unfold hits_in_channel in Hr. cbn [fst snd] in Hr.
  apply elem_of_concat in Hr
    as (l & (md_file & -> & Hf)%list_elem_of_fmap & Hr).
  unfold hits_in_file in Hr.
  destruct (md_content md_file) as [content|] eqn:Hcontent;
    [|by apply elem_of_nil in Hr].
  apply hits_in_messages_elem in Hr as (i & section & Hi & Hc & ->).
  destruct (channels_to_search_elem _ _ _ _ Hch) as (archive_dir & Hdir & H).
  exists archive_dir, channel, channel_dir, md_file, content, i, section.
  done.
Qed.

Lemma search_messages_provenance_witness :
  exists content i section,
    md_content sample_md_file = Some content /\
    tail (Re.split_headers content) !! i = Some section /\
    Py.contains (Py.lower "HELLO") (Py.lower section) = true /\
    res_channel sample_result = "News".
Proof.
  assert (sample_result ∈ search_messages sample_archive "HELLO" None 50) as Hin.
  { vm_compute. apply list_elem_of_here. }
  destruct (search_messages_provenance sample_archive "HELLO" None 50 sample_result
              I Hin)
    as (archive_dir & channel & channel_dir & md_file & content & i & section
        & Hdir & Hch & Hf & Hcontent & Hi & Hc & Hr & Hrc & Hrf).
  apply list_elem_of_singleton in Hdir as ->.
  cbn [opt_truthy] in Hch. destruct Hch as (Hch & Hd & Hm).
  assert (channel = "News" /\ channel_dir = EntryDir [sample_md_file]) as [-> ->].
  { apply elem_of_cons in Hch as [Hch|Hch]; [by simplify_eq|].
    apply elem_of_cons in Hch as [Hch|Hch]; [by simplify_eq|].
    apply list_elem_of_singleton in Hch. by simplify_eq. }
  apply list_elem_of_singleton in Hf as ->.
  exists content, i, section. done.
Defined.

(** ** Counting messages *)

Lemma length_split_headers_from (bol : bool) (skip : nat) (s : string) :
  length (Re.split_headers_from bol skip s) = S (count_headers_from bol skip s).
Proof.
  revert bol skip. induction s as [|c s IH]; intros bol skip; [done|].
  cbn [Re.split_headers_from count_headers_from].
  destruct skip as [|k]; [|apply IH].
  destruct (if bol then Re.match_header (String c s) else None) as [n|].
  - cbn [length]. by rewrite IH.
  - specialize (IH (Ascii.eqb c Py.LF) 0%nat).
    destruct (Re.split_headers_from _ 0 s); [done|]. exact IH.
Qed.

(** The number of messages that the statistics and the file lists
    count in a file is the number of message sections that the search
    scans in it. *)
Theorem count_headers_sections (content : string) :
  count_headers content = length (tail (Re.split_headers content)).
Proof.
  unfold count_headers, Re.split_headers.
  pose proof (length_split_headers_from true 0 content) as H.
  destruct (Re.split_headers_from true 0 content); cbn in *; lia.
Qed.

Lemma length_hits_in_messages query channel_name file_name i messages :
  (length (hits_in_messages query channel_name file_name i messages)
   <= length messages)%nat.
Proof.
  revert i. induction messages as [|message rest IH]; intros i; [done|].
  cbn. rewrite length_app. specialize (IH (S i)).
  destruct (Py.contains _ _); cbn; lia.
Qed.

Lemma count_file_messages_hits query channel_name md_files acc :
  (acc + length (concat (hits_in_file query channel_name <$> md_files))
   <= fold_left count_file_messages md_files acc)%nat.
Proof.
  revert acc. induction md_files as [|md_file rest IH]; intros acc; cbn; [lia|].
  rewrite length_app. etrans; [|apply IH].
  unfold hits_in_file, count_file_messages.
  destruct (md_content md_file) as [content|]; cbn; [|lia].
  pose proof (length_hits_in_messages query channel_name (md_name md_file) 0
                (tail (Re.split_headers content))).
  pose proof (length_split_headers_from true 0 content) as Hs.
  unfold count_headers, Re.split_headers in *.
  destruct (Re.split_headers_from true 0 content); cbn in *; lia.
Qed.

Lemma count_channel_dir_hits query archive_dir st :
  (total_messages st +
   length (concat (hits_in_channel query <$>
                     filter (fun e => is_dir e.2 = true /\ e.1 <> "media") archive_dir))
   <= total_messages (fold_left count_channel_dir archive_dir st))%nat.
Proof.
  revert st. induction archive_dir as [|[name e] rest IH]; intros st; [cbn; lia|].
  cbn [fold_left]. etrans; [|apply IH]. rewrite filter_cons. cbn [fst snd].
  unfold count_channel_dir. cbn [fst snd].
  destruct (is_dir e) eqn:Hd; cbn [andb]; [|by rewrite decide_False by (by intros [? ?])].
  destruct (String.eqb_spec name "media") as [->|Hne]; cbn [negb].
  - by rewrite decide_False by (by intros [? ?]).
  - rewrite decide_True by done. cbn [fmap list_fmap concat total_messages].
    rewrite length_app. unfold hits_in_channel at 1. cbn [fst snd].
    pose proof (count_file_messages_hits query name (glob_md e) (total_messages st)).
    lia.
Qed.

Lemma get_stats_hits query archive_dirs st :
  (total_messages st + length (all_hits archive_dirs query None)
   <= total_messages
        (fold_left (fun st archive_dir => fold_left count_channel_dir archive_dir st)
           archive_dirs st))%nat.
Proof.
  unfold all_hits, channels_to_search. cbn [opt_truthy].
  revert st. induction archive_dirs as [|archive_dir rest IH]; intros st; cbn; [lia|].
  etrans; [|apply IH]. rewrite fmap_app, concat_app, length_app.
  rewrite Nat.add_assoc. apply Nat.add_le_mono_r, count_channel_dir_hits.
Qed.

(** A search over all channels never returns more results than the
    statistics count messages. *)
Theorem search_messages_at_most_total_messages archive_dirs query limit :
  (length (search_messages archive_dirs query None limit)
   <= total_messages (get_stats archive_dirs))%nat.
Proof.
  rewrite search_messages_take, length_take.
  pose proof (get_stats_hits query archive_dirs
                {| total_channels := 0; total_files := 0; total_messages := 0 |}) as H.
  unfold get_stats. cbn [total_messages Nat.add] in H. lia.
Qed.

(** ** No archives, no results *)

Lemma has_md_dir_false archive_dir :
  has_md_dir archive_dir = false ->
  Forall (fun e => glob_md e.2 = []) archive_dir.
Proof.
  induction archive_dir as [|[name e] rest IH]; cbn; [done|].
  destruct e as [|md_files]; cbn.
  - intros H. constructor; [done|by apply IH].
  - case_bool_decide as Hne; [done|]. intros H. constructor; [|by apply IH].
    cbn. by destruct md_files.
Qed.

Lemma check_archives_fold archive_dirs b :
  fold_left (fun has_archives archive_dir =>
               if has_md_dir archive_dir then true else has_archives) archive_dirs b
  = b || existsb has_md_dir archive_dirs.
Proof.
  revert b. induction archive_dirs as [|archive_dir rest IH]; intros b; cbn.
  - by rewrite orb_false_r.
  - rewrite IH. destruct (has_md_dir archive_dir), b; done.
Qed.

Lemma check_archives_false archive_dirs :
  check_archives archive_dirs = false ->
  Forall (Forall (fun e : string * DirEntry => glob_md e.2 = [])) archive_dirs.
Proof.
  unfold check_archives. rewrite check_archives_fold. cbn.
  induction archive_dirs as [|archive_dir rest IH]; cbn; [done|].
  intros [H1 H2]%orb_false_iff. constructor; [by apply has_md_dir_false|by apply IH].
Qed.

Lemma lookup_entry_elem name archive_dir e :
  lookup_entry name archive_dir = Some e -> (name, e) ∈ archive_dir.
Proof.
  induction archive_dir as [|[n e'] rest IH]; cbn; [done|].
  destruct (String.eqb_spec n name) as [->|Hne].
  - intros [= ->]. apply list_elem_of_here.
  - intros H. apply list_elem_of_further. by apply IH.
Qed.

(** When the launcher finds no archives, every search without a
    channel filter, or with a filter that is a plain name, is empty. *)
Theorem check_archives_false_search_empty archive_dirs query channel_name limit :
  check_archives archive_dirs = false ->
  plain_filter channel_name ->
  search_messages archive_dirs query channel_name limit = [].
Proof.
  intros Hno%check_archives_false _.
  destruct (search_messages archive_dirs query channel_name limit) as [|r rs] eqn:Hs;
    [done|].
  assert (r ∈ search_messages archive_dirs query channel_name limit) as Hr.
  { rewrite Hs. apply list_elem_of_here. }
  rewrite search_messages_take in Hr. apply elem_of_take_elem in Hr.
  unfold all_hits in Hr.
  apply elem_of_concat in Hr
    as (l & ([channel channel_dir] & -> & Hch)%list_elem_of_fmap & Hr).
  destruct (channels_to_search_elem _ _ _ _ Hch) as (archive_dir & Hdir & H).
  assert ((channel, channel_dir) ∈ archive_dir) as Hin.
  { destruct (opt_truthy channel_name); [|by destruct H].
    destruct H as [_ H]. by apply lookup_entry_elem. }
  rewrite Forall_forall in Hno. specialize (Hno _ Hdir).
  rewrite Forall_forall in Hno. specialize (Hno _ Hin). cbn in Hno.
  unfold hits_in_channel in Hr. cbn [fst snd] in Hr. rewrite Hno in Hr.
  by apply elem_of_nil in Hr.
Qed.

Lemma check_archives_false_search_empty_witness :
  search_messages [[("notes.txt", EntryFile); ("News", EntryDir [])]] "hello" None 20 = [] /\
  search_messages [[("notes.txt", EntryFile); ("News", EntryDir [])]] "hello"
    (Some "News") 20 = [].
Proof.
  split; apply check_archives_false_search_empty; reflexivity || exact I.
Defined.

(** ** The settings store: refusals and the runner *)

Section SettingsMore.

Lemma find_duplicate_false identifier name channels :
  find_duplicate identifier name channels = Ok false ->
  Forall (fun channel =>
            entry_identifier channel <> Some identifier /\
            entry_name channel <> Some name) channels.
Proof.
  induction channels as [|channel rest IH]; cbn; [done|].
  destruct channel as [| | | | |d]; cbn; try done.
  destruct (eq_str (default JNull (Dict.get "identifier" d)) identifier
            || eq_str (default JNull (Dict.get "name" d)) name) eqn:E; [done|].
  apply orb_false_iff in E as [Ei En].
  intros H. constructor; [|by apply IH].
  unfold entry_identifier, entry_name. cbn [data_field]. split.
  - destruct (Dict.get "identifier" d) as [[| | |s| |]|]; try done.
    intros [= ->]. cbn in Ei. by rewrite String.eqb_refl in Ei.
  - destruct (Dict.get "name" d) as [[| | |s| |]|]; try done.
    intros [= ->]. cbn in En. by rewrite String.eqb_refl in En.
Qed.

(** What a successful add has checked. *)
Lemma api_add_channel_checked (f f' : ConfigFile) (d : Dict.t) (c : list json)
    (data : json) (message : string) (payload : json) :
  load_config f = (Ok (JDict d), f) ->
  py_get (JDict d) "channels" (JList []) = Ok (JList c) ->
  api_add_channel data f = (Success message payload, f') ->
  exists identifier name enabled,
    payload = JDict [("identifier", JStr identifier); ("name", JStr name);
                     ("enabled", enabled)] /\
    identifier <> "" /\ name <> "" /\
    (Py.startswith "https://t.me/" identifier = true \/
     Py.startswith "@" identifier = true) /\
    find_duplicate identifier name c = Ok false.
Proof.
  intros Hload Hget.
  unfold api_add_channel. unfold_handler.
  destruct data as [| | | | |dd]; try done. cbn [py_get].
  destruct (Dict.get "identifier" dd) as [[| | |identifier| |]|]; try done;
    cbn [default from_option id py_strip].
  2:{ by destruct (Dict.get "name" dd) as [[| | |name| |]|]. }
  destruct (Dict.get "name" dd) as [[| | |name| |]|]; try done;
    cbn [default from_option id py_strip].
  2:{ cbn. rewrite orb_true_r. done. }
  destruct (Py.truthy (Py.strip identifier)) eqn:Hi; [|done].
  destruct (Py.truthy (Py.strip name)) eqn:Hn; [|done]. cbn [negb orb].
  destruct (Py.startswith "https://t.me/" (Py.strip identifier)
            || Py.startswith "@" (Py.strip identifier)) eqn:Hp; [|done].
  cbn [negb]. rewrite Hload, Hget. cbn [py_iter].
  destruct (find_duplicate _ _ c) as [[|]|] eqn:Hdup; try done.
  cbn [py_append py_setitem save_config].
  intros [= <- <- <-]. eexists _, _, _. split; [reflexivity|].
  split; [by apply truthy_ne|]. split; [by apply truthy_ne|].
  split; [by apply orb_true_iff|done].
Qed.

Lemma enabled_identifiers_app (a b : list json) :
  enabled_identifiers (a ++ b)
  = match enabled_identifiers a with
    | Ok xs =>
        match enabled_identifiers b with
        | Ok ys => Ok (xs ++ ys)%list
        | Raise e => Raise e
        end
    | Raise e => Raise e
    end.
Proof.
  induction a as [|channel a IH]; cbn.
  - by destruct (enabled_identifiers b).
  - destruct (py_get channel "enabled" (JBool true)) as [enabled|]; [|done].
    destruct (py_truthy enabled); [|done].
    destruct (py_getitem channel "identifier"); [|done].
    rewrite IH. destruct (enabled_identifiers a); [|done].
    by destruct (enabled_identifiers b).
Qed.

End SettingsMore.

Lemma load_config_file (f f0 : ConfigFile) (x : exn json) :
  load_config f = (x, f0) -> f0 = f.
Proof. destruct f as [| |config]; by intros [= _ <-]. Qed.

(** A channel handler that answers with one of its own refusals has
    not written [config.json]: the file is as it was.  The refusals
    are the three of [api_add_channel] (a field is missing, the
    identifier has the wrong form, the channel exists already) and the
    one of the two other handlers (no channel at the index). *)
Theorem channel_handlers_refusal_keeps_file (f f' : ConfigFile) (msg : string) :
  (forall data,
     api_add_channel data f = (Error msg, f') ->
     f' = f /\
     msg ∈ ["Identifier and name are required";
            "Invalid Telegram channel format. Use https://t.me/channel or @channel";
            "Channel already exists"]) /\
  (forall i data,
     api_update_channel i data f = (Error msg, f') ->
     f' = f /\ msg = "Channel not found") /\
  (forall i,
     api_delete_channel i f = (Error msg, f') ->
     f' = f /\ msg = "Channel not found").
Proof.
  split; [|split].
  - intros data. unfold api_add_channel. unfold_handler.
    destruct (py_get data "identifier" (JStr "")) as [x|]; [|done].
    destruct (py_strip x) as [identifier|]; [|done].
    destruct (py_get data "name" (JStr "")) as [y|]; [|done].
    destruct (py_strip y) as [name|]; [|done].
    destruct (py_get data "enabled" (JBool true)) as [enabled|]; [|done].
    destruct (negb (Py.truthy identifier) || negb (Py.truthy name)).
    { cbn. intros [= <- <-]. split; [done|set_solver]. }
    destruct (negb (Py.startswith "https://t.me/" identifier
                    || Py.startswith "@" identifier)).
    { cbn. intros [= <- <-]. split; [done|set_solver]. }
    destruct (load_config f) as [[config|] f0] eqn:Hload;
      apply load_config_file in Hload as Hf0; subst f0; [|done].
    destruct (py_get config "channels" (JList [])) as [channels|]; [|done].
    destruct (py_iter channels) as [visited|]; [|done].
    destruct (find_duplicate identifier name visited) as [[|]|]; [| |done].
    { cbn. intros [= <- <-]. split; [done|set_solver]. }
    destruct (py_append channels _) as [channels'|]; [|done].
    destruct (py_setitem config "channels" channels') as [config'|]; done.
  - intros i data. unfold api_update_channel. unfold_handler.
    destruct (load_config f) as [[config|] f0] eqn:Hload;
      apply load_config_file in Hload as Hf0; subst f0; [|done].
    destruct (py_get config "channels" (JList [])) as [channels|]; [|done].
    destruct (py_len channels) as [n|]; [|done].
    destruct (out_of_range i n); [cbn; by intros [= <- <-]|].
    destruct (update_field true "identifier" data (Z.to_nat i) channels)
      as [channels1|]; [|done].
    destruct (update_field true "name" data (Z.to_nat i) channels1)
      as [channels2|]; [|done].
    destruct (update_field false "enabled" data (Z.to_nat i) channels2)
      as [channels3|]; [|done].
    destruct (py_setitem config "channels" channels3) as [config'|]; [|done].
    cbn. by destruct (py_index channels3 (Z.to_nat i)).
  - intros i. unfold api_delete_channel. unfold_handler.
    destruct (load_config f) as [[config|] f0] eqn:Hload;
      apply load_config_file in Hload as Hf0; subst f0; [|done].
    destruct (py_get config "channels" (JList [])) as [channels|]; [|done].
    destruct (py_len channels) as [n|]; [|done].
    destruct (out_of_range i n); [cbn; by intros [= <- <-]|].
    destruct (py_pop channels (Z.to_nat i)) as [popped|]; [|done].
    by destruct (py_setitem config "channels" popped.2).
Qed.

Lemma channel_handlers_refusal_keeps_file_witness :
  api_add_channel (JDict [("identifier", JStr "@alpha"); ("name", JStr "Other")])
    sample_config = (Error "Channel already exists", sample_config) /\
  (api_update_channel 5 (JDict [("name", JStr "Other")]) sample_config).2 = sample_config /\
  (api_delete_channel (-1) sample_config).2 = sample_config.
Proof.
  split; [|split].
  - reflexivity.
  - destruct (channel_handlers_refusal_keeps_file sample_config
                (api_update_channel 5 (JDict [("name", JStr "Other")]) sample_config).2
                "Channel not found") as (_ & H & _).
    by apply (H 5 (JDict [("name", JStr "Other")])).
  - destruct (channel_handlers_refusal_keeps_file sample_config
                (api_delete_channel (-1) sample_config).2
                "Channel not found") as (_ & _ & H).
    by apply (H (-1)).
Defined.

(** A successful add has stored a channel whose identifier and name
    are not empty, whose identifier starts with the Telegram link
    prefix or with an at sign, and whose identifier and name no
    channel of the list had before. *)
Theorem api_add_channel_validates (f f' : ConfigFile) (c : list json) (data : json)
    (message : string) (payload : json) :
  config_channels f = Some c ->
  api_add_channel data f = (Success message payload, f') ->
  exists identifier name,
    entry_identifier payload = Some identifier /\
    entry_name payload = Some name /\
    identifier <> "" /\ name <> "" /\
    (Py.startswith "https://t.me/" identifier = true \/
     Py.startswith "@" identifier = true) /\
    Forall (fun channel =>
              entry_identifier channel <> Some identifier /\
              entry_name channel <> Some name) c.
Proof.
  intros Hc H. destruct (config_channels_load f c Hc) as (d & Hload & _ & Hget).
  destruct (api_add_channel_checked f f' d c data message payload Hload Hget H)
    as (identifier & name & enabled & -> & Hi & Hn & Hp & Hdup).
  exists identifier, name. split; [done|]. split; [done|].
  split; [done|]. split; [done|]. split; [done|].
  by apply find_duplicate_false.
Qed.

Lemma api_add_channel_validates_witness :
  exists identifier name,
    entry_identifier
      (JDict [("identifier", JStr "@gamma"); ("name", JStr "Gamma");
              ("enabled", JBool true)]) = Some identifier /\
    entry_name
      (JDict [("identifier", JStr "@gamma"); ("name", JStr "Gamma");
              ("enabled", JBool true)]) = Some name /\
    identifier <> "" /\ name <> "".
Proof.
  destruct (api_add_channel_validates sample_config
              (api_add_channel
                 (JDict [("identifier", JStr " @gamma "); ("name", JStr "Gamma ")])
                 sample_config).2
              _ (JDict [("identifier", JStr " @gamma "); ("name", JStr "Gamma ")])
              "Channel added successfully"
              (JDict [("identifier", JStr "@gamma"); ("name", JStr "Gamma");
                      ("enabled", JBool true)]) eq_refl eq_refl)
    as (identifier & name & Hi & Hn & Hie & Hne & _).
  exists identifier, name. done.
Defined.

(** After a successful add the runner and the monitor read the same
    enabled channels as before, followed by the identifier of the new
    channel when its enabled value is true (the default) or any other
    truthy value. *)
Theorem added_channel_is_enabled (f f' : ConfigFile) (c : list json) (data : json)
    (message : string) (payload : json) :
  config_channels f = Some c ->
  api_add_channel data f = (Success message payload, f') ->
  exists config' identifier,
    f' = Stored config' /\
    entry_identifier payload = Some identifier /\
    enabled_channels config'
    = match enabled_identifiers c with
      | Ok identifiers =>
          Ok (identifiers ++
              if py_truthy (default (JBool true) (data_field data "enabled"))
              then [JStr identifier] else [])%list
      | Raise e => Raise e
      end.
Proof.
  intros Hc H. destruct (config_channels_load f c Hc) as (d & Hload & _ & Hget).
  destruct (api_add_channel_success f f' d c data message payload Hload Hget H)
    as (identifier & name & _ & _ & -> & ->).
  eexists _, (Py.strip identifier). split; [reflexivity|]. split; [done|].
  unfold enabled_channels. cbn [py_getitem]. rewrite dict_get_set_eq.
  cbn [py_iter]. rewrite enabled_identifiers_app.
  destruct (enabled_identifiers c) as [identifiers|]; [|done].
  cbn. by destruct (py_truthy _).
Qed.

Lemma added_channel_is_enabled_witness :
  exists config',
    (api_add_channel
       (JDict [("identifier", JStr " @gamma "); ("name", JStr "Gamma ")])
       sample_config).2 = Stored config' /\
    enabled_channels config' = Ok [JStr "@alpha"; JStr "@gamma"].
Proof.
  destruct (added_channel_is_enabled sample_config
              (api_add_channel
                 (JDict [("identifier", JStr " @gamma "); ("name", JStr "Gamma ")])
                 sample_config).2
              _ (JDict [("identifier", JStr " @gamma "); ("name", JStr "Gamma ")])
              "Channel added successfully"
              (JDict [("identifier", JStr "@gamma"); ("name", JStr "Gamma");
                      ("enabled", JBool true)]) eq_refl eq_refl)
    as (config' & identifier & Hf & Hi & He).
  exists config'. split; [exact Hf|]. injection Hi as <-. exact He.
Defined.

(** ** [sanitize_filename] on names that are already safe *)

Lemma re_sub_class_id (cls : ascii -> bool) (repl s : string) :
  all_chars (fun c => negb (cls c)) s = true -> Py.re_sub_class cls repl s = s.
Proof.
  induction s as [|c s IH]; [done|]. cbn.
  intros [Hc Hs]%andb_true_iff. apply negb_true_iff in Hc. by rewrite Hc, IH.
Qed.

Lemma sanitize_filename_valid (text : string) :
  all_chars valid_filename_char (sanitize_filename text) = true.
Proof.
  unfold sanitize_filename.
  assert (all_chars valid_filename_char
            (Py.re_sub_class invalid_filename_char "_" text) = true) as H.
  { apply all_chars_re_sub_class; [done|].
    intros c Hc. unfold valid_filename_char. by rewrite Hc. }
  case_match; [by apply all_chars_slice_to|done].
Qed.

Lemma sanitize_filename_safe (text : string) :
  (Py.len text <= 100)%nat -> all_chars valid_filename_char text = true ->
  sanitize_filename text = text.
Proof.
  intros Hlen Hvalid. unfold sanitize_filename.
  rewrite (re_sub_class_id _ _ _ Hvalid).
  by apply Nat.ltb_ge in Hlen as ->.
Qed.

(** [sanitize_filename] returns its argument unchanged exactly when
    the argument has at most 100 characters and none of the invalid
    ones; what it returns is such a name, so sanitising twice is
    sanitising once. *)
Theorem sanitize_filename_idempotent (text : string) :
  sanitize_filename (sanitize_filename text) = sanitize_filename text /\
  (sanitize_filename text = text <->
   (Py.len text <= 100)%nat /\ all_chars valid_filename_char text = true).
Proof.
  split.
  - apply sanitize_filename_safe; [|apply sanitize_filename_valid].
    rewrite sanitize_filename_length. lia.
  - split.
    + intros H. split.
      * pose proof (sanitize_filename_length text) as Hl. rewrite H in Hl. lia.
      * rewrite <- H. apply sanitize_filename_valid.
    + intros [Hlen Hvalid]. by apply sanitize_filename_safe.
Qed.

Lemma sanitize_filename_idempotent_witness :
  sanitize_filename "News of the day" = "News of the day".
Proof.
  destruct (sanitize_filename_idempotent "News of the day") as [_ [_ H]].
  apply H. split; [vm_compute; lia|reflexivity].
Defined.

(** ** The live archive: what a save leaves alone, and two saves *)

Lemma lookup_append_file_ne (p p' : Path.t) (data : string) (w : World) :
  p <> p' -> files (append_file p data w) !! p' = files w !! p'.
Proof. intros Hne. unfold append_file, set_files. cbn. by rewrite lookup_insert_ne. Qed.

(** The world in which [save_single_message] opens the daily file. *)
Lemma save_single_message_download self w message channel_name :
  exists w1,
    clock w1 = clock w /\ ticks w1 = ticks w /\
    (forall p, (forall name, Path.joinpath (live_media_dir self channel_name) name <> p) ->
               files w1 !! p = files w !! p) /\
    forall log_file date_str,
      date_str = strftime_date (clock w (ticks w)) ->
      log_file = live_log_file self channel_name date_str ->
      (forall p, p <> log_file ->
                 files (save_single_message self w message channel_name) !! p
                 = files w1 !! p) /\
      clock (save_single_message self w message channel_name) = clock w /\
      (ticks w < ticks (save_single_message self w message channel_name))%nat.
Proof.
  set (dl := download_media_file (mon_archiver self) w message
               (live_media_dir self channel_name) (msg_id message)).
  exists (match msg_media message with
          | Some _ => if mon_download_media self then dl.2 else w
          | None => w
          end).
  assert (clock (match msg_media message with
                 | Some _ => if mon_download_media self then dl.2 else w
                 | None => w
                 end) = clock w /\
          ticks (match msg_media message with
                 | Some _ => if mon_download_media self then dl.2 else w
                 | None => w
                 end) = ticks w /\
          forall p, (forall name,
                       Path.joinpath (live_media_dir self channel_name) name <> p) ->
                    files (match msg_media message with
                           | Some _ => if mon_download_media self then dl.2 else w
                           | None => w
                           end) !! p = files w !! p) as (Hc & Ht & Hf).
  { destruct (msg_media message); [|done].
    destruct (mon_download_media self); [|done].
    apply download_media_file_frame. }
  split; [done|]. split; [done|]. split; [done|].
  intros log_file date_str -> ->.
  unfold save_single_message, live_log_file. fold (live_media_dir self channel_name).
  fold dl.
  set (w1 := match msg_media message with
             | Some _ => if mon_download_media self then dl.2 else w
             | None => w
             end) in *.
  assert ((match msg_media message with
           | Some _ => if mon_download_media self then dl else (None, w)
           | None => (None, w)
           end)
          = (match msg_media message with
             | Some _ => if mon_download_media self then dl.1 else None
             | None => None
             end, w1)) as ->.
  { unfold w1. destruct (msg_media message); [|done].
    destruct (mon_download_media self); [by destruct dl|done]. }
  cbn [datetime_now files clock ticks]. cbv zeta. rewrite Hc, Ht.
  unfold path_exists. cbn [files].
  destruct (files w1 !! _); cbn [negb].
  - split; [|split; [done|cbn; lia]].
    intros p Hp. by rewrite lookup_append_file_ne.
  - split; [|split; [done|cbn; lia]].
    intros p Hp. repeat (rewrite lookup_append_file_ne by done; cbn [files]). done.
Qed.



(** The daily file after a save (the statement of C7, for reuse). *)
Lemma save_single_message_log (self : TelegramMonitor) (w : World)
    (message : Message) (channel_name : string) :
  files (save_single_message self w message channel_name)
  !! live_log_file self channel_name (strftime_date (clock w (ticks w)))
  = Some (match files w !! live_log_file self channel_name
                             (strftime_date (clock w (ticks w))) with
          | Some existing => existing
          | None => live_header channel_name (strftime_date (clock w (ticks w)))
                      (strftime_datetime (clock w (S (ticks w))))
          end +:+
          format_message_as_markdown (mon_archiver self) message channel_name
            (live_media_path self w message channel_name)).
Proof.
  pose proof (save_single_message_unfold self w message channel_name) as H.
  cbv zeta in H.
  destruct (save_single_message_download self w message channel_name)
    as (w1 & Hc & Ht & Hf & _).
  set (w0 := match msg_media message with
             | Some _ => if mon_download_media self then _ else w
             | None => w
             end) in H.
  assert (clock w0 = clock w /\ ticks w0 = ticks w /\
          forall d, files w0 !! live_log_file self channel_name (strftime_date d)
                    = files w !! live_log_file self channel_name (strftime_date d))
    as (Hc0 & Ht0 & Hf0).
  { unfold w0. destruct (msg_media message); [|done].
    destruct (mon_download_media self); [|done].
    destruct (download_media_file_frame (mon_archiver self) w message
                (live_media_dir self channel_name) (msg_id message))
      as (Hc' & Ht' & Hf').
    split; [done|]. split; [done|].
    intros d. apply Hf'. intros name. apply live_log_file_not_media. }
  rewrite Hc0, Ht0, Hf0 in H. exact H.
Qed.

(** A second save on the same day finds the daily file of the first
    one and appends its section, and nothing else, after what the first
    save left there. *)
Theorem save_single_message_same_day (self : TelegramMonitor) (w : World)
    (message1 message2 : Message) (channel_name : string) :
  let w1 := save_single_message self w message1 channel_name in
  let date_str := strftime_date (clock w (ticks w)) in
  let log_file := live_log_file self channel_name date_str in
  strftime_date (clock w1 (ticks w1)) = date_str ->
  exists first,
    files w1 !! log_file = Some first /\
    files (save_single_message self w1 message2 channel_name) !! log_file
    = Some (first +:+
            format_message_as_markdown (mon_archiver self) message2 channel_name
              (live_media_path self w1 message2 channel_name)).
Proof.
  cbv zeta. intros Hday.
  pose proof (save_single_message_log self w message1 channel_name) as H1.
  pose proof (save_single_message_log self
                (save_single_message self w message1 channel_name)
                message2 channel_name) as H2.
  rewrite Hday in H2. rewrite H1 in H2.
  eexists. split; [exact H1|exact H2].
Qed.

Lemma save_single_message_same_day_witness :
  exists first,
    files (save_single_message sample_monitor sample_world sample_message "News")
    !! ["live_archive"; "News"; "News_2024-03-09_live.md"] = Some first /\
    files (save_single_message sample_monitor
             (save_single_message sample_monitor sample_world sample_message "News")
             plain_message "News")
    !! ["live_archive"; "News"; "News_2024-03-09_live.md"]
    = Some (first +:+
            format_message_as_markdown sample_archiver plain_message "News" None).
Proof.
  destruct (save_single_message_same_day sample_monitor sample_world
              sample_message plain_message "News" eq_refl) as (first & H1 & H2).
  exists first. split; [exact H1|exact H2].
Defined.

(** ** The daily files of different channels and days *)

Section DailyFiles.

Lemma str_app_cancel_r (a b c : string) : a +:+ c = b +:+ c -> a = b.
Proof.
  revert b. induction a as [|x a IH]; intros [|y b] H; cbn in H.
  - done.
  - apply (f_equal String.length) in H. cbn in H. rewrite str_length_app in H. lia.
  - apply (f_equal String.length) in H. cbn in H. rewrite str_length_app in H. lia.
  - injection H as -> H. by rewrite (IH b H).
Qed.

Lemma parts_single (s : string) :
  all_chars not_slash s = true ->
  Path.parts s = if decide (s <> "" /\ s <> ".") then [s] else [].
Proof.
  intros H. unfold Path.parts. rewrite (split_on_absent _ _ H).
  rewrite filter_cons, filter_nil. done.
Qed.

Lemma live_name_parts (safe date_str : string) :
  all_chars not_slash safe = true -> all_chars not_slash date_str = true ->
  Path.parts (safe +:+ "_" +:+ date_str +:+ "_live.md")
  = [safe +:+ "_" +:+ date_str +:+ "_live.md"].
Proof.
  intros Hs Hd. rewrite parts_single.
  - rewrite decide_True; [done|].
    split; intros H; apply (f_equal String.length) in H;
      rewrite !str_length_app in H; cbn in H; lia.
  - rewrite !all_chars_app, Hs, Hd. done.
Qed.

End DailyFiles.

(** Two saves go to the same daily file only when the sanitised names
    of their channels are equal and their days are written the same:
    different days never share a file, and neither do channels whose
    sanitised names differ. *)
Theorem live_log_file_injective (self : TelegramMonitor)
    (channel_name1 channel_name2 : string) (d1 d2 : datetime) :
  live_log_file self channel_name1 (strftime_date d1)
  = live_log_file self channel_name2 (strftime_date d2) ->
  sanitize_filename channel_name1 = sanitize_filename channel_name2 /\
  strftime_date d1 = strftime_date d2.
Proof.
  unfold live_log_file, Path.joinpath.
  rewrite <- !(assoc_L (++)%list). intros H%app_inv_head.
  pose proof (sanitize_filename_not_slash channel_name1) as Hs1.
  pose proof (sanitize_filename_not_slash channel_name2) as Hs2.
  pose proof (strftime_date_not_slash d1) as Hd1.
  pose proof (strftime_date_not_slash d2) as Hd2.
  rewrite !live_name_parts in H by done.
  rewrite !parts_single in H by done.
  set (s1 := sanitize_filename channel_name1) in *.
  set (s2 := sanitize_filename channel_name2) in *.
  assert (s1 = s2 -> s1 = s2 /\ strftime_date d1 = strftime_date d2) as Hsame.
  { intros Heq. split; [done|]. rewrite Heq in H.
    destruct (decide _); cbn in H;
      [injection H as H|injection H as H];
      apply (inj (String.append s2)) in H;
      apply (inj (String.append "_")) in H;
      by apply str_app_cancel_r in H. }
  destruct (decide (s1 <> "" /\ s1 <> ".")) as [H1|H1],
           (decide (s2 <> "" /\ s2 <> ".")) as [H2|H2]; cbn in H.
  - injection H as Hs _. by apply Hsame.
  - done.
  - done.
  - injection H as H. apply Hsame.
    assert (s1 = "" \/ s1 = ".") as [E1|E1]
      by (destruct (decide (s1 = "")); [by left|right];
          destruct (decide (s1 = ".")); [done|by destruct H1]).
    all: assert (s2 = "" \/ s2 = ".") as [E2|E2]
      by (destruct (decide (s2 = "")); [by left|right];
          destruct (decide (s2 = ".")); [done|by destruct H2]).
    all: rewrite E1, E2 in *; try done.
Qed.

Lemma live_log_file_injective_witness :
  (live_log_file sample_monitor "a/b" (strftime_date sample_date)
   = live_log_file sample_monitor "a:b" (strftime_date sample_evening) /\
   sanitize_filename "a/b" = sanitize_filename "a:b" /\
   strftime_date sample_date = strftime_date sample_evening) /\
  live_log_file sample_monitor "News" (strftime_date sample_date)
  <> live_log_file sample_monitor "News" (strftime_date sample_next_day) /\
  live_log_file sample_monitor "News" (strftime_date sample_date)
  <> live_log_file sample_monitor "Other" (strftime_date sample_date).
Proof.
  split; [|split].
  - assert (live_log_file sample_monitor "a/b" (strftime_date sample_date)
            = live_log_file sample_monitor "a:b" (strftime_date sample_evening)) as H
      by (vm_compute; reflexivity).
    split; [exact H|].
    exact (live_log_file_injective sample_monitor "a/b" "a:b" sample_date
             sample_evening H).
  - intros H.
    apply (live_log_file_injective sample_monitor "News" "News" sample_date
             sample_next_day) in H as [_ H].
    vm_compute in H. discriminate.
  - intros H.
    apply (live_log_file_injective sample_monitor "News" "Other" sample_date
             sample_date) in H as [H _].
    vm_compute in H. discriminate.
Defined.

(** ** The progress counter of the archiving status *)

Lemma contains_truthy (needle hay : string) :
  needle <> "" -> Py.contains needle hay = true -> Py.truthy hay = true.
Proof. intros Hn. destruct hay; [by destruct needle|done]. Qed.

Lemma strip_empty_output (output : string) :
  Py.truthy output = false -> Py.strip output = "".
Proof. by destruct output. Qed.

Lemma monitor_output_processed (output : string) (st : ArchivingStatus) :
  processed_channels (monitor_output output st)
  = (processed_channels st + (if announces_channel output then 1 else 0))%Z.
Proof.
  unfold monitor_output, announces_channel.
  destruct (Py.truthy output) eqn:Ho.
  2:{ rewrite (strip_empty_output _ Ho). cbn. lia. }
  destruct (Py.truthy (Py.strip output)) eqn:Hl.
  2:{ destruct (Py.contains _ _) eqn:Hc; [|lia].
      apply contains_truthy in Hc; [congruence|done]. }
  destruct (Py.contains "Processing channel:" (Py.strip output)).
  - by destruct (_ <? _)%nat.
  - destruct (Py.contains "Total channels:" _);
      [|destruct (Py.contains "Skipping large file" _);
        [|destruct (Py.contains "Downloaded:" _)]];
      destruct (_ <? _)%nat; cbn; lia.
Qed.

(** While the child's output is monitored, [processed_channels] grows
    by one for every line that contains the words Processing channel:
    and by nothing for any other line, however the log is cut. *)
Theorem processed_channels_counts (outputs : list string) (st : ArchivingStatus) :
  processed_channels (run (Output <$> outputs) st)
  = (processed_channels st +
     Z.of_nat (length (filter (fun o => announces_channel o = true) outputs)))%Z.
Proof.
  unfold run. revert st. induction outputs as [|output rest IH]; intros st.
  - cbn. lia.
  - cbn [fmap list_fmap fold_left step]. rewrite IH, monitor_output_processed.
    rewrite filter_cons. destruct (announces_channel output); cbn.
    + rewrite decide_True by done. cbn [length]. lia.
    + rewrite decide_False by done. lia.
Qed.

(** ** From the renderer to the search *)

Section RoundTrip.

Lemma incompatible_startswith (lit t rest : string) :
  incompatible lit t = true -> Py.startswith lit (t +:+ rest) = false.
Proof.
  revert t. induction lit as [|x lit IH]; intros [|y t] H; cbn in H; try done.
  unfold Py.startswith in *. cbn. destruct (ascii_dec x y) as [->|Hne]; [|done].
  rewrite Ascii.eqb_refl in H. cbn in H. by apply IH.
Qed.

Lemma search_skip (lit : string) (cls : ascii -> bool) (chunk rest : string) :
  clear_of lit chunk = true ->
  Re.search_lit_class1 lit cls (chunk +:+ rest) = Re.search_lit_class1 lit cls rest.
Proof.
  induction chunk as [|c chunk IH]; [done|].
  cbn [clear_of]. intros [Hi Hc]%andb_true_iff.
  cbn [String.append Re.search_lit_class1].
  unfold Re.match_lit_class1.
  change (String c (chunk +:+ rest)) with (String c chunk +:+ rest) at 1.
  rewrite (incompatible_startswith _ _ _ Hi). by apply IH.
Qed.

Lemma all_chars_clear_of (lit chunk : string) (x : ascii) (lit' : string) :
  lit = String x lit' ->
  all_chars (fun c => negb (Ascii.eqb x c)) chunk = true ->
  clear_of lit chunk = true.
Proof.
  intros ->. induction chunk as [|c chunk IH]; [done|]. cbn.
  intros [Hc Hs]%andb_true_iff. by rewrite Hc, IH.
Qed.

Lemma startswith_self_app (lit rest : string) : Py.startswith lit (lit +:+ rest) = true.
Proof.
  unfold Py.startswith. induction lit as [|x lit IH]; cbn; [by destruct rest|].
  by destruct (ascii_dec x x).
Qed.

Lemma slice_from_app (a rest : string) : Py.slice_from (Py.len a) (a +:+ rest) = rest.
Proof. unfold Py.len. induction a as [|x a IH]; cbn; [by destruct rest|done]. Qed.

Lemma take_while_app_stop (cls : ascii -> bool) (g : string) (c : ascii) (rest : string) :
  all_chars cls g = true -> cls c = false ->
  Re.take_while cls (g +:+ String c rest) = g.
Proof.
  intros Hg Hc. induction g as [|x g IH]; cbn in *; [by rewrite Hc|].
  apply andb_true_iff in Hg as [-> Hg]. by rewrite IH.
Qed.

Lemma search_hit (lit : string) (cls : ascii -> bool) (g : string) (c : ascii)
    (rest : string) :
  g <> "" -> all_chars cls g = true -> cls c = false ->
  Re.search_lit_class1 lit cls (lit +:+ g +:+ String c rest) = Some g.
Proof.
  intros Hne Hg Hc.
  assert (Re.match_lit_class1 lit cls (lit +:+ g +:+ String c rest) = Some g) as H.
  { unfold Re.match_lit_class1.
    rewrite startswith_self_app, slice_from_app, take_while_app_stop by done.
    by destruct g. }
  destruct lit, g; cbn [String.append Re.search_lit_class1] in *; by rewrite ?H.
Qed.

Lemma strftime_datetime_chars (d : datetime) :
  all_chars (fun c => not_star c && Re.not_newline c) (strftime_datetime d) = true.
Proof.
  assert (forall n w, all_chars (fun c => not_star c && Re.not_newline c)
                        (zfill w (Py.str_of_nat n)) = true) as Hz.
  { intros n w. eapply all_chars_impl; [|apply zfill_digits, str_of_nat_digits].
    intros c Hc. unfold Re.is_digit, not_star, Re.not_newline, Py.LF in *.
    destruct (Ascii.eqb_spec "*"%char c) as [<-|]; [done|].
    destruct (Ascii.eqb_spec c "010"%char) as [->|]; done. }
  unfold strftime_datetime, strftime_date, strftime_time.
  rewrite !all_chars_app, !Hz. done.
Qed.

Lemma strftime_datetime_nonempty (d : datetime) : strftime_datetime d <> "".
Proof.
  intros H. apply (f_equal String.length) in H.
  unfold strftime_datetime, strftime_date in H.
  rewrite !str_length_app in H. cbn in H. lia.
Qed.

Lemma string_of_uint_nonempty (u : Decimal.uint) :
  NilZero.string_of_uint u <> "".
Proof. by destruct u. Qed.

Lemma str_of_int_digits (n : Z) :
  (0 <= n)%Z ->
  all_chars Re.is_digit (Py.str_of_int n) = true /\ Py.str_of_int n <> "".
Proof.
  intros Hn. unfold Py.str_of_int.
  destruct n as [|p|p]; [done| |lia]. cbn [Z.to_int NilZero.string_of_int].
  split; [|apply string_of_uint_nonempty].
  unfold NilZero.string_of_uint.
  destruct (Pos.to_uint p) eqn:E; [done|..]; rewrite <- E; apply string_of_uint_digits.
Qed.

(** The rendering, with the header match at its start set apart. *)
Lemma format_message_as_markdown_section self message channel_name media_path :
  exists rest,
    format_message_as_markdown self message channel_name media_path
    = ("## Message " +:+ Py.str_of_int (msg_id message)) +:+
      (Py.nl +:+ Py.nl +:+ "**Channel:** ") +:+ channel_name +:+
      (Py.nl +:+ "**Sender:** ") +:+ sender_label message +:+
      (Py.nl +:+ "**Date:** ") +:+ strftime_datetime (msg_date message) +:+
      (Py.nl +:+ "**Message ID:** ") +:+ Py.str_of_int (msg_id message) +:+
      String Py.LF rest.
Proof.
  unfold format_message_as_markdown. cbv zeta.
  generalize (media_markup message media_path) as media.
  generalize (sender_label message) as sender.
  generalize (strftime_datetime (msg_date message)) as timestamp.
  generalize (Py.str_of_int (msg_id message)) as id.
  intros id timestamp sender media.
  destruct (opt_truthy (msg_text message)), (msg_forward message),
    (msg_reply_to message);
    eexists; rewrite !str_app_assoc; reflexivity.
Qed.

End RoundTrip.

(** What [make_result] reads from a section that opens with the four
    fields as the renderer writes them. *)
Lemma make_result_fields (query channel file_name : string) (i : nat)
    (channel_name sender ts id rest : string) :
  all_chars Re.is_digit id = true -> id <> "" ->
  all_chars not_star channel_name = true ->
  all_chars (fun c => not_star c && Re.not_newline c) sender = true -> sender <> "" ->
  all_chars (fun c => not_star c && Re.not_newline c) ts = true -> ts <> "" ->
  let r := make_result query channel file_name i
             ((Py.nl +:+ Py.nl +:+ "**Channel:** ") +:+ channel_name +:+
              (Py.nl +:+ "**Sender:** ") +:+ sender +:+
              (Py.nl +:+ "**Date:** ") +:+ ts +:+
              (Py.nl +:+ "**Message ID:** ") +:+ id +:+ String Py.LF rest) in
  res_channel r = channel /\ res_file r = file_name /\
  res_message_id r = id /\ res_date r = ts /\ res_sender r = sender.
Proof.
  intros Hdigits Hidne Hch Hsender Hne Hts Htsne. cbv zeta.
  assert (all_chars not_star sender = true) as Hs1.
  { eapply all_chars_impl; [|exact Hsender]. by intros c [? _]%andb_true_iff. }
  assert (all_chars Re.not_newline sender = true) as Hs2.
  { eapply all_chars_impl; [|exact Hsender]. by intros c [_ ?]%andb_true_iff. }
  assert (all_chars not_star ts = true) as Ht1.
  { eapply all_chars_impl; [|exact Hts]. by intros c [? _]%andb_true_iff. }
  assert (all_chars Re.not_newline ts = true) as Ht2.
  { eapply all_chars_impl; [|exact Hts]. by intros c [_ ?]%andb_true_iff. }
  split; [done|]. split; [done|]. split; [|split].
  - (* the id *)
    unfold make_result. cbn [res_message_id].
    rewrite (search_skip _ _ (Py.nl +:+ Py.nl +:+ "**Channel:** ")) by reflexivity.
    rewrite (search_skip _ _ channel_name)
      by (by eapply all_chars_clear_of).
    rewrite (search_skip _ _ (Py.nl +:+ "**Sender:** ")) by reflexivity.
    rewrite (search_skip _ _ sender) by (by eapply all_chars_clear_of).
    rewrite (search_skip _ _ (Py.nl +:+ "**Date:** ")) by reflexivity.
    rewrite (search_skip _ _ ts) by (by eapply all_chars_clear_of).
    change (Py.nl +:+ "**Message ID:** ") with (Py.nl +:+ ("**Message ID:** ")).
    rewrite str_app_assoc, (search_skip _ _ Py.nl) by reflexivity.
    by rewrite search_hit.
  - (* the date *)
    unfold make_result. cbn [res_date].
    rewrite (search_skip _ _ (Py.nl +:+ Py.nl +:+ "**Channel:** ")) by reflexivity.
    rewrite (search_skip _ _ channel_name)
      by (by eapply all_chars_clear_of).
    rewrite (search_skip _ _ (Py.nl +:+ "**Sender:** ")) by reflexivity.
    rewrite (search_skip _ _ sender) by (by eapply all_chars_clear_of).
    change (Py.nl +:+ "**Date:** ") with (Py.nl +:+ ("**Date:** ")).
    rewrite str_app_assoc, (search_skip _ _ Py.nl) by reflexivity.
    rewrite str_app_assoc.
    change (Py.nl +:+ ?x) with (String Py.LF x).
    by rewrite search_hit.
  - (* the sender *)
    unfold make_result. cbn [res_sender].
    rewrite (search_skip _ _ (Py.nl +:+ Py.nl +:+ "**Channel:** ")) by reflexivity.
    rewrite (search_skip _ _ channel_name)
      by (by eapply all_chars_clear_of).
    change (Py.nl +:+ "**Sender:** ") with (Py.nl +:+ ("**Sender:** ")).
    rewrite str_app_assoc, (search_skip _ _ Py.nl) by reflexivity.
    rewrite str_app_assoc.
    change (Py.nl +:+ ?x) with (String Py.LF x).
    by rewrite search_hit.
Qed.

(** ** The batch archive *)

Section Batch.

Lemma lex_ltb_asym (a b : list nat) : lex_ltb a b = true -> lex_ltb b a = false.
Proof.
  revert b. induction a as [|x a IH]; intros [|y b]; cbn [lex_ltb]; try done.
  intros [H|[H1 H2]%andb_true_iff]%orb_true_iff.
  - apply Nat.ltb_lt in H.
    rewrite (proj2 (Nat.ltb_ge y x)) by lia.
    by rewrite (proj2 (Nat.eqb_neq y x)) by lia.
  - apply Nat.eqb_eq in H1 as ->.
    rewrite Nat.ltb_irrefl, Nat.eqb_refl. cbn. by apply IH.
Qed.

Lemma insert_by_date_perm (message : Message) (sorted : list Message) :
  insert_by_date message sorted ≡ₚ message :: sorted.
Proof.
  induction sorted as [|other rest IH]; [done|]. cbn [insert_by_date].
  destruct (datetime_ltb (msg_date other) (msg_date message)); [|done].
  by rewrite IH, Permutation_swap.
Qed.

Lemma sort_by_date_perm (messages : list Message) : sort_by_date messages ≡ₚ messages.
Proof.
  induction messages as [|m messages IH]; [done|].
  change (sort_by_date (m :: messages))
    with (insert_by_date m (sort_by_date messages)).
  by rewrite insert_by_date_perm, IH.
Qed.

Lemma insert_by_date_sorted (message : Message) (sorted : list Message) :
  Sorted date_le sorted -> Sorted date_le (insert_by_date message sorted).
Proof.
  induction 1 as [|other rest Hs IH Hhd]; [by repeat constructor|].
  cbn [insert_by_date].
  destruct (datetime_ltb (msg_date other) (msg_date message)) eqn:E.
  - constructor; [done|].
    destruct Hhd as [|next rest Hle]; cbn [insert_by_date].
    + constructor. by apply lex_ltb_asym.
    + destruct (datetime_ltb (msg_date next) (msg_date message));
        constructor; [done|by apply lex_ltb_asym].
  - constructor; [by constructor|]. by constructor.
Qed.

Lemma sort_by_date_sorted (messages : list Message) :
  Sorted date_le (sort_by_date messages).
Proof.
  induction messages as [|m messages IH]; [constructor|].
  change (sort_by_date (m :: messages))
    with (insert_by_date m (sort_by_date messages)).
  by apply insert_by_date_sorted.
Qed.

Lemma insert_by_date_dated (d : datetime) (message : Message) (sorted : list Message) :
  dated d (insert_by_date message sorted) = dated d (message :: sorted).
Proof.
  induction sorted as [|other rest IH]; [done|]. cbn [insert_by_date].
  destruct (datetime_ltb (msg_date other) (msg_date message)) eqn:E; [|done].
  unfold dated in *. rewrite filter_cons, IH, !filter_cons.
  destruct (decide (msg_date other = d)) as [Ho|Ho],
           (decide (msg_date message = d)) as [Hm|Hm]; try done.
  rewrite Ho, Hm in E. unfold datetime_ltb in E.
  by rewrite (lex_ltb_asym _ _ E) in E.
Qed.

Lemma sort_by_date_dated (d : datetime) (messages : list Message) :
  dated d (sort_by_date messages) = dated d messages.
Proof.
  induction messages as [|m messages IH]; [done|].
  change (sort_by_date (m :: messages))
    with (insert_by_date m (sort_by_date messages)).
  rewrite insert_by_date_dated. unfold dated in *.
  by rewrite !filter_cons, IH.
Qed.

(** The fetch loop with its accumulator. *)
Lemma fetch_messages_acc start_date yielded raises acc messages :
  fetch_messages start_date yielded raises acc = Some messages <->
  exists kept rest,
    yielded = (kept ++ rest)%list /\ messages = (acc ++ kept)%list /\
    Forall (fun m => before_instant (msg_date m) start_date = false) kept /\
    match rest with
    | [] => raises = false
    | m :: _ => before_instant (msg_date m) start_date = true
    end.
Proof.
  revert acc. induction yielded as [|m yielded IH]; intros acc; cbn [fetch_messages].
  - split.
    + destruct raises; [done|]. intros [= <-]. exists [], [].
      rewrite !app_nil_r. repeat split; try done; constructor.
    + intros (kept & rest & Hy & -> & _ & Hr).
      symmetry in Hy. apply app_eq_nil in Hy as [-> ->]. rewrite Hr.
      by rewrite app_nil_r.
  - destruct (before_instant (msg_date m) start_date) eqn:E.
    + split.
      * intros [= <-]. exists [], (m :: yielded).
        rewrite !app_nil_r. repeat split; try done; constructor.
      * intros (kept & rest & Hy & -> & Hk & Hr).
        destruct kept as [|k kept]; [by rewrite app_nil_r|].
        injection Hy as <- _. apply Forall_cons in Hk as [Hk _]. congruence.
    + rewrite IH. split.
      * intros (kept & rest & -> & -> & Hk & Hr).
        exists (m :: kept), rest. rewrite <- (assoc_L (++)%list).
        by repeat split; [constructor|].
      * intros (kept & rest & Hy & -> & Hk & Hr).
        destruct kept as [|k kept].
        { cbn in Hy. subst rest. congruence. }
        injection Hy as <- ->. apply Forall_cons in Hk as [_ Hk].
        exists kept, rest. by rewrite <- (assoc_L (++)%list).
Qed.

Lemma strftime_stamp_not_slash (d : datetime) :
  all_chars not_slash (strftime_stamp d) = true.
Proof.
  unfold strftime_stamp. rewrite !all_chars_app, strftime_date_not_slash.
  rewrite !(all_chars_impl _ _ _ digit_not_slash (zfill_digits _ _ (str_of_nat_digits _))).
  done.
Qed.

(** A file of the channel directory whose name has no slash and is
    not the name of the media directory is outside the media
    directory. *)
Lemma media_dir_not_file (dir : Path.t) (file name : string) :
  all_chars not_slash file = true -> file <> "media" ->
  Path.joinpath (Path.joinpath dir "media") name <> Path.joinpath dir file.
Proof.
  intros Hf Hne. unfold Path.joinpath.
  rewrite <- !(assoc_L (++)%list). intros H. apply app_inv_head in H.
  change (Path.parts "media") with ["media"] in H.
  destruct (parts_not_slash file Hf) as [Hp|Hp]; rewrite Hp in H; [|done].
  cbn in H. by injection H as H _.
Qed.

Lemma batch_names (channel_name : string) (now : datetime) :
  let file := sanitize_filename channel_name +:+ "_" +:+ strftime_stamp now +:+ ".md" in
  let metadata := sanitize_filename channel_name +:+ "_" +:+ strftime_stamp now
                  +:+ "_metadata.json" in
  all_chars not_slash file = true /\ file <> "media" /\ Path.parts file = [file] /\
  all_chars not_slash metadata = true /\ metadata <> "media" /\
  Path.parts metadata = [metadata] /\ file <> metadata.
Proof.
  cbv zeta.
  set (safe := sanitize_filename channel_name).
  set (stamp := strftime_stamp now).
  assert (3 <= String.length stamp)%nat as Hlen.
  { unfold stamp, strftime_stamp. rewrite !str_length_app. cbn. lia. }
  assert (forall tail, all_chars not_slash tail = true ->
            (1 < String.length tail)%nat ->
            let name := safe +:+ "_" +:+ stamp +:+ tail in
            all_chars not_slash name = true /\ name <> "media" /\
            Path.parts name = [name]) as H.
  { intros tail Htail Hpos name.
    assert (all_chars not_slash name = true) as Hn.
    { unfold name, safe, stamp. rewrite !all_chars_app.
      by rewrite sanitize_filename_not_slash, strftime_stamp_not_slash, Htail. }
    assert (5 < String.length name)%nat as Hl.
    { unfold name. rewrite !str_length_app. cbn. lia. }
    split; [done|]. split.
    - intros Heq. rewrite Heq in Hl. cbn in Hl. lia.
    - unfold Path.parts. rewrite (split_on_absent _ _ Hn). cbn.
      rewrite decide_True; [done|].
      split; intros Heq; rewrite Heq in Hl; cbn in Hl; lia. }
  destruct (H ".md") as (? & ? & ?); [done|cbn; lia|].
  destruct (H "_metadata.json") as (? & ? & ?); [done|cbn; lia|].
  repeat split; try done.
  intros Heq. apply (f_equal String.length) in Heq.
  rewrite !str_length_app in Heq. cbn in Heq. lia.
Qed.

Lemma download_media_file_media_path self w message media_dir :
  media_path_of message
    (download_media_file self w message media_dir (msg_id message)).1.
Proof.
  unfold download_media_file, media_path_of.
  destruct (msg_media message) as [media|]; [|by left].
  destruct (negb (download_media self)); [by left|].
  destruct (client_download_media w message) as [[ext data]|]; [|by left].
  right. by exists media.
Qed.

(** What the writing loop leaves: the renderings after what the file
    held, in the order of the list, and no other file outside the media
    directory touched. *)
Lemma write_messages_spec self channel_name media_dir filepath messages w content :
  (forall name, Path.joinpath media_dir name <> filepath) ->
  files w !! filepath = Some content ->
  let w' := write_messages self channel_name media_dir filepath messages w in
  clock w' = clock w /\ ticks w' = ticks w /\
  (forall p, p <> filepath -> (forall name, Path.joinpath media_dir name <> p) ->
             files w' !! p = files w !! p) /\
  exists media_paths,
    Forall2 media_path_of messages media_paths /\
    files w' !! filepath
    = Some (content +:+
            String.concat ""
              (zip_with (fun m p => format_message_as_markdown self m channel_name p)
                 messages media_paths)).
Proof.
  intros Hmedia. revert w content.
  induction messages as [|m messages IH]; intros w content Hfile; cbn zeta.
  - cbn. repeat split; try done. exists []. split; [constructor|].
    cbn. by rewrite str_app_nil_r.
  - cbn [write_messages].
    set (step := match msg_media m with
                 | Some _ =>
                     if download_media self
                     then download_media_file self w m media_dir (msg_id m)
                     else (None, w)
                 | None => (None, w)
                 end).
    assert (media_path_of m step.1 /\ clock step.2 = clock w /\
            ticks step.2 = ticks w /\
            forall p, (forall name, Path.joinpath media_dir name <> p) ->
                      files step.2 !! p = files w !! p) as (Hpath & Hc & Ht & Hframe).
    { unfold step. destruct (msg_media m) as [media|] eqn:Em;
        [destruct (download_media self)|]; try (by repeat split; try left).
      split; [apply download_media_file_media_path|].
      apply download_media_file_frame. }
    destruct step as [media_path w1]. cbn [fst snd] in *.
    set (md := format_message_as_markdown self m channel_name media_path).
    destruct (IH (append_file filepath md w1) (content +:+ md))
      as (Hc' & Ht' & Hframe' & media_paths & Hpaths & Hcontent).
    { by rewrite lookup_append_file, (Hframe _ Hmedia), Hfile. }
    split; [by rewrite Hc'|]. split; [by rewrite Ht'|]. split.
    + intros p Hp Hpm. rewrite (Hframe' p Hp Hpm).
      by rewrite lookup_append_file_ne, Hframe.
    + exists (media_path :: media_paths). split; [by constructor|].
      rewrite Hcontent. cbn [zip_with]. by rewrite concat_cons, str_app_assoc.
Qed.

End Batch.

Lemma lookup_write_file (p : Path.t) (data : string) (w : World) :
  files (write_file p data w) !! p = Some data.
Proof. unfold write_file, set_files. cbn. by rewrite lookup_insert_eq. Qed.

Lemma lookup_write_file_ne (p p' : Path.t) (data : string) (w : World) :
  p <> p' -> files (write_file p data w) !! p' = files w !! p'.
Proof. intros Hne. unfold write_file, set_files. cbn. by rewrite lookup_insert_ne. Qed.

(** The run that finds messages: the world in which the writing loop
    starts holds the header in the markdown file, and the run ends by
    writing the metadata file. *)
Lemma archive_channel_messages_run self client rt w channel_identifier limit days_back
    channel_info start_date kept :
  kept_messages client rt w channel_identifier limit days_back
  = Some (channel_info, start_date, kept) ->
  kept <> [] ->
  let channel_name := info_title channel_info in
  let filepath := batch_file self channel_name (clock w (S (ticks w))) in
  let metadata_file := batch_metadata_file self channel_name (clock w (S (ticks w))) in
  let media_dir := Path.joinpath (batch_dir self channel_name) "media" in
  exists w0 text,
    archive_channel_messages self client rt w channel_identifier limit days_back
    = (true,
       write_file metadata_file text
         (datetime_now
            (write_messages self channel_name media_dir filepath
               (sort_by_date kept) w0)).2) /\
    files w0 !! filepath
    = Some (batch_header channel_name (clock w (S (S (ticks w)))) (length kept)
              start_date (utc_clock rt (ticks w))) /\
    clock w0 = clock w /\ ticks w0 = S (S (S (ticks w))) /\
    forall p, p <> filepath -> files w0 !! p = files w !! p.
Proof.
  intros Hkept Hne. cbv zeta.
  unfold kept_messages in Hkept.
  destruct (get_channel_info client channel_identifier) as [info|] eqn:Einfo;
    [|done]. cbn [mbind option_bind] in Hkept.
  destruct (timedelta_sub rt (utc_clock rt (ticks w)) days_back) as [start|] eqn:Estart;
    [|done]. cbn [mbind option_bind] in Hkept.
  destruct (iter_messages client channel_identifier limit (utc_clock rt (ticks w)))
    as [yielded raises] eqn:Eiter.
  destruct (fetch_messages start yielded raises []) as [messages|] eqn:Efetch;
    [|done]. cbn [mbind option_bind] in Hkept.
  injection Hkept as -> -> ->.
  unfold archive_channel_messages. rewrite Einfo.
  cbn [utc_now]. rewrite Estart, Eiter, Efetch.
  destruct kept as [|m kept]; [done|].
  cbn [datetime_now files clock ticks client_download_media].
  eexists _, _. split; [reflexivity|].
  fold (batch_dir self (info_title channel_info)).
  fold (batch_file self (info_title channel_info) (clock w (S (ticks w)))).
  unfold append_file, write_file, set_files.
  cbn [files clock ticks client_download_media].
  split.
  { rewrite !lookup_insert_eq. cbn [default]. unfold id.
    unfold batch_header. by rewrite !str_app_assoc. }
  split; [done|]. split; [done|].
  intros p Hp. by rewrite !lookup_insert_ne.
Qed.

(** The loop that fetches the messages keeps the longest run of
    messages, from the first one the iterator yields, that are not
    older than the start of the window: what the iterator yields after
    the first older message is dropped, also when it is newer.  The
    fetch fails only when the iterator raises before an older message
    shows. *)
Theorem fetch_messages_window (start_date : instant) (yielded : list Message)
    (raises : bool) (messages : list Message) :
  fetch_messages start_date yielded raises [] = Some messages <->
  exists rest,
    yielded = (messages ++ rest)%list /\
    Forall (fun m => before_instant (msg_date m) start_date = false) messages /\
    match rest with
    | [] => raises = false
    | m :: _ => before_instant (msg_date m) start_date = true
    end.
Proof.
  rewrite fetch_messages_acc. split.
  - intros (kept & rest & -> & -> & Hk & Hr). by exists rest.
  - intros (rest & -> & Hk & Hr). by exists messages, rest.
Qed.

(** A run of the batch archive that finds messages in the window
    succeeds and writes them all into one markdown file, named after
    the sanitized channel title and the time of the run: the header
    with the number of messages, then one rendering for each message
    kept by the fetch, ordered by date, oldest first, messages of the
    same date in the order of the fetch. *)
Theorem archive_channel_messages_file (self : TelegramArchiver) (client : Client)
    (rt : Runtime) (w : World) (channel_identifier : string) (limit days_back : Z)
    (channel_info : ChannelInfo) (start_date : instant) (kept : list Message) :
  kept_messages client rt w channel_identifier limit days_back
  = Some (channel_info, start_date, kept) ->
  kept <> [] ->
  let result := archive_channel_messages self client rt w channel_identifier
                  limit days_back in
  let channel_name := info_title channel_info in
  let sorted := sort_by_date kept in
  result.1 = true /\ Sorted date_le sorted /\ sorted ≡ₚ kept /\
  (forall d, dated d sorted = dated d kept) /\
  exists media_paths,
    Forall2 media_path_of sorted media_paths /\
    files result.2 !! batch_file self channel_name (clock w (S (ticks w)))
    = Some (batch_header channel_name (clock w (S (S (ticks w)))) (length kept)
              start_date (utc_clock rt (ticks w)) +:+
            String.concat ""
              (zip_with (fun m p => format_message_as_markdown self m channel_name p)
                 sorted media_paths)).
Proof.
  intros Hkept Hne. cbv zeta.
  destruct (archive_channel_messages_run self client rt w channel_identifier limit
              days_back channel_info start_date kept Hkept Hne)
    as (w0 & text & -> & Hfile & _ & _ & _).
  pose proof (batch_names (info_title channel_info) (clock w (S (ticks w))))
    as (Hslash & Hmedia & _ & _ & _ & Hparts' & Hdiff).
  split; [done|]. split; [apply sort_by_date_sorted|].
  split; [apply sort_by_date_perm|].
  split; [intros d; apply sort_by_date_dated|].
  destruct (write_messages_spec self (info_title channel_info)
              (Path.joinpath (batch_dir self (info_title channel_info)) "media")
              (batch_file self (info_title channel_info) (clock w (S (ticks w))))
              (sort_by_date kept) w0 _
              (fun name => media_dir_not_file _ _ name Hslash Hmedia) Hfile)
    as (_ & _ & _ & media_paths & Hpaths & Hcontent).
  exists media_paths. split; [done|].
  cbn [snd]. rewrite lookup_write_file_ne; [exact Hcontent|].
  unfold batch_metadata_file, batch_file, Path.joinpath.
  intros Heq. apply app_inv_head in Heq.
  pose proof (batch_names (info_title channel_info) (clock w (S (ticks w))))
    as (_ & _ & Hp1 & _ & _ & Hp2 & _).
  rewrite Hp1, Hp2 in Heq. injection Heq as Heq. by symmetry in Heq.
Qed.

(** The three ways a run of the batch archive goes: it fails, it finds
    no message, or it writes. *)
Lemma archive_channel_messages_cases (self : TelegramArchiver) (client : Client)
    (rt : Runtime) (w : World) (channel_identifier : string) (limit days_back : Z) :
  let result := archive_channel_messages self client rt w channel_identifier
                  limit days_back in
  match kept_messages client rt w channel_identifier limit days_back with
  | None => result.1 = false /\ files result.2 = files w
  | Some (_, _, []) => result.1 = true /\ files result.2 = files w
  | Some (_, _, _ :: _) => result.1 = true
  end.
Proof.
  cbv zeta.
  destruct (kept_messages client rt w channel_identifier limit days_back)
    as [[[channel_info start_date] kept]|] eqn:Hkept.
  - destruct kept as [|m kept].
    + unfold kept_messages in Hkept. unfold archive_channel_messages.
      destruct (get_channel_info client channel_identifier) as [info|]; [|done].
      cbn [mbind option_bind utc_now] in *.
      destruct (timedelta_sub rt (utc_clock rt (ticks w)) days_back) as [start|];
        [|done]. cbn [mbind option_bind] in *.
      destruct (iter_messages client channel_identifier limit (utc_clock rt (ticks w)))
        as [yielded raises].
      destruct (fetch_messages start yielded raises []) as [messages|]; [|done].
      cbn [mbind option_bind] in Hkept. injection Hkept as -> -> ->.
      by cbn.
    + by destruct (archive_channel_messages_run self client rt w channel_identifier
                     limit days_back channel_info start_date (m :: kept) Hkept)
        as (w0 & text & -> & _).
  - unfold kept_messages in Hkept. unfold archive_channel_messages.
    destruct (get_channel_info client channel_identifier) as [info|]; [|done].
    cbn [mbind option_bind utc_now] in *.
    destruct (timedelta_sub rt (utc_clock rt (ticks w)) days_back) as [start|];
      [|done]. cbn [mbind option_bind] in *.
    destruct (iter_messages client channel_identifier limit (utc_clock rt (ticks w)))
      as [yielded raises].
    destruct (fetch_messages start yielded raises []) as [messages|]; [|done].
    done.
Qed.

(** A run of the batch archive whose channel cannot be resolved,
    whose window cannot be computed or whose fetch raises returns
    [False].  Such a run, and a run that finds no message in the
    window, write no file. *)
Theorem archive_channel_messages_nothing (self : TelegramArchiver) (client : Client)
    (rt : Runtime) (w : World) (channel_identifier : string) (limit days_back : Z) :
  let result := archive_channel_messages self client rt w channel_identifier
                  limit days_back in
  let kept := kept_messages client rt w channel_identifier limit days_back in
  (kept = None -> result.1 = false) /\
  ((kept = None \/ exists channel_info start_date,
                     kept = Some (channel_info, start_date, [])) ->
   files result.2 = files w).
Proof.
  cbv zeta.
  pose proof (archive_channel_messages_cases self client rt w channel_identifier
                limit days_back) as Hcases. cbv zeta in Hcases.
  destruct (kept_messages client rt w channel_identifier limit days_back)
    as [[[channel_info start_date] [|m kept]]|].
  - destruct Hcases as [Hok Hfiles]. done.
  - split; [done|]. intros [?|(? & ? & ?)]; done.
  - destruct Hcases as [Hok Hfiles]. done.
Qed.

Lemma archive_channel_messages_nothing_witness :
  (archive_channel_messages sample_archiver sample_client sample_runtime sample_world
     "@unknown" 100 7).1 = false /\
  files (archive_channel_messages sample_archiver sample_client sample_runtime
           sample_world "@unknown" 100 7).2 = files sample_world.
Proof.
  destruct (archive_channel_messages_nothing sample_archiver sample_client
              sample_runtime sample_world "@unknown" 100 7) as [Hfalse Hfiles].
  split; [exact (Hfalse eq_refl)|exact (Hfiles (or_introl eq_refl))].
Defined.

Lemma batch_dir_single (self : TelegramArchiver) (channel_name : string) :
  sanitize_filename channel_name <> "" -> sanitize_filename channel_name <> "." ->
  batch_dir self channel_name
  = (output_dir self ++ [sanitize_filename channel_name])%list.
Proof.
  intros H1 H2. unfold batch_dir, Path.joinpath.
  rewrite parts_single by apply sanitize_filename_not_slash.
  by rewrite decide_True.
Qed.

(** A run of the batch archive changes no file but its markdown file,
    its metadata file and files of the media directory of the
    channel.  So it changes nothing below the directory of a channel
    whose title is sanitised to another name, when neither name is
    empty or a dot name.  The paths have no step to a parent: none in
    the output directory, none in the path of the other file, and the
    sanitised title is not one. *)
Theorem archive_channel_messages_frame (self : TelegramArchiver) (client : Client)
    (rt : Runtime) (w : World) (channel_identifier : string) (limit days_back : Z)
    (channel_info : ChannelInfo) :
  get_channel_info client channel_identifier = Some channel_info ->
  let result := archive_channel_messages self client rt w channel_identifier
                  limit days_back in
  let channel_name := info_title channel_info in
  ".." ∉ output_dir self ->
  sanitize_filename channel_name <> ".." ->
  (forall p,
     ".." ∉ p ->
     p <> batch_file self channel_name (clock w (S (ticks w))) ->
     p <> batch_metadata_file self channel_name (clock w (S (ticks w))) ->
     (forall name,
        Path.joinpath (Path.joinpath (batch_dir self channel_name) "media") name <> p) ->
     files result.2 !! p = files w !! p) /\
  (forall other rest,
     sanitize_filename other <> sanitize_filename channel_name ->
     plain_name (sanitize_filename other) = true ->
     plain_name (sanitize_filename channel_name) = true ->
     sanitize_filename other <> "" -> sanitize_filename channel_name <> "" ->
     ".." ∉ rest ->
     files result.2 !! (batch_dir self other ++ rest)%list
     = files w !! (batch_dir self other ++ rest)%list).
Proof.
  intros Hinfo. cbv zeta. intros _ _.
  assert (forall p,
     p <> batch_file self (info_title channel_info) (clock w (S (ticks w))) ->
     p <> batch_metadata_file self (info_title channel_info) (clock w (S (ticks w))) ->
     (forall name,
        Path.joinpath (Path.joinpath (batch_dir self (info_title channel_info)) "media")
          name <> p) ->
     files (archive_channel_messages self client rt w channel_identifier
              limit days_back).2 !! p = files w !! p) as Hframe_all; [|split].
  2:{ intros p _. apply Hframe_all. }
  2:{ intros other rest Hdiff Hpo Hpt Ho1 Ht1 _.
      assert (forall name, plain_name name = true -> name <> ".") as Hdot.
      { intros name Hp ->. by vm_compute in Hp. }
      pose proof (Hdot _ Hpo) as Ho2. pose proof (Hdot _ Hpt) as Ht2.
      assert (forall tail,
                ((output_dir self ++ [sanitize_filename other]) ++ rest)%list
                <> ((output_dir self ++ [sanitize_filename (info_title channel_info)])
                    ++ tail)%list) as Hne.
      { intros tail Heq. rewrite <- !(assoc_L (++)%list) in Heq.
        apply app_inv_head in Heq. by injection Heq. }
      apply Hframe_all; unfold batch_file, batch_metadata_file, Path.joinpath;
        rewrite ?(batch_dir_single self other), ?(batch_dir_single self (info_title channel_info))
          by done.
      - apply Hne.
      - apply Hne.
      - intros name Heq. symmetry in Heq.
        rewrite <- (assoc_L (++)%list _ (Path.parts "media")) in Heq.
        by apply Hne in Heq. }
  intros p Hfile Hmeta Hmedia.
  pose proof (archive_channel_messages_cases self client rt w channel_identifier
                limit days_back) as Hnothing.
  destruct (kept_messages client rt w channel_identifier limit days_back)
    as [[[info start_date] kept]|] eqn:Hkept.
  - assert (info = channel_info) as ->.
    { unfold kept_messages in Hkept. rewrite Hinfo in Hkept.
      cbn [mbind option_bind] in Hkept.
      destruct (timedelta_sub rt (utc_clock rt (ticks w)) days_back); [|done].
      cbn [mbind option_bind] in Hkept.
      destruct (iter_messages client channel_identifier limit (utc_clock rt (ticks w))).
      destruct (fetch_messages _ _ _ _); [|done].
      cbn [mbind option_bind] in Hkept. by injection Hkept. }
    destruct kept as [|m kept].
    + cbv zeta in Hnothing. destruct Hnothing as [_ Hn]. by rewrite Hn.
    + destruct (archive_channel_messages_run self client rt w channel_identifier
                  limit days_back channel_info start_date (m :: kept) Hkept)
        as (w0 & text & -> & Hfile0 & _ & _ & Hw0); [done|].
      pose proof (batch_names (info_title channel_info) (clock w (S (ticks w))))
        as (Hslash & Hne & _).
      destruct (write_messages_spec self (info_title channel_info)
                  (Path.joinpath (batch_dir self (info_title channel_info)) "media")
                  (batch_file self (info_title channel_info) (clock w (S (ticks w))))
                  (sort_by_date (m :: kept)) w0 _
                  (fun name => media_dir_not_file _ _ name Hslash Hne) Hfile0)
        as (_ & _ & Hframe & _).
      cbn [snd]. rewrite lookup_write_file_ne by done.
      cbn [datetime_now snd files]. rewrite Hframe by done. by apply Hw0.
  - cbv zeta in Hnothing. destruct Hnothing as [_ Hn]. by rewrite Hn.
Qed.

Lemma archive_channel_messages_file_witness :
  (archive_channel_messages sample_archiver sample_client sample_runtime sample_world
     "@news" 100 7).1 = true /\
  sort_by_date [plain_message; sample_message] ≡ₚ [plain_message; sample_message].
Proof.
  destruct (archive_channel_messages_file sample_archiver sample_client sample_runtime
              sample_world "@news" 100 7
              {| info_id := 1001; info_title := "News"; info_username := Some "news";
                 info_type := "channel" |}
              sample_start [plain_message; sample_message])
    as (Hok & _ & Hperm & _ & _).
  - reflexivity.
  - discriminate.
  - split; [exact Hok|exact Hperm].
Defined.

Lemma archive_channel_messages_frame_witness :
  files (archive_channel_messages sample_archiver sample_client sample_runtime
           sample_world "@news" 100 7).2
  !! ["archived_channels"; "News"; "notes.md"] = None /\
  files (archive_channel_messages sample_archiver sample_client sample_runtime
           sample_world "@news" 100 7).2
  !! ["archived_channels"; "Other"; "Other_2024-03-09_07-00-59.md"] = None.
Proof.
  destruct (archive_channel_messages_frame sample_archiver sample_client sample_runtime
              sample_world "@news" 100 7
              {| info_id := 1001; info_title := "News"; info_username := Some "news";
                 info_type := "channel" |}) as [Hframe Hother].
  { reflexivity. }
  { intros Hin. apply list_elem_of_singleton in Hin. discriminate. }
  { discriminate. }
  split.
  - rewrite Hframe.
    + reflexivity.
    + intros Hin. repeat (apply elem_of_cons in Hin as [Hin|Hin]; [discriminate|]).
      by apply elem_of_nil in Hin.
    + vm_compute. discriminate.
    + vm_compute. discriminate.
    + intros name. vm_compute. destruct (Path.parts name); discriminate.
  - apply (Hother "Other" ["Other_2024-03-09_07-00-59.md"]);
      try (vm_compute; discriminate); try reflexivity.
    intros Hin. apply list_elem_of_singleton in Hin. discriminate.
Defined.

(** ** The media links of a viewed file *)

Section MediaLinks.

Lemma match_lit_class1_hit (lit : string) (cls : ascii -> bool) (g : string)
    (c : ascii) (rest : string) :
  g <> "" -> all_chars cls g = true -> cls c = false ->
  Re.match_lit_class1 lit cls (lit +:+ g +:+ String c rest) = Some g.
Proof.
  intros Hne Hg Hc. unfold Re.match_lit_class1.
  rewrite startswith_self_app, slice_from_app, take_while_app_stop by done.
  by destruct g.
Qed.

Lemma slice_from_app_add (a : string) (n : nat) (rest : string) :
  Py.slice_from (Py.len a + n) (a +:+ rest) = Py.slice_from n rest.
Proof. unfold Py.len. induction a as [|x a IH]; cbn; [done|exact IH]. Qed.

Lemma sub_media_links_skip (x rest : string) :
  sub_media_links (String.length x) (x +:+ rest) = sub_media_links 0 rest.
Proof. induction x as [|c x IH]; [done|]. cbn. exact IH. Qed.

Lemma sub_media_refs_skip (x rest : string) :
  sub_media_refs (String.length x) (x +:+ rest) = sub_media_refs 0 rest.
Proof. induction x as [|c x IH]; [done|]. cbn. exact IH. Qed.

(** Text without an opening bracket is copied by the first pass. *)
Lemma sub_media_links_plain (chunk rest : string) :
  all_chars (not_char "[") chunk = true ->
  sub_media_links 0 (chunk +:+ rest) = chunk +:+ sub_media_links 0 rest.
Proof.
  induction chunk as [|c chunk IH]; [done|]. cbn [all_chars].
  intros [Hc Hs]%andb_true_iff.
  cbn [String.append sub_media_links match_media_link].
  unfold not_char in Hc. apply negb_true_iff in Hc.
  rewrite Ascii.eqb_sym in Hc. rewrite Hc. by rewrite IH.
Qed.

(** Text in which no match of the literal starts is copied by the
    second pass. *)
Lemma sub_media_refs_plain (chunk rest : string) :
  clear_of "media/" chunk = true ->
  sub_media_refs 0 (chunk +:+ rest) = chunk +:+ sub_media_refs 0 rest.
Proof.
  induction chunk as [|c chunk IH]; [done|].
  cbn [clear_of]. intros [Hi Hc]%andb_true_iff.
  cbn [String.append sub_media_refs].
  unfold Re.match_lit_class1.
  change (String c (chunk +:+ rest)) with (String c chunk +:+ rest) at 1.
  rewrite (incompatible_startswith _ _ _ Hi). by rewrite IH.
Qed.

Lemma incompatible_media_text (text : string) :
  all_chars (not_char "/") text = true ->
  incompatible "media/" (text +:+ "](/") = true.
Proof.
  unfold not_char.
  destruct text as [|c0 [|c1 [|c2 [|c3 [|c4 [|c5 text]]]]]];
    cbn [all_chars String.append incompatible];
    rewrite ?andb_true_iff; intros H;
    repeat match goal with
           | |- context [Ascii.eqb ?a ?b] =>
               first [ is_var b; destruct (Ascii.eqb a b) eqn:?
                     | is_var a; destruct (Ascii.eqb a b) eqn:? ]
           end; cbn; try done.
  destruct H as (_ & _ & _ & _ & _ & H & _). done.
Qed.

Lemma clear_of_media_text (text : string) :
  all_chars (not_char "/") text = true ->
  clear_of "media/" (text +:+ "](/") = true.
Proof.
  induction text as [|c text IH]; [done|].
  intros H. cbn [String.append clear_of].
  change (String c (text +:+ "](/")) with (String c text +:+ "](/").
  rewrite (incompatible_media_text _ H). cbn in H.
  apply andb_true_iff in H as [_ H]. by apply IH.
Qed.

Lemma split_on_last (name : string) :
  all_chars (not_char "/") name = true ->
  List.last (Path.split_on "/" name) "" = name.
Proof. intros H. by rewrite (split_on_absent _ _ H). Qed.

(** The first pass on a link into the media directory. *)
Lemma sub_media_links_hit (text name post : string) :
  text <> "" -> all_chars (not_char "]") text = true ->
  name <> "" -> all_chars (not_char ")") name = true ->
  sub_media_links 0 ("[" +:+ text +:+ "](media/" +:+ name +:+ ")" +:+ post)
  = fix_media_link text name +:+ sub_media_links 0 post.
Proof.
  intros Htext Hcls Hname Hcls'.
  assert (match_media_link ("[" +:+ text +:+ "](media/" +:+ name +:+ ")" +:+ post)
          = Some (text, name,
                  (1 + Py.len text + Py.len "](media/" + Py.len name + 1)%nat)) as Hm.
  { change ("[" +:+ text +:+ "](media/" +:+ name +:+ ")" +:+ post)
      with (String "[" (text +:+ String "]" ("(media/" +:+ name +:+ ")" +:+ post))).
    cbn [match_media_link]. rewrite Ascii.eqb_refl.
    rewrite take_while_app_stop by done.
    destruct text as [|t text'] eqn:Et; [done|]. cbn beta iota zeta.
    rewrite <- Et in *. rewrite slice_from_app.
    change (String "]" ("(media/" +:+ name +:+ ")" +:+ post))
      with ("](media/" +:+ name +:+ String ")" post).
    rewrite match_lit_class1_hit by done.
    rewrite slice_from_app_add, slice_from_app.
    change (String ")" post) with (")" +:+ post).
    by rewrite startswith_self_app. }
  change ("[" +:+ text +:+ "](media/" +:+ name +:+ ")" +:+ post)
    with (String "[" (text +:+ "](media/" +:+ name +:+ ")" +:+ post)) in *.
  cbn [sub_media_links]. rewrite Hm. f_equal.
  rewrite <- (sub_media_links_skip (text +:+ "](media/" +:+ name +:+ ")") post).
  rewrite !str_app_assoc. f_equal.
  unfold Py.len. rewrite !str_length_app. cbn. lia.
Qed.

(** The second pass on a reference to the media directory. *)
Lemma sub_media_refs_hit (name : string) (c : ascii) (post : string) :
  name <> "" -> all_chars media_ref_char name = true -> media_ref_char c = false ->
  sub_media_refs 0 ("media/" +:+ name +:+ String c post)
  = "/media/" +:+ name +:+ sub_media_refs 0 (String c post).
Proof.
  intros Hname Hcls Hc.
  pose proof (match_lit_class1_hit "media/" media_ref_char name c post Hname Hcls Hc)
    as Hm.
  change ("media/" +:+ name +:+ String c post)
    with (String "m" ("edia/" +:+ name +:+ String c post)) in *.
  remember (sub_media_refs 0 (String c post)) as tail eqn:Htail.
  cbn [sub_media_refs]. rewrite Hm. do 2 f_equal. subst tail.
  rewrite <- (sub_media_refs_skip ("edia/" +:+ name) (String c post)).
  rewrite !str_app_assoc. by f_equal.
Qed.

End MediaLinks.

(** The viewer rewrites a markdown link into the media directory
    twice: the first substitution turns its target into the media
    route, and the second one, which looks for the directory name in
    the result of the first, puts another slash before it.  The link
    of a file name ends up pointing at two slashes, the media route and
    the name. *)
Theorem fix_media_links_link (pre text name post : string) :
  all_chars (not_char "[") pre = true ->
  clear_of "media/" pre = true ->
  text <> "" ->
  all_chars (fun c => not_char "]" c && not_char "/" c) text = true ->
  name <> "" ->
  all_chars (fun c => media_ref_char c && not_char "/" c) name = true ->
  fix_media_links (pre +:+ "[" +:+ text +:+ "](media/" +:+ name +:+ ")" +:+ post)
  = pre +:+ "[" +:+ text +:+ "](//media/" +:+ name +:+ ")" +:+ fix_media_links post.
Proof.
  intros Hpre Hclear Htext Htext' Hname Hname'.
  assert (all_chars (not_char "]") text = true) as Ht1.
  { eapply all_chars_impl; [|exact Htext']. by intros c [? _]%andb_true_iff. }
  assert (all_chars (not_char "/") text = true) as Ht2.
  { eapply all_chars_impl; [|exact Htext']. by intros c [_ ?]%andb_true_iff. }
  assert (all_chars media_ref_char name = true) as Hn1.
  { eapply all_chars_impl; [|exact Hname']. by intros c [? _]%andb_true_iff. }
  assert (all_chars (not_char ")") name = true) as Hn2.
  { eapply all_chars_impl; [|exact Hn1]. by intros c [? _]%andb_true_iff. }
  assert (all_chars (not_char "/") name = true) as Hn3.
  { eapply all_chars_impl; [|exact Hname']. by intros c [_ ?]%andb_true_iff. }
  unfold fix_media_links.
  rewrite sub_media_links_plain by done.
  rewrite sub_media_links_hit by done.
  unfold fix_media_link. rewrite split_on_last by done.
  set (P := sub_media_links 0 post).
  rewrite sub_media_refs_plain by done. f_equal.
  replace (("[" +:+ text +:+ "](/media/" +:+ name +:+ ")") +:+ P)
    with (String "[" (text +:+ "](/") +:+ ("media/" +:+ name +:+ String ")" P)).
  2:{ change (String "[" ((text +:+ "](/") +:+ ("media/" +:+ name +:+ String ")" P))
              = String "[" ((text +:+ "](/media/" +:+ name +:+ ")") +:+ P)).
      f_equal. by rewrite !str_app_assoc. }
  rewrite sub_media_refs_plain.
  2:{ cbn [clear_of incompatible]. by rewrite clear_of_media_text. }
  rewrite sub_media_refs_hit by done.
  change (String ")" P) with (")" +:+ P).
  rewrite (sub_media_refs_plain ")" P) by done.
  change (String "[" (text +:+ "](/")) with ("[" +:+ text +:+ "](/").
  by rewrite !str_app_assoc.
Qed.

Lemma fix_media_links_link_witness :
  fix_media_links ("![Photo](media/msg_42.jpg)" +:+ Py.nl)
  = "![Photo](//media/msg_42.jpg)" +:+ Py.nl.
Proof.
  apply (fix_media_links_link "!" "Photo" "msg_42.jpg" Py.nl); try reflexivity;
    discriminate.
Defined.

(** ** The monitored channels *)

Lemma add_channels_spec (client : Client) (channels : list string) (n : nat)
    (monitored : gmap Z string) (chat_id : Z) :
  let result := add_channels client channels n monitored in
  result.1 = (n + length (resolved client channels))%nat /\
  result.2 !! chat_id
  = match monitored_title client channels chat_id with
    | Some title => Some title
    | None => monitored !! chat_id
    end.
Proof.
  cbv zeta. revert n monitored.
  induction channels as [|channel channels IH]; intros n monitored.
  - cbn. split; [lia|done].
  - cbn [add_channels]. unfold add_channel_to_monitor, monitored_title, resolved.
    cbn [omap list_omap].
    fold (resolved client channels).
    destruct (get_entity client channel) as [[id title username|id title|]|];
      cbn beta iota zeta.
    1,2: destruct (IH (n + 1)%nat (<[id := title]> monitored)) as [-> ->];
      split; [cbn [length]; lia|];
      unfold monitored_title; rewrite filter_cons; cbn [fst];
      destruct (decide (id = chat_id)) as [->|Hne];
      [ rewrite last_cons;
        destruct (last (filter (fun e => e.1 = chat_id) (resolved client channels)))
          as [[? ?]|]; [done|cbn; by rewrite lookup_insert_eq]
      | destruct (last (filter (fun e => e.1 = chat_id) (resolved client channels)))
          as [[? ?]|]; [done|cbn; by rewrite lookup_insert_ne] ].
    1,2: destruct (IH n monitored) as [-> ->]; done.
Qed.

Lemma add_channels_size (client : Client) (channels : list string) (n : nat)
    (monitored : gmap Z string) :
  let result := add_channels client channels n monitored in
  (size result.2 + n <= size monitored + result.1)%nat.
Proof.
  cbv zeta. revert n monitored.
  induction channels as [|channel channels IH]; intros n monitored; [cbn; lia|].
  cbn [add_channels]. unfold add_channel_to_monitor.
  destruct (get_entity client channel) as [[cid title username|cid title|]|];
    cbn beta iota zeta; try apply IH.
  all: specialize (IH (n + 1)%nat (<[cid := title]> monitored));
    rewrite map_size_insert in IH; destruct (monitored !! cid);
    unfold id in IH; lia.
Qed.

(** After the monitor has added its channels, a new message is saved
    exactly when an identifier of the list resolves to a channel or
    chat with the id of the event, under the title of the last such
    identifier; any other message leaves the world as it is.  The
    counter of successes counts every identifier that resolves, so it
    is at least the number of monitored chats. *)
Theorem handle_new_message_routes (self : TelegramMonitor) (client : Client)
    (channels : list string) (w : World) (chat_id : Z) (message : Message) :
  let setup := add_channels client channels 0 ∅ in
  handle_new_message self setup.2 w chat_id message
  = match monitored_title client channels chat_id with
    | Some title => save_single_message self w message title
    | None => w
    end /\
  setup.1 = length (resolved client channels) /\
  (size setup.2 <= setup.1)%nat.
Proof.
  cbv zeta. split; [|split].
  - unfold handle_new_message.
    destruct (add_channels_spec client channels 0 ∅ chat_id) as [_ ->].
    rewrite lookup_empty. by destruct (monitored_title client channels chat_id).
  - by destruct (add_channels_spec client channels 0 ∅ chat_id) as [-> _].
  - pose proof (add_channels_size client channels 0 ∅) as H.
    rewrite map_size_empty in H. cbv zeta in H. lia.
Qed.

(** ** The text of a rendered message as the search reads it *)

Section ContentReadBack.

Lemma search_content_skip (chunk rest : string) :
  clear_of ("### Content" +:+ Py.nl +:+ Py.nl) chunk = true ->
  Re.search_content (chunk +:+ rest) = Re.search_content rest.
Proof.
  induction chunk as [|c chunk IH]; [done|].
  cbn [clear_of]. intros [Hi Hc]%andb_true_iff.
  cbn [String.append Re.search_content].
  change (String c (chunk +:+ rest)) with (String c chunk +:+ rest) at 1.
  rewrite (incompatible_startswith _ _ _ Hi). by apply IH.
Qed.

Lemma search_content_hit (rest : string) :
  Re.search_content (("### Content" +:+ Py.nl +:+ Py.nl) +:+ rest)
  = Some (Re.lazy_until_fields rest).
Proof.
  set (lit := "### Content" +:+ Py.nl +:+ Py.nl).
  assert (forall s, Py.startswith lit s = true ->
            Re.search_content s = Some (Re.lazy_until_fields (Py.slice_from (Py.len lit) s)))
    as H.
  { intros s Hs. destruct s; cbn [Re.search_content]; fold lit; by rewrite Hs. }
  rewrite H by apply startswith_self_app. by rewrite slice_from_app.
Qed.

Lemma string_eqb_app_nl (t rest : string) :
  t <> "" -> rest <> "" -> String.eqb (t +:+ rest) Py.nl = false.
Proof.
  intros Ht Hr. apply String.eqb_neq. intros H.
  apply (f_equal String.length) in H. rewrite str_length_app in H.
  destruct t, rest; cbn in H; try done; lia.
Qed.

(** The lazy group runs over text in which no field break starts. *)
Lemma lazy_until_fields_skip (chunk rest : string) :
  clear_of field_break chunk = true -> rest <> "" ->
  Re.lazy_until_fields (chunk +:+ rest) = chunk +:+ Re.lazy_until_fields rest.
Proof.
  intros Hc Hr. induction chunk as [|c chunk IH]; [done|].
  cbn [clear_of] in Hc. apply andb_true_iff in Hc as [Hi Hc].
  cbn [String.append Re.lazy_until_fields].
  change (String c (chunk +:+ rest)) with (String c chunk +:+ rest) at 1 2 3.
  fold field_break.
  rewrite (incompatible_startswith _ _ _ Hi).
  rewrite string_eqb_app_nl by done.
  replace (String.eqb (String c chunk +:+ rest) "") with false
    by (symmetry; by apply String.eqb_neq).
  cbn [orb String.append]. by rewrite IH.
Qed.

Lemma lstrip_length (s : string) :
  (String.length (Py.lstrip s) <= String.length s)%nat.
Proof.
  induction s as [|c s IH]; [done|]. cbn [Py.lstrip].
  destruct (Py.is_space c); cbn; lia.
Qed.

Lemma rstrip_idem (s : string) : Py.rstrip (Py.rstrip s) = Py.rstrip s.
Proof.
  induction s as [|c s IH]; [done|]. cbn [Py.rstrip].
  destruct (Py.rstrip s) as [|d r] eqn:E.
  - destruct (Py.is_space c) eqn:Ec; [done|]. cbn. by rewrite Ec.
  - cbn [Py.rstrip] in *. by rewrite IH.
Qed.

Lemma lstrip_idem (s : string) : Py.lstrip (Py.lstrip s) = Py.lstrip s.
Proof.
  induction s as [|c s IH]; [done|]. cbn [Py.lstrip].
  destruct (Py.is_space c) eqn:Ec; [done|]. cbn. by rewrite Ec.
Qed.

Lemma lstrip_rstrip (s : string) :
  Py.lstrip s = s -> Py.lstrip (Py.rstrip s) = Py.rstrip s.
Proof.
  destruct s as [|c s]; [done|]. cbn [Py.lstrip Py.rstrip].
  destruct (Py.is_space c) eqn:Ec.
  - intros H. apply (f_equal String.length) in H.
    pose proof (lstrip_length s). cbn in H. lia.
  - intros _. destruct (Py.rstrip s); cbn; by rewrite Ec.
Qed.

Lemma strip_idem (s : string) : Py.strip (Py.strip s) = Py.strip s.
Proof.
  unfold Py.strip.
  rewrite (lstrip_rstrip (Py.lstrip s)) by apply lstrip_idem.
  apply rstrip_idem.
Qed.

Lemma rstrip_app (a b : string) :
  Py.rstrip b <> "" -> Py.rstrip (a +:+ b) = a +:+ Py.rstrip b.
Proof.
  intros Hb. induction a as [|c a IH]; [done|].
  cbn [String.append Py.rstrip]. rewrite IH.
  destruct (a +:+ Py.rstrip b) eqn:E; [|done].
  destruct a; [done|discriminate].
Qed.

Lemma lstrip_app (t rest : string) :
  t <> "" -> Py.lstrip t = t -> Py.lstrip (t +:+ rest) = t +:+ rest.
Proof.
  destruct t as [|c t]; [done|]. intros _. cbn [Py.lstrip String.append].
  destruct (Py.is_space c); [|done].
  intros H. apply (f_equal String.length) in H.
  pose proof (lstrip_length t). cbn in H. lia.
Qed.

Lemma strip_lstrip (s : string) : Py.lstrip (Py.strip s) = Py.strip s.
Proof. unfold Py.strip. apply lstrip_rstrip, lstrip_idem. Qed.

Lemma str_of_int_chars (P : ascii -> bool) (n : Z) :
  P "-"%char = true -> (forall c, Re.is_digit c = true -> P c = true) ->
  all_chars P (Py.str_of_int n) = true.
Proof.
  intros Hminus Hdigit. unfold Py.str_of_int.
  assert (forall u, all_chars P (NilZero.string_of_uint u) = true) as Hu.
  { intros u. apply (all_chars_impl _ _ _ Hdigit).
    unfold NilZero.string_of_uint.
    destruct u eqn:E; [done|..]; rewrite <- E; apply string_of_uint_digits. }
  destruct n as [|p|p]; cbn [Z.to_int NilZero.string_of_int]; [done|apply Hu|].
  cbn [all_chars]. by rewrite Hminus, Hu.
Qed.

(** The rendering of a message with a text, cut after the text: what
    follows starts with two stars when the message is annotated, and
    is the closing rule otherwise. *)
Lemma format_message_as_markdown_content self message channel_name media_path :
  opt_truthy (msg_text message) = true ->
  exists rest,
    format_message_as_markdown self message channel_name media_path
    = ("## Message " +:+ Py.str_of_int (msg_id message)) +:+
      (Py.nl +:+ Py.nl +:+ "**Channel:** ") +:+ channel_name +:+
      (Py.nl +:+ "**Sender:** ") +:+ sender_label message +:+
      (Py.nl +:+ "**Date:** ") +:+ strftime_datetime (msg_date message) +:+
      (Py.nl +:+ "**Message ID:** ") +:+ Py.str_of_int (msg_id message) +:+
      (Py.nl +:+ Py.nl) +:+ ("### Content" +:+ Py.nl +:+ Py.nl) +:+
      Py.strip (default "" (msg_text message)) +:+ (Py.nl +:+ Py.nl) +:+ rest /\
    if annotated message media_path
    then exists more, rest = "**" +:+ more
    else rest = "---" +:+ Py.nl +:+ Py.nl.
Proof.
  intros Htext. unfold format_message_as_markdown, annotated. cbv zeta.
  rewrite Htext.
  generalize (sender_label message) as sender.
  generalize (strftime_datetime (msg_date message)) as timestamp.
  generalize (Py.str_of_int (msg_id message)) as id.
  generalize (Py.strip (default "" (msg_text message))) as text.
  intros text id timestamp sender.
  assert (media_markup message media_path = ""
          \/ exists m, media_markup message media_path = "**" +:+ m) as Hmedia.
  { unfold media_markup.
    destruct (msg_media message) as [[|[doc|]|type_name]|]; try (by left).
    - destruct (opt_truthy media_path); right; eexists; reflexivity.
    - destruct (opt_truthy media_path);
        [destruct (opt_truthy (mime_type doc) &&
                   Py.startswith "image/" (default "" (mime_type doc)))|];
        right; eexists; reflexivity.
    - right. eexists. reflexivity. }
  destruct Hmedia as [->|[m ->]].
  - destruct (msg_forward message), (msg_reply_to message);
      cbn [Py.truthy orb]; eexists;
      (split; [rewrite !str_app_assoc; reflexivity|]);
      try (eexists; reflexivity); reflexivity.
  - change (Py.truthy ("**" +:+ m)) with true. cbn [orb].
    destruct (msg_forward message), (msg_reply_to message);
      eexists; (split; [rewrite !str_app_assoc; reflexivity|]);
      eexists; reflexivity.
Qed.

Lemma lazy_until_fields_stop (s : string) :
  Py.startswith field_break s = true -> Re.lazy_until_fields s = "".
Proof.
  intros H. destruct s; cbn [Re.lazy_until_fields]; fold field_break; by rewrite H.
Qed.

Lemma strftime_datetime_all (P : ascii -> bool) (d : datetime) :
  P "-"%char = true -> P " "%char = true -> P ":"%char = true ->
  (forall c, Re.is_digit c = true -> P c = true) ->
  all_chars P (strftime_datetime d) = true.
Proof.
  intros H1 H2 H3 Hdigit.
  assert (forall n w, all_chars P (zfill w (Py.str_of_nat n)) = true) as Hz.
  { intros n w. eapply all_chars_impl; [exact Hdigit|].
    apply zfill_digits, str_of_nat_digits. }
  unfold strftime_datetime, strftime_date, strftime_time.
  rewrite !all_chars_app, !Hz. cbn. by rewrite H1, H2, H3.
Qed.

End ContentReadBack.

(** What [make_result] reads as the full content of the rendering of a
    message with a text, taken without its header. *)
Lemma rendered_section_full_content (self : TelegramArchiver) (message : Message)
    (channel_name : string) (media_path : option string)
    (query channel file_name : string) (i : nat) :
  opt_truthy (msg_text message) = true ->
  let text := Py.strip (default "" (msg_text message)) in
  text <> "" ->
  clear_of field_break text = true ->
  all_chars (not_char "#") channel_name = true ->
  all_chars (not_char "#") (sender_label message) = true ->
  let r := make_result query channel file_name i
             (rendered_section self message channel_name media_path) in
  res_full_content r
  = if annotated message media_path then text
    else text +:+ Py.nl +:+ Py.nl +:+ "---".
Proof.
  intros Htext text Hne Hclear Hch Hsender. cbv zeta.
  assert (all_chars (not_char "#") (Py.str_of_int (msg_id message)) = true) as Hid.
  { apply str_of_int_chars; [done|].
    intros c Hc. unfold Re.is_digit, not_char in *.
    destruct (Ascii.eqb_spec "#"%char c) as [<-|]; done. }
  assert (all_chars (not_char "#") (strftime_datetime (msg_date message)) = true) as Hts.
  { apply strftime_datetime_all; try done.
    intros c Hc. unfold Re.is_digit, not_char in *.
    destruct (Ascii.eqb_spec "#"%char c) as [<-|]; done. }
  unfold rendered_section.
  destruct (format_message_as_markdown_content self message channel_name media_path Htext)
    as (rest & -> & Hrest).
  rewrite slice_from_app. fold text.
  unfold make_result. cbn [res_full_content].
  rewrite (search_content_skip (Py.nl +:+ Py.nl +:+ "**Channel:** ")) by reflexivity.
  rewrite (search_content_skip channel_name) by (by eapply all_chars_clear_of).
  rewrite (search_content_skip (Py.nl +:+ "**Sender:** ")) by reflexivity.
  rewrite (search_content_skip (sender_label message))
    by (by eapply all_chars_clear_of).
  rewrite (search_content_skip (Py.nl +:+ "**Date:** ")) by reflexivity.
  rewrite (search_content_skip (strftime_datetime (msg_date message)))
    by (by eapply all_chars_clear_of).
  rewrite (search_content_skip (Py.nl +:+ "**Message ID:** ")) by reflexivity.
  rewrite (search_content_skip (Py.str_of_int (msg_id message)))
    by (by eapply all_chars_clear_of).
  rewrite (search_content_skip (Py.nl +:+ Py.nl)) by reflexivity.
  rewrite search_content_hit.
  rewrite lazy_until_fields_skip by done.
  destruct (annotated message media_path).
  - destruct Hrest as [more ->].
    change ((Py.nl +:+ Py.nl) +:+ "**" +:+ more) with (field_break +:+ more).
    rewrite lazy_until_fields_stop by apply startswith_self_app.
    rewrite str_app_nil_r. apply strip_idem.
  - subst rest.
    change (Re.lazy_until_fields ((Py.nl +:+ Py.nl) +:+ "---" +:+ Py.nl +:+ Py.nl))
      with (Py.nl +:+ Py.nl +:+ "---" +:+ Py.nl).
    unfold Py.strip.
    rewrite lstrip_app by (done || apply strip_lstrip).
    by rewrite rstrip_app.
Qed.

(** ** A rendered message in a file that the search reads *)

Section SectionsOfFiles.

Lemma read_text_id (s : string) :
  all_chars (not_char CR) s = true -> read_text s = s.
Proof.
  induction s as [|c s IH]; [done|]. cbn [all_chars read_text].
  intros [Hc Hs]%andb_true_iff. unfold not_char in Hc. apply negb_true_iff in Hc.
  rewrite Ascii.eqb_sym in Hc. rewrite Hc. by rewrite IH.
Qed.

Lemma ends_bol_app (bol : bool) (a b : string) :
  ends_bol bol (a +:+ b) = ends_bol (ends_bol bol a) b.
Proof.
  revert bol. induction a as [|c a IH]; intros bol; [done|].
  cbn [String.append ends_bol]. apply IH.
Qed.

Lemma incompatible_app (lit t b : string) :
  incompatible lit t = true -> incompatible lit (t +:+ b) = true.
Proof.
  revert t. induction lit as [|x lit IH]; intros [|y t] H; cbn in *; try done.
  apply orb_true_iff in H as [H|H]; [by rewrite H|].
  rewrite (IH _ H). by rewrite orb_true_r.
Qed.

Lemma no_header_start_app (bol : bool) (a b : string) :
  no_header_start bol a = true ->
  no_header_start (ends_bol bol a) b = true ->
  no_header_start bol (a +:+ b) = true.
Proof.
  revert bol. induction a as [|c a IH]; intros bol Ha Hb; [done|].
  cbn [no_header_start ends_bol] in Ha, Hb.
  apply andb_true_iff in Ha as [Hi Ha].
  cbn [String.append no_header_start]. rewrite (IH _ Ha Hb), andb_true_r.
  destruct bol; [|done]. cbn [negb orb] in *.
  change (String c (a +:+ b)) with (String c a +:+ b). by apply incompatible_app.
Qed.

(** Text without a line break starts no line. *)
Lemma no_header_start_line (v : string) :
  all_chars Re.not_newline v = true ->
  no_header_start false v = true /\ ends_bol false v = false.
Proof.
  induction v as [|c v IH]; [done|]. cbn [all_chars no_header_start ends_bol].
  intros [Hc Hv]%andb_true_iff. unfold Re.not_newline in Hc.
  apply negb_true_iff in Hc. rewrite Hc. cbn [negb orb andb]. by apply IH.
Qed.

Lemma split_headers_from_nonempty (bol : bool) (skip : nat) (s : string) :
  Re.split_headers_from bol skip s <> [].
Proof.
  intros H. apply (f_equal length) in H.
  by rewrite length_split_headers_from in H.
Qed.

(** Text in which no header starts is one piece. *)
Lemma no_header_split (bol : bool) (s : string) :
  no_header_start bol s = true -> Re.split_headers_from bol 0 s = [s].
Proof.
  revert bol. induction s as [|c s IH]; intros bol H; [done|].
  cbn [no_header_start] in H. apply andb_true_iff in H as [Hi Hs].
  cbn [Re.split_headers_from].
  assert ((if bol then Re.match_header (String c s) else None) = None) as ->.
  { destruct bol; [|done]. cbn [negb orb] in Hi.
    pose proof (incompatible_startswith _ _ "" Hi) as Hf.
    rewrite str_app_nil_r in Hf.
    unfold Re.match_header, Re.match_lit_class1. by rewrite Hf. }
  by rewrite (IH _ Hs).
Qed.

Lemma match_lit_class1_cons (x : ascii) (lit : string) (cls : ascii -> bool)
    (y : ascii) (s : string) :
  Re.match_lit_class1 (String x lit) cls (String y s)
  = if Ascii.eqb x y then Re.match_lit_class1 lit cls s else None.
Proof.
  unfold Re.match_lit_class1, Py.startswith.
  cbn [String.prefix Py.len String.length Py.slice_from].
  destruct (ascii_dec x y) as [->|Hne].
  - by rewrite Ascii.eqb_refl.
  - by apply Ascii.eqb_neq in Hne as ->.
Qed.

Lemma take_while_app_line (cls : ascii -> bool) (t b : string) :
  cls Py.LF = false -> ends_bol false t = true ->
  Re.take_while cls (t +:+ b) = Re.take_while cls t /\
  (String.length (Re.take_while cls t) < String.length t)%nat.
Proof.
  intros Hcls. induction t as [|c t IH]; [done|].
  cbn [ends_bol String.append Re.take_while]. intros Ht.
  destruct (cls c) eqn:Hc; [|cbn; split; [done|lia]].
  assert (Ascii.eqb c Py.LF = false) as Hne.
  { apply Ascii.eqb_neq. intros ->. congruence. }
  rewrite Hne in Ht. destruct (IH Ht) as [-> Hlen]. cbn. split; [done|lia].
Qed.

(** A match of a literal and a class in a text that ends with a line
    break stays inside the text, whatever follows the text. *)
Lemma match_lit_class1_app_line (lit : string) (cls : ascii -> bool) (t b : string) :
  cls Py.LF = false -> all_chars Re.not_newline lit = true ->
  ends_bol false t = true ->
  Re.match_lit_class1 lit cls (t +:+ b) = Re.match_lit_class1 lit cls t /\
  forall g, Re.match_lit_class1 lit cls t = Some g ->
            (String.length lit + String.length g < String.length t)%nat.
Proof.
  intros Hcls. revert t. induction lit as [|x lit IH]; intros t Hlit Ht.
  - destruct (take_while_app_line cls t b Hcls Ht) as [Happ Hlen].
    destruct t as [|c t]; [done|].
    unfold Re.match_lit_class1, Py.startswith.
    cbn [String.append String.prefix Py.len String.length Py.slice_from].
    change (String c (t +:+ b)) with (String c t +:+ b). rewrite Happ.
    split; [done|]. intros g Hg.
    destruct (Re.take_while cls (String c t)) as [|a r] eqn:E; [done|].
    injection Hg as <-. cbn [String.length] in *. lia.
  - destruct t as [|y t]; [done|].
    cbn [all_chars] in Hlit. apply andb_true_iff in Hlit as [Hx Hlit].
    cbn [String.append]. rewrite !match_lit_class1_cons.
    destruct (Ascii.eqb_spec x y) as [<-|Hne]; [|done].
    cbn [ends_bol] in Ht. unfold Re.not_newline in Hx.
    apply negb_true_iff in Hx. rewrite Hx in Ht.
    destruct (IH t Hlit Ht) as [-> Hlen]. split; [done|].
    intros g Hg. specialize (Hlen g Hg). cbn [String.length]. lia.
Qed.

Lemma match_header_app_line (t b : string) :
  ends_bol false t = true ->
  Re.match_header (t +:+ b) = Re.match_header t /\
  forall n, Re.match_header t = Some n -> (0 < n < String.length t)%nat.
Proof.
  intros Ht. unfold Re.match_header.
  destruct (match_lit_class1_app_line "## Message " Re.is_digit t b) as [-> Hlen];
    [done|done|done|].
  split; [done|]. intros n.
  destruct (Re.match_lit_class1 "## Message " Re.is_digit t) as [g|]; [|done].
  intros [= <-]. specialize (Hlen g eq_refl). unfold Py.len. cbn in *. lia.
Qed.

Lemma split_headers_from_skip (x rest : string) (bol : bool) :
  x <> "" ->
  Re.split_headers_from bol (String.length x) (x +:+ rest)
  = Re.split_headers_from false 0 rest.
Proof.
  revert bol. induction x as [|c x IH]; intros bol Hx; [done|].
  cbn [String.length String.append Re.split_headers_from].
  destruct x as [|d x]; [done|]. by apply IH.
Qed.

(** A header at the start of a line is cut out: an empty piece, then
    the pieces of what follows the header. *)
Lemma split_headers_from_header (id : string) (c0 : ascii) (rest : string) :
  all_chars Re.is_digit id = true -> id <> "" -> Re.is_digit c0 = false ->
  Re.split_headers_from true 0 (("## Message " +:+ id) +:+ String c0 rest)
  = "" :: Re.split_headers_from false 0 (String c0 rest).
Proof.
  intros Hdigits Hid Hc0.
  assert (Re.match_header (String "#" ("# Message " +:+ id +:+ String c0 rest))
          = Some (S (String.length ("# Message " +:+ id)))) as Hm.
  { change (String "#" ("# Message " +:+ id +:+ String c0 rest))
      with ("## Message " +:+ id +:+ String c0 rest).
    unfold Re.match_header. rewrite match_lit_class1_hit by done.
    unfold Py.len. rewrite str_length_app. done. }
  change (("## Message " +:+ id) +:+ String c0 rest)
    with (String "#" ("# Message " +:+ id +:+ String c0 rest)).
  cbn [Re.split_headers_from]. rewrite Hm. f_equal.
  replace (S (String.length ("# Message " +:+ id)) - 1)%nat
    with (String.length ("# Message " +:+ id)) by lia.
  rewrite <- str_app_assoc. by apply split_headers_from_skip.
Qed.

Lemma glue_last_empty_head (l xs : list string) :
  l <> [] -> glue_last l ("" :: xs) = (l ++ xs)%list.
Proof.
  induction l as [|p l IH]; [done|]. intros _.
  destruct l as [|q l]; cbn [glue_last app].
  - by rewrite str_app_nil_r.
  - f_equal. by apply IH.
Qed.

Lemma glue_last_snoc (l : list string) (p q : string) (qs : list string) :
  glue_last (l ++ [p]) (q :: qs) = (l ++ (p +:+ q) :: qs)%list.
Proof.
  induction l as [|a l IH]; [done|].
  destruct l as [|a' l]; cbn [glue_last app] in *; [done|]. by rewrite IH.
Qed.

(** The pieces of a text that ends a line, followed by any text: the
    first splits as it does alone, and its last piece runs into the
    first piece of the second. *)
Lemma split_headers_from_app (a b : string) (bol : bool) (skip : nat) :
  ends_bol bol a = true ->
  (skip = 0 \/ skip < String.length a)%nat ->
  Re.split_headers_from bol skip (a +:+ b)
  = glue_last (Re.split_headers_from bol skip a) (Re.split_headers_from true 0 b).
Proof.
  revert bol skip. induction a as [|c a IH]; intros bol skip Hbol Hskip.
  - cbn in Hbol. subst bol. destruct Hskip as [->|Hskip]; [|cbn in Hskip; lia].
    cbn [String.append Re.split_headers_from glue_last].
    destruct (Re.split_headers_from true 0 b) as [|x0 xs] eqn:E; [|done].
    by apply split_headers_from_nonempty in E.
  - cbn [ends_bol] in Hbol.
    assert (a <> "" -> ends_bol false a = true) as Hfalse.
    { intros Ha. by destruct a. }
    cbn [String.append Re.split_headers_from].
    destruct skip as [|k].
    + assert (ends_bol false (String c a) = true) as Ht by done.
      destruct (match_header_app_line (String c a) b Ht) as [Happ Hlen].
      change (String c (a +:+ b)) with (String c a +:+ b). rewrite Happ.
      destruct (if bol then Re.match_header (String c a) else None) as [n|] eqn:Hm.
      * assert (0 < n < S (String.length a))%nat as Hn.
        { destruct bol; [|done]. by apply Hlen. }
        assert (a <> "") as Ha by (intros ->; cbn in Hn; lia).
        rewrite IH; [|by apply Hfalse|lia].
        destruct (Re.split_headers_from false (n - 1) a) as [|p ps] eqn:E;
          [by apply split_headers_from_nonempty in E|done].
      * rewrite (IH _ 0%nat Hbol) by (by left).
        destruct (Re.split_headers_from (Ascii.eqb c Py.LF) 0 a) as [|p ps] eqn:E;
          [by apply split_headers_from_nonempty in E|].
        destruct ps as [|p' ps]; cbn [glue_last]; [|done].
        by destruct (Re.split_headers_from true 0 b).
    + assert (a <> "") as Ha by (intros ->; cbn in Hskip; lia).
      cbn [String.length] in Hskip.
      apply IH; [by apply Hfalse|lia].
Qed.

(** The sections of a file in which a rendering follows a text that
    ends a line: those of the text, then one that opens with the part
    of the rendering in which no header starts. *)
Lemma tail_split_rendering (prefix id body body' rest q : string) (qs : list string) :
  all_chars Re.is_digit id = true -> id <> "" ->
  ends_bol true prefix = true ->
  body = String Py.LF body' ->
  no_header_start false body = true -> ends_bol false body = true ->
  Re.split_headers_from true 0 rest = q :: qs ->
  tail (Re.split_headers (prefix +:+ (("## Message " +:+ id) +:+ body) +:+ rest))
  = (tail (Re.split_headers prefix) ++ (body +:+ q) :: qs)%list.
Proof.
  intros Hdigits Hid Hprefix Hbody Hfree Hend Hrest.
  unfold Re.split_headers. rewrite <- str_app_assoc.
  rewrite split_headers_from_app; [|rewrite ends_bol_app, Hprefix|by left].
  2:{ rewrite ends_bol_app. subst body. exact Hend. }
  rewrite (split_headers_from_app prefix) by (done || by left).
  replace (Re.split_headers_from true 0 (("## Message " +:+ id) +:+ body))
    with ("" :: Re.split_headers_from false 0 body)
    by (subst body; symmetry; by apply split_headers_from_header).
  rewrite (no_header_split _ _ Hfree), Hrest.
  rewrite glue_last_empty_head by apply split_headers_from_nonempty.
  rewrite glue_last_snoc.
  destruct (Re.split_headers_from true 0 prefix) as [|p ps] eqn:E;
    [by apply split_headers_from_nonempty in E|done].
Qed.

Lemma lookup_count_headers (prefix : string) (x : string) (l : list string) :
  (tail (Re.split_headers prefix) ++ x :: l)%list !! count_headers prefix = Some x.
Proof.
  assert (length (tail (Re.split_headers prefix)) = count_headers prefix) as <-.
  { unfold Re.split_headers, count_headers.
    pose proof (length_split_headers_from true 0 prefix) as H.
    destruct (Re.split_headers_from true 0 prefix); cbn in *; lia. }
  apply list_lookup_middle. done.
Qed.

Lemma hits_in_messages_lookup query channel_name file_name i messages j section :
  messages !! j = Some section ->
  Py.contains (Py.lower query) (Py.lower section) = true ->
  make_result query channel_name file_name (i + j) section
  ∈ hits_in_messages query channel_name file_name i messages.
Proof.
  revert i j. induction messages as [|message rest IH]; intros i j Hj Hc; [done|].
  cbn [hits_in_messages]. apply elem_of_app. destruct j as [|j].
  - injection Hj as ->. left. rewrite Hc, Nat.add_0_r. apply list_elem_of_here.
  - right. replace (i + S j)%nat with (S i + j)%nat by lia. by apply IH.
Qed.

(** A section that contains the query is a hit of the search over all
    channels, and a result when the limit does not cut the hits. *)
Lemma section_is_hit archive_dirs archive_dir dir md_files md_file content i section
    query limit :
  archive_dir ∈ archive_dirs -> (dir, EntryDir md_files) ∈ archive_dir ->
  dir <> "media" -> md_file ∈ md_files ->
  md_content md_file = Some content ->
  tail (Re.split_headers content) !! i = Some section ->
  Py.contains (Py.lower query) (Py.lower section) = true ->
  make_result query dir (md_name md_file) i section ∈ all_hits archive_dirs query None /\
  ((length (all_hits archive_dirs query None) <= Z.to_nat limit)%nat ->
   make_result query dir (md_name md_file) i section
   ∈ search_messages archive_dirs query None limit).
Proof.
  intros Hdir Hentry Hmedia Hfile Hcontent Hsection Hquery.
  assert (make_result query dir (md_name md_file) i section
          ∈ all_hits archive_dirs query None) as Hin.
  { unfold all_hits. apply elem_of_concat.
    exists (hits_in_channel query (dir, EntryDir md_files)). split.
    - apply list_elem_of_fmap. exists (dir, EntryDir md_files). split; [done|].
      unfold channels_to_search. cbn [opt_truthy]. apply elem_of_concat.
      eexists. split; [apply list_elem_of_fmap; by exists archive_dir|].
      apply list_elem_of_filter. by repeat split.
    - unfold hits_in_channel. cbn [fst snd glob_md]. apply elem_of_concat.
      exists (hits_in_file query dir md_file). split.
      + apply list_elem_of_fmap. by exists md_file.
      + unfold hits_in_file. rewrite Hcontent.
        by apply (hits_in_messages_lookup _ _ _ 0%nat). }
  split; [exact Hin|]. intros Hlimit.
  rewrite search_messages_take, take_ge; [exact Hin|].
  unfold effective_limit. lia.
Qed.

(** The fields that open a rendering start no header, when the channel
    name and the sender label have no line break. *)
Lemma rendered_fields_free (message : Message) (channel_name : string) :
  all_chars Re.not_newline channel_name = true ->
  all_chars Re.not_newline (sender_label message) = true ->
  all_chars Re.not_newline (Py.str_of_int (msg_id message)) = true ->
  no_header_start false (rendered_fields message channel_name) = true /\
  ends_bol false (rendered_fields message channel_name) = true.
Proof.
  intros Hch Hsender Hid.
  assert (all_chars Re.not_newline (strftime_datetime (msg_date message)) = true) as Hts.
  { eapply all_chars_impl; [|apply strftime_datetime_chars].
    by intros c [_ ?]%andb_true_iff. }
  destruct (no_header_start_line _ Hch) as [Hc1 Hc2].
  destruct (no_header_start_line _ Hsender) as [Hs1 Hs2].
  destruct (no_header_start_line _ Hts) as [Ht1 Ht2].
  destruct (no_header_start_line _ Hid) as [Hi1 Hi2].
  unfold rendered_fields. split.
  - apply no_header_start_app; [reflexivity|].
    change (ends_bol false (Py.nl +:+ Py.nl +:+ "**Channel:** ")) with false.
    apply no_header_start_app; [exact Hc1|]. rewrite Hc2.
    apply no_header_start_app; [reflexivity|].
    change (ends_bol false (Py.nl +:+ "**Sender:** ")) with false.
    apply no_header_start_app; [exact Hs1|]. rewrite Hs2.
    apply no_header_start_app; [reflexivity|].
    change (ends_bol false (Py.nl +:+ "**Date:** ")) with false.
    apply no_header_start_app; [exact Ht1|]. rewrite Ht2.
    apply no_header_start_app; [reflexivity|].
    change (ends_bol false (Py.nl +:+ "**Message ID:** ")) with false.
    apply no_header_start_app; [exact Hi1|]. rewrite Hi2. reflexivity.
  - rewrite !ends_bol_app. reflexivity.
Qed.

(** A rendering ends a line. *)
Lemma format_message_as_markdown_ends self message channel_name media_path bol :
  ends_bol bol (format_message_as_markdown self message channel_name media_path) = true.
Proof.
  unfold format_message_as_markdown. cbv zeta.
  rewrite ends_bol_app. done.
Qed.

End SectionsOfFiles.

(** A message written by the renderer is read back by the search.  In
    a file that holds, after any text that ends a line, the rendering of
    a message and then any text, the section of the message is found
    where the headers before it put it, and the search reads from it
    the message id, the date and the sender as they were rendered; when
    the section contains the query it is a hit of every search over all
    channels of an archive that holds the file, and a result when the
    limit does not cut the hits.  This needs a message id that is not
    negative, a channel name and a sender label without a star and
    without a line break, a sender label that is not empty, and a file
    without carriage returns. *)
Theorem rendered_message_read_back (self : TelegramArchiver) (message : Message)
    (channel_name : string) (media_path : option string)
    (prefix more query file_name : string) :
  (0 <= msg_id message)%Z ->
  all_chars (fun c => not_star c && Re.not_newline c) channel_name = true ->
  all_chars (fun c => not_star c && Re.not_newline c) (sender_label message) = true ->
  sender_label message <> "" ->
  ends_bol true prefix = true ->
  let written :=
    prefix +:+ format_message_as_markdown self message channel_name media_path
    +:+ more in
  all_chars (not_char CR) written = true ->
  let i := count_headers prefix in
  exists section,
    tail (Re.split_headers (read_text written)) !! i = Some section /\
    (forall dir,
       let r := make_result query dir file_name i section in
       res_channel r = dir /\ res_file r = file_name /\
       res_message_id r = Py.str_of_int (msg_id message) /\
       res_date r = strftime_datetime (msg_date message) /\
       res_sender r = sender_label message) /\
    (Py.contains (Py.lower query) (Py.lower section) = true ->
     forall archive_dirs archive_dir dir md_files limit,
       archive_dir ∈ archive_dirs -> (dir, EntryDir md_files) ∈ archive_dir ->
       dir <> "media" -> written_file file_name written ∈ md_files ->
       make_result query dir file_name i section ∈ all_hits archive_dirs query None /\
       ((length (all_hits archive_dirs query None) <= Z.to_nat limit)%nat ->
        make_result query dir file_name i section
        ∈ search_messages archive_dirs query None limit)).
Proof.
  intros Hid Hch Hsender Hne Hprefix written Hcr i.
  destruct (str_of_int_digits _ Hid) as [Hdigits Hidne].
  assert (all_chars not_star channel_name = true) as Hc1.
  { eapply all_chars_impl; [|exact Hch]. by intros c [? _]%andb_true_iff. }
  assert (all_chars Re.not_newline channel_name = true) as Hc2.
  { eapply all_chars_impl; [|exact Hch]. by intros c [_ ?]%andb_true_iff. }
  assert (all_chars Re.not_newline (sender_label message) = true) as Hs2.
  { eapply all_chars_impl; [|exact Hsender]. by intros c [_ ?]%andb_true_iff. }
  assert (all_chars Re.not_newline (Py.str_of_int (msg_id message)) = true) as Hi2.
  { eapply all_chars_impl; [|exact Hdigits].
    intros c Hc. unfold Re.is_digit, Re.not_newline, Py.LF in *.
    destruct (Ascii.eqb_spec c "010"%char) as [->|]; done. }
  destruct (rendered_fields_free message channel_name Hc2 Hs2 Hi2) as [Hfree Hend].
  rewrite (read_text_id _ Hcr).
  destruct (format_message_as_markdown_section self message channel_name media_path)
    as [rest Hformat].
  destruct (Re.split_headers_from true 0 (rest +:+ more)) as [|q qs] eqn:Hsplit;
    [by apply split_headers_from_nonempty in Hsplit|].
  assert (written
          = prefix +:+ (("## Message " +:+ Py.str_of_int (msg_id message)) +:+
                        rendered_fields message channel_name) +:+ (rest +:+ more))
    as Hwritten.
  { unfold written, rendered_fields. rewrite Hformat, !str_app_assoc. done. }
  exists (rendered_fields message channel_name +:+ q).
  assert (tail (Re.split_headers written) !! i
          = Some (rendered_fields message channel_name +:+ q)) as Hsection.
  { rewrite Hwritten.
    erewrite tail_split_rendering; [apply lookup_count_headers|done..]. }
  split; [exact Hsection|]. split.
  - intros dir.
    pose proof (make_result_fields query dir file_name i channel_name
                  (sender_label message) (strftime_datetime (msg_date message))
                  (Py.str_of_int (msg_id message)) q Hdigits Hidne Hc1 Hsender Hne
                  (strftime_datetime_chars _) (strftime_datetime_nonempty _)) as H.
    cbv zeta in H. cbv zeta.
    replace (rendered_fields message channel_name +:+ q)
      with ((Py.nl +:+ Py.nl +:+ "**Channel:** ") +:+ channel_name +:+
            (Py.nl +:+ "**Sender:** ") +:+ sender_label message +:+
            (Py.nl +:+ "**Date:** ") +:+ strftime_datetime (msg_date message) +:+
            (Py.nl +:+ "**Message ID:** ") +:+ Py.str_of_int (msg_id message) +:+
            String Py.LF q); [exact H|].
    unfold rendered_fields. by rewrite !str_app_assoc.
  - intros Hquery archive_dirs archive_dir dir md_files limit Hdir Hentry Hmedia Hfile.
    apply (section_is_hit archive_dirs archive_dir dir md_files
             (written_file file_name written) written i); try done.
    cbn [written_file md_content]. by rewrite (read_text_id _ Hcr).
Qed.

Lemma rendered_message_read_back_witness :
  exists r,
    r ∈ search_messages sample_live_archive "ATTACH" None 50 /\
    res_channel r = "News" /\ res_file r = "News_2024-03-09_live.md" /\
    res_message_id r = "42" /\ res_date r = "2024-03-09 07:00:59" /\
    res_sender r = "Ann Lee".
Proof.
  destruct (rendered_message_read_back sample_archiver sample_message "News" None
              sample_prefix
              (format_message_as_markdown sample_archiver plain_message "News" None)
              "ATTACH" "News_2024-03-09_live.md")
    as (section & Hsection & Hfields & Hhits).
  - cbn. lia.
  - reflexivity.
  - reflexivity.
  - discriminate.
  - reflexivity.
  - vm_compute. reflexivity.
  - vm_compute in Hsection. injection Hsection as <-.
    destruct (Hhits eq_refl sample_live_archive
                [("News", EntryDir [written_file "News_2024-03-09_live.md" sample_written]);
                 ("media", EntryDir [])]
                "News" [written_file "News_2024-03-09_live.md" sample_written] 50%Z)
      as [_ Hin].
    + apply list_elem_of_here.
    + apply list_elem_of_here.
    + discriminate.
    + apply list_elem_of_here.
    + eexists. split; [apply Hin; vm_compute; lia|]. apply Hfields.
Defined.

(** The text of a rendered message comes back from the search.  In a
    file that holds, after any text that ends a line, the rendering of a
    message with a text and then nothing or another header, the section
    of the message is the rendering without its header, found where the
    headers before it put it, and the full content that the search
    reads from it is the stripped text when a media, forward or reply
    line follows the text, and the text followed by the closing rule
    when none does; when the section contains the query it is a hit of
    every search over all channels of an archive that holds the file,
    and a result when the limit does not cut the hits.  This needs a
    message id that is not negative, a stripped text that is not empty
    and holds no blank line followed by two stars, a channel name and a
    sender label without a hash sign, a rendering in which no line
    after the first starts a header, and a file without carriage
    returns. *)
Theorem rendered_content_read_back (self : TelegramArchiver) (message : Message)
    (channel_name : string) (media_path : option string)
    (prefix more query file_name : string) :
  (0 <= msg_id message)%Z ->
  opt_truthy (msg_text message) = true ->
  let text := Py.strip (default "" (msg_text message)) in
  text <> "" ->
  clear_of field_break text = true ->
  all_chars (not_char "#") channel_name = true ->
  all_chars (not_char "#") (sender_label message) = true ->
  let section := rendered_section self message channel_name media_path in
  no_header_start false section = true ->
  ends_bol true prefix = true ->
  head (Re.split_headers more) = Some "" ->
  let written :=
    prefix +:+ format_message_as_markdown self message channel_name media_path
    +:+ more in
  all_chars (not_char CR) written = true ->
  let i := count_headers prefix in
  tail (Re.split_headers (read_text written)) !! i = Some section /\
  (forall dir,
     res_full_content (make_result query dir file_name i section)
     = if annotated message media_path then text
       else text +:+ Py.nl +:+ Py.nl +:+ "---") /\
  (Py.contains (Py.lower query) (Py.lower section) = true ->
   forall archive_dirs archive_dir dir md_files limit,
     archive_dir ∈ archive_dirs -> (dir, EntryDir md_files) ∈ archive_dir ->
     dir <> "media" -> written_file file_name written ∈ md_files ->
     make_result query dir file_name i section ∈ all_hits archive_dirs query None /\
     ((length (all_hits archive_dirs query None) <= Z.to_nat limit)%nat ->
      make_result query dir file_name i section
      ∈ search_messages archive_dirs query None limit)).
Proof.
  intros Hid Htext text Hne Hclear Hch Hsender section Hfree Hprefix Hmore written Hcr i.
  destruct (str_of_int_digits _ Hid) as [Hdigits Hidne].
  destruct (format_message_as_markdown_section self message channel_name media_path)
    as [rest Hformat].
  assert (section = rendered_fields message channel_name +:+ rest) as Hsection.
  { unfold section, rendered_section. rewrite Hformat, slice_from_app.
    unfold rendered_fields. by rewrite !str_app_assoc. }
  assert (format_message_as_markdown self message channel_name media_path
          = ("## Message " +:+ Py.str_of_int (msg_id message)) +:+ section)
    as Hrendering.
  { rewrite Hsection, Hformat. unfold rendered_fields. by rewrite !str_app_assoc. }
  assert (exists section', section = String Py.LF section') as [section' Hline].
  { rewrite Hsection. unfold rendered_fields. eexists. reflexivity. }
  assert (ends_bol false section = true) as Hend.
  { pose proof (format_message_as_markdown_ends self message channel_name media_path
                  false) as H.
    rewrite Hrendering, ends_bol_app, Hline in H. by rewrite Hline. }
  destruct (Re.split_headers more) as [|q qs] eqn:Hsplit; [done|].
  injection Hmore as ->.
  assert (tail (Re.split_headers (read_text written)) !! i = Some section) as Hlookup.
  { rewrite (read_text_id _ Hcr). unfold written. rewrite Hrendering.
    rewrite (tail_split_rendering prefix _ section section' more "" qs) by done.
    rewrite str_app_nil_r. apply lookup_count_headers. }
  split; [exact Hlookup|]. split.
  - intros dir.
    by apply (rendered_section_full_content self message channel_name media_path
                query dir file_name i).
  - intros Hquery archive_dirs archive_dir dir md_files limit Hdir Hentry Hmedia Hfile.
    by apply (section_is_hit archive_dirs archive_dir dir md_files
                (written_file file_name written) (read_text written) i).
Qed.

Lemma rendered_content_read_back_witness :
  exists r,
    r ∈ search_messages sample_live_archive "sec" None 50 /\
    res_message_id r = "43" /\
    res_full_content r = "second" +:+ Py.nl +:+ Py.nl +:+ "---".
Proof.
  destruct (rendered_content_read_back sample_archiver plain_message "News" None
              (sample_prefix +:+
               format_message_as_markdown sample_archiver sample_message "News" None)
              "" "sec" "News_2024-03-09_live.md")
    as (Hsection & Hcontent & Hhits).
  - cbn. lia.
  - reflexivity.
  - discriminate.
  - reflexivity.
  - reflexivity.
  - reflexivity.
  - vm_compute. reflexivity.
  - vm_compute. reflexivity.
  - reflexivity.
  - vm_compute. reflexivity.
  - destruct (Hhits eq_refl sample_live_archive
                [("News", EntryDir [written_file "News_2024-03-09_live.md" sample_written]);
                 ("media", EntryDir [])]
                "News" [written_file "News_2024-03-09_live.md" sample_written] 50%Z)
      as [_ Hin].
    + apply list_elem_of_here.
    + apply list_elem_of_here.
    + discriminate.
    + assert (sample_written
              = (sample_prefix +:+
                 format_message_as_markdown sample_archiver sample_message "News" None)
                +:+ format_message_as_markdown sample_archiver plain_message "News" None
                +:+ "") as -> by (vm_compute; reflexivity).
      apply list_elem_of_here.
    + eexists. split; [apply Hin; vm_compute; lia|].
      split; [vm_compute; reflexivity|]. apply Hcontent.
Defined.
